(** * kBB-8: a shallow embedding of the bootstrap orchestration code

    The development follows the package layout of the repository:

    - [Kubeconfig]    pkg/kubeconfig  (credentials merge and removal)
    - [Controlplane]  pkg/controlplane (etcd, API server, ControlPlane)
    - [Provider]      pkg/provider    (manifest adaptation and apply)
    - [Main]          kBB-8.go        (concurrent start of the providers)

    Go values are modelled as the code has them: a [map[string]*T] is a
    [gmap string T], a pointer that may be [nil] is an [option], a [[]byte]
    is a [list byte], and a call that may return an error or panic yields an
    [Outcome]. *)

From stdpp Require Import gmap strings list fin_maps pretty.
From Stdlib Require Import Strings.Byte ZArith Ascii.

Abbreviation bytes := (list byte).

(** ** Results of a Go call: a value, a returned [error], or a panic. *)

Inductive Outcome (A : Type) : Type :=
  | Ok (a : A)
  | Err (e : string)
  | Panic (msg : string).
Arguments Ok {A} a.
Arguments Err {A} e.
Arguments Panic {A} msg.

(** The runtime error raised by reading a field through a nil pointer. *)
Definition nil_dereference : string :=
  "runtime error: invalid memory address or nil pointer dereference".

(** A computation over a mutable world [St]. The world is returned in every
    case: effects performed before an error or a panic persist. *)
Definition M (St A : Type) : Type := St → Outcome A * St.

Definition ret {St A} (a : A) : M St A := λ s, (Ok a, s).

Definition bind {St A B} (m : M St A) (k : A → M St B) : M St B :=
  λ s, match m s with
       | (Ok a, s') => k a s'
       | (Err e, s') => (Err e, s')
       | (Panic p, s') => (Panic p, s')
       end.

Definition throw {St A} (e : string) : M St A := λ s, (Err e, s).
Definition panic {St A} (p : string) : M St A := λ s, (Panic p, s).

Declare Scope go_scope.
Delimit Scope go_scope with go.
Notation "'let!' x ':=' m 'in' k" := (bind m (λ x, k))
  (at level 10, x name, m at level 100, k at level 200) : go_scope.
Notation "'do!' m 'in' k" := (bind m (λ _, k))
  (at level 10, m at level 100, k at level 200) : go_scope.

(** [if err != nil { return err }] for a call that only reports an error. *)
Definition check {St} (r : option string) : M St unit :=
  match r with
  | None => ret tt
  | Some e => throw e
  end.

(** [fmt.Errorf] with a prefix, a colon and the error of a step. *)
Definition wrap {St A} (prefix : string) (m : M St A) : M St A :=
  λ s, match m s with
       | (Err e, s') => (Err (prefix +:+ ": " +:+ e), s')
       | r => r
       end.

(** ** The Go standard library functions the code calls *)

Module Go.

(** strconv.Itoa and the [%d] verb of fmt.Sprintf. *)
Definition Itoa (n : Z) : string := pretty n.

Fixpoint IndexByte (s : string) (c : ascii) (i : Z) : Z :=
  match s with
  | EmptyString => -1
  | String a rest => if decide (a = c) then i else IndexByte rest c (i + 1)
  end.

(** net.JoinHostPort: a host with a colon is taken for an IPv6 literal. *)
Definition JoinHostPort (host port : string) : string :=
  if decide (0 ≤ IndexByte host ":" 0)%Z
  then "[" +:+ host +:+ "]:" +:+ port
  else host +:+ ":" +:+ port.

(** net/url: shouldEscape in the encodeHost mode. *)
Definition between (lo hi c : ascii) : bool :=
  bool_decide (nat_of_ascii lo ≤ nat_of_ascii c ≤ nat_of_ascii hi).

(** The bytes a host keeps besides letters and digits, by code: the
    sub-delimiters, the colon, the brackets, the angle brackets and the
    double quote. *)
Definition hostAllowed : list nat :=
  [33; 36; 38; 39; 40; 41; 42; 43; 44; 59; 61; 58; 91; 93; 60; 62; 34].

(** The unreserved marks: hyphen, underscore, period and tilde. *)
Definition unreservedMark : list nat := [45; 95; 46; 126].

Definition shouldEscapeHost (c : ascii) : bool :=
  if between "a" "z" c || between "A" "Z" c || between "0" "9" c then false
  else if bool_decide (nat_of_ascii c ∈ hostAllowed) then false
  else if bool_decide (nat_of_ascii c ∈ unreservedMark) then false
  else true.

Definition upperhex (n : nat) : ascii :=
  default "0"%char (String.get n "0123456789ABCDEF").

Fixpoint escapeHost (s : string) : string :=
  match s with
  | EmptyString => EmptyString
  | String c rest =>
      if shouldEscapeHost c
      then String "%" (String (upperhex (nat_of_ascii c / 16))
                         (String (upperhex (nat_of_ascii c mod 16)) (escapeHost rest)))
      else String c (escapeHost rest)
  end.

(** url.URL with the two fields the code sets. *)
Record URL := mkURL {
  Scheme : string;
  Host : string;
}.

(** The String method of a URL with only a scheme and a host. *)
Definition URL_String (u : URL) : string :=
  (if decide (Scheme u ≠ "") then Scheme u +:+ ":" else "") +:+
  (if decide (Scheme u ≠ "" ∨ Host u ≠ "")
   then (if decide (Host u ≠ "") then "//" +:+ escapeHost (Host u) else "")
   else "").

(** strings.Join with a slash. *)
Fixpoint joinSlash (elem : list string) : string :=
  match elem with
  | [] => ""
  | [e] => e
  | e :: rest => e +:+ "/" +:+ joinSlash rest
  end.

Fixpoint splitSlash (s : list ascii) : list (list ascii) :=
  match s with
  | [] => [[]]
  | c :: rest =>
      let parts := splitSlash rest in
      if decide (c = "/"%char) then [] :: parts
      else match parts with
           | part :: parts => (c :: part) :: parts
           | [] => [[c]]
           end
  end.

(** filepath.Clean, an element at a time: empty and dot elements go, a
    dot-dot element takes away the element before it. *)
Definition cleanStep (rooted : bool) (stack : list string) (e : string) : list string :=
  if decide (e = "" ∨ e = ".") then stack
  else if decide (e = "..") then
    match stack with
    | top :: rest => if decide (top = "..") then e :: stack else rest
    | [] => if rooted then [] else [e]
    end
  else e :: stack.

Definition Clean (path : string) : string :=
  if decide (path = "") then "."
  else
    let rooted := bool_decide (String.get 0 path = Some "/"%char) in
    let elems := String.string_of_list_ascii <$> splitSlash (String.list_ascii_of_string path) in
    let body := joinSlash (reverse (foldl (cleanStep rooted) [] elems)) in
    if rooted then "/" +:+ body
    else if decide (body = "") then "." else body.

(** filepath.Join: empty elements are ignored and the result is cleaned. *)
Definition Join (elem : list string) : string :=
  match filter (λ e, e ≠ "") elem with
  | [] => ""
  | nonempty => Clean (joinSlash nonempty)
  end.

(** filepath.Base with the slash as the separator. *)
Fixpoint dropTrailingSlashes (rev_path : list ascii) : list ascii :=
  match rev_path with
  | "/"%char :: rest => dropTrailingSlashes rest
  | _ => rev_path
  end.

Fixpoint lastElement (rev_path : list ascii) : list ascii :=
  match rev_path with
  | [] => []
  | c :: rest => if decide (c = "/"%char) then [] else c :: lastElement rest
  end.

Definition Base (path : string) : string :=
  if decide (path = "") then "."
  else
    let stripped := dropTrailingSlashes (reverse (String.list_ascii_of_string path)) in
    let base := String.string_of_list_ascii (reverse (lastElement stripped)) in
    if decide (base = "") then "/" else base.

(** strings.CutPrefix and strings.TrimPrefix *)
Fixpoint CutPrefix (s prefix : string) : option string :=
  match prefix, s with
  | EmptyString, _ => Some s
  | String p prefix', String c s' =>
      if decide (c = p) then CutPrefix s' prefix' else None
  | String _ _, EmptyString => None
  end.

Definition TrimPrefix (s prefix : string) : string :=
  default s (CutPrefix s prefix).

(** strings.ToUpper and strings.ToLower. Both first scan the bytes of the
    text: when none of them is [utf8.RuneSelf] (0x80) or above, the text is
    ASCII and its letters are mapped byte by byte; otherwise the result is
    [strings.Map(unicode.ToUpper, s)] (or [unicode.ToLower]), which decodes
    the runes and consults the case tables of package unicode. The tables
    are outside the repository: [MapToUpper s] and [MapToLower s] stand
    for these two calls. *)
Class Unicode := mkUnicode {
  MapToUpper : string → string;
  MapToLower : string → string;
}.

Fixpoint isASCII (s : string) : bool :=
  match s with
  | EmptyString => true
  | String c rest => (nat_of_ascii c <? 128) && isASCII rest
  end.

Definition upper (c : ascii) : ascii :=
  if between "a" "z" c then ascii_of_nat (nat_of_ascii c - 32) else c.

Definition lower (c : ascii) : ascii :=
  if between "A" "Z" c then ascii_of_nat (nat_of_ascii c + 32) else c.

(** The loop of the ASCII branch. *)
Fixpoint mapBytes (f : ascii → ascii) (s : string) : string :=
  match s with
  | EmptyString => EmptyString
  | String c rest => String (f c) (mapBytes f rest)
  end.

Definition ToUpper {uc : Unicode} (s : string) : string :=
  if isASCII s then mapBytes upper s else MapToUpper s.

Definition ToLower {uc : Unicode} (s : string) : string :=
  if isASCII s then mapBytes lower s else MapToLower s.

End Go.

(** ** pkg/kubeconfig *)

Module Kubeconfig.

(** clientcmdapi.Cluster, AuthInfo, Context and Config, restricted to the
    fields the package reads or writes. *)
Record Cluster := mkCluster {
  Server : string;
  CertificateAuthorityData : bytes;
}.

Record AuthInfo := mkAuthInfo {
  ClientKeyData : bytes;
  ClientCertificateData : bytes;
}.

Record Context := mkContext {
  ctx_Cluster : string;
  ctx_AuthInfo : string;
}.

Record Config := mkConfig {
  Clusters : gmap string Cluster;
  AuthInfos : gmap string AuthInfo;
  Contexts : gmap string Context;
  CurrentContext : string;
}.

(** clientcmdapi.NewConfig() *)
Definition NewConfig : Config := mkConfig ∅ ∅ ∅ "".

Definition systemPrivilegedGroup : string := "system:masters".

Definition clusterKey (clusterName : string) : string :=
  "kBB-8-" +:+ clusterName.

Definition contextKey (clusterName : string) : string :=
  "kBB-8-" +:+ clusterName.

Definition userKey (clusterName : string) : string :=
  "kBB-8-" +:+ clusterName +:+ "-admin".

(** certs.TinyCA as [create] uses it: the CA certificate and the issuing of
    a client certificate, each step of which can fail. *)
Record ClientInfo := mkClientInfo {
  ci_Name : string;
  ci_Groups : list string;
}.

Inductive Issued :=
  | IssueFailed (e : string)          (* NewClientCert returned an error *)
  | EncodeFailed (e : string)         (* AsBytes returned an error *)
  | IssuedPair (cert key : bytes).

Record TinyCA := mkTinyCA {
  CertBytes : bytes;
  NewClientCert : ClientInfo → Issued;
}.

(** [create]: the pair (config, err) that the Go function returns; the
    config is nil exactly when err is not. *)
Definition create (ca : TinyCA) (clusterName url : string)
  : option Config * option string :=
  match NewClientCert ca (mkClientInfo (userKey clusterName) [systemPrivilegedGroup]) with
  | IssueFailed e => (None, Some e)
  | EncodeFailed e => (None, Some e)
  | IssuedPair certBytes keyBytes =>
      (Some {| Clusters := {[ clusterKey clusterName :=
                                mkCluster url (CertBytes ca) ]};
               AuthInfos := {[ userKey clusterName :=
                                 mkAuthInfo keyBytes certBytes ]};
               Contexts := {[ contextKey clusterName :=
                                mkContext (clusterKey clusterName) (userKey clusterName) ]};
               CurrentContext := contextKey clusterName |},
       None)
  end.

(** The inner loop of [merge]: range over the existing names, replace the
    entry whose name equals [newName], and report whether none did. *)
Definition scan {V} (newName : string) (newV : V) (existing : gmap string V)
  : gmap string V * bool :=
  map_fold (λ existingName _ '(m, shouldAppend),
              if decide (existingName = newName)
              then (<[existingName := newV]> m, false)
              else (m, shouldAppend))
           (existing, true) existing.

(** One of the three outer loops of [merge]. *)
Definition mergeEntries {V} (new existing : gmap string V) : gmap string V :=
  map_fold (λ newName newV ex,
              let '(ex', shouldAppend) := scan newName newV ex in
              if shouldAppend then <[newName := newV]> ex' else ex')
           existing new.

(** [merge] mutates [existing] in place; the mutated config is the result.
    The Go function always returns a nil error. *)
Definition merge (new existing : Config) : Config :=
  {| Clusters := mergeEntries (Clusters new) (Clusters existing);
     AuthInfos := mergeEntries (AuthInfos new) (AuthInfos existing);
     Contexts := mergeEntries (Contexts new) (Contexts existing);
     CurrentContext := CurrentContext new |}.

(** [remove]: the mutated config and the [mutated] flag. *)
Definition remove (clusterName : string) (config : Config) : Config * bool :=
  let mutated := false in
  let '(clusters, mutated) :=
    match Clusters config !! clusterKey clusterName with
    | Some _ => (delete (clusterKey clusterName) (Clusters config), true)
    | None => (Clusters config, mutated)
    end in
  let '(authInfos, mutated) :=
    match AuthInfos config !! userKey clusterName with
    | Some _ => (delete (userKey clusterName) (AuthInfos config), true)
    | None => (AuthInfos config, mutated)
    end in
  let '(contexts, mutated) :=
    match Contexts config !! contextKey clusterName with
    | Some _ => (delete (contextKey clusterName) (Contexts config), true)
    | None => (Contexts config, mutated)
    end in
  let '(current, mutated) :=
    if decide (CurrentContext config = contextKey clusterName)
    then ("", true)
    else (CurrentContext config, mutated) in
  (mkConfig clusters authInfos contexts current, mutated).

(** *** The credentials files

    client-go's clientcmd is outside the repository. A file system maps a
    path to the config that [LoadFromFile] parses from it; a path outside
    the map cannot be loaded, and [WriteToFile] fails on the paths listed
    as unwritable. *)
Record FS := mkFS {
  files : gmap string Config;
  unwritable : gset string;
}.

Definition LoadFromFile (path : string) : M FS Config :=
  λ fs, match files fs !! path with
        | Some c => (Ok c, fs)
        | None => (Err ("open " +:+ path +:+ ": no such file or directory"), fs)
        end.

Definition WriteToFile (c : Config) (path : string) : M FS unit :=
  λ fs, if decide (path ∈ unwritable fs)
        then (Err ("open " +:+ path +:+ ": permission denied"), fs)
        else (Ok tt, mkFS (<[path := c]> (files fs)) (unwritable fs)).

(** clientcmd.ClientConfigLoadingRules: [Precedence] comes from the
    environment (KUBECONFIG or the home file). *)
Record Rules := mkRules {
  ExplicitPath : string;
  Precedence : list string;
}.

(** What [rules.Load()] answers. *)
Inductive Loaded :=
  | LoadOk (c : Config)
  | LoadErr (e : string) (isNotExist : bool).

(** The parts of clientcmd the package calls and that depend on the
    process environment. *)
Record Clientcmd := mkClientcmd {
  defaultPrecedence : list string;
  rules_Load : Rules → FS → Loaded;
  GetDefaultFilename : Rules → FS → string;
}.

Definition getConfigLoadingRules (cc : Clientcmd) (explicitPath : string) : Rules :=
  let rules := mkRules "" (defaultPrecedence cc) in
  if decide (explicitPath ≠ "")
  then mkRules explicitPath (Precedence rules)
  else rules.

(** rules.GetLoadingPrecedence() *)
Definition GetLoadingPrecedence (rules : Rules) : list string :=
  if decide (ExplicitPath rules ≠ "") then [ExplicitPath rules] else Precedence rules.

(** [CreateOrMerge]. The error of [create] is dropped by the Go code, so a
    nil [newConfig] reaches [merge], whose first statement reads
    [new.Clusters]. *)
Definition CreateOrMerge (cc : Clientcmd) (ca : TinyCA)
    (url clusterName explicitPath : string) : M FS (string * string) :=
  λ fs,
    let rules := getConfigLoadingRules cc explicitPath in
    let loaded :=
      match rules_Load cc rules fs with
      | LoadOk c => Ok c
      | LoadErr e isNotExist =>
          if negb (bool_decide (explicitPath ≠ "") && isNotExist)
          then Err e
          else Ok NewConfig
      end in
    match loaded with
    | Err e => (Err e, fs)
    | Panic p => (Panic p, fs)
    | Ok existingConfig =>
        match fst (create ca clusterName url) with
        | None => (Panic nil_dereference, fs)
        | Some newConfig =>
            let existingConfig := merge newConfig existingConfig in
            let kubeConfigPath := GetDefaultFilename cc rules fs in
            match WriteToFile existingConfig kubeConfigPath fs with
            | (Ok _, fs') => (Ok (kubeConfigPath, CurrentContext existingConfig), fs')
            | (Err e, fs') => (Err e, fs')
            | (Panic p, fs') => (Panic p, fs')
            end
        end
    end.

(** The body of the loop of [Remove] for one path. *)
Definition removeFrom (clusterName kubeConfigPath : string) : M FS unit :=
  (let! existingConfig := LoadFromFile kubeConfigPath in
   let '(existingConfig, mutated) := remove clusterName existingConfig in
   if mutated then WriteToFile existingConfig kubeConfigPath else ret tt)%go.

Fixpoint removeAll (clusterName : string) (paths : list string) : M FS unit :=
  match paths with
  | [] => ret tt
  | kubeConfigPath :: rest =>
      (do! removeFrom clusterName kubeConfigPath in
       removeAll clusterName rest)%go
  end.

Definition Remove (cc : Clientcmd) (clusterName explicitPath : string) : M FS unit :=
  let rules := getConfigLoadingRules cc explicitPath in
  removeAll clusterName (GetLoadingPrecedence rules).

End Kubeconfig.

(** ** The operating system and pkg/process *)

Module Sys.

Inductive Component := CEtcd | CAPIServer | CProvider.

(** process.State as its callers fill it. *)
Record ProcessState := mkProcessState {
  ps_Path : string;
  ps_Args : list string;
  ps_HealthCheckURL : Go.URL;
  ps_HealthCheckPath : string;
}.

(** The calls that leave the program, in the order they are made. The
    component is the one whose method makes the call. *)
Inductive Event :=
  | EvMkdirAll (path : string)
  | EvOpenFile (path : string)
  | EvSuggest
  | EvSetupPKI (dir : string)
  | EvInit (c : Component)
  | EvStart (c : Component)
  | EvStop (c : Component)
  | EvFlush (c : Component)
  | EvClose (c : Component)
  | EvRemoveAll (dir : string)
  | EvCreateOrMerge (clusterName : string)
  | EvRemove (clusterName : string).

#[global] Instance Component_eq_dec : EqDecision Component.
Proof. solve_decision. Defined.

#[global] Instance Event_eq_dec : EqDecision Event.
Proof. solve_decision. Defined.

Record World := mkWorld {
  kube : Kubeconfig.FS;
  events : list Event;
  suggested : nat;
}.

(** What the environment answers, and what the code outside src/ does.
    pkg/process is not among the sources: Init, Start and Stop of a
    process.State are fields here, and Stop receives its receiver as the
    pointer it is, nil or not. [pki] stands for the certificate generation
    and the file writes of setupPKI, taken as one fallible step. *)
Record OS := mkOS {
  Getwd : Outcome string;
  MkdirAll : string → option string;
  OpenFile : string → option string;
  Suggest : nat → Outcome (Z * string);
  pki : string → Outcome Kubeconfig.TinyCA;
  process_Init : ProcessState → option string;
  process_Start : ProcessState → option string;
  process_Stop : option ProcessState → Outcome unit;
  Flush : string → option string;
  Close : string → option string;
  RemoveAll : string → option string;
  clientcmd : Kubeconfig.Clientcmd;
}.

Definition emit (ev : Event) : M World unit :=
  λ w, (Ok tt, mkWorld (kube w) (events w ++ [ev]) (suggested w)).

Definition answer {A} (r : Outcome A) : M World A := λ w, (r, w).

Definition getwd (os : OS) : M World string := answer (Getwd os).

Definition mkdirAll (os : OS) (path : string) : M World unit :=
  (do! emit (EvMkdirAll path) in check (MkdirAll os path))%go.

Definition suggest (os : OS) : M World (Z * string) :=
  λ w, (Suggest os (suggested w),
        mkWorld (kube w) (events w ++ [EvSuggest]) (S (suggested w))).

Definition init (os : OS) (c : Component) (ps : ProcessState) : M World unit :=
  (do! emit (EvInit c) in check (process_Init os ps))%go.

Definition start (os : OS) (c : Component) (ps : ProcessState) : M World unit :=
  (do! emit (EvStart c) in check (process_Start os ps))%go.

Definition stop (os : OS) (c : Component) (ps : option ProcessState) : M World unit :=
  (do! emit (EvStop c) in answer (process_Stop os ps))%go.

Definition flush (os : OS) (c : Component) (f : string) : M World unit :=
  (do! emit (EvFlush c) in check (Flush os f))%go.

Definition close (os : OS) (c : Component) (f : string) : M World unit :=
  (do! emit (EvClose c) in check (Close os f))%go.

Definition removeAll (os : OS) (dir : string) : M World unit :=
  (do! emit (EvRemoveAll dir) in check (RemoveAll os dir))%go.

(** A call into pkg/kubeconfig acts on the credentials files of the world. *)
Definition onKube {A} (m : M Kubeconfig.FS A) : M World A :=
  λ w, let '(r, fs) := m (kube w) in (r, mkWorld fs (events w) (suggested w)).

(** Receivers are mutated in place: a method runs on the pair of its
    receiver and the world. *)
Definition onWorld {T A} (m : M World A) : M (T * World) A :=
  λ '(t, w), let '(r, w') := m w in (r, (t, w')).

Definition modify {T} (f : T → T) : M (T * World) unit :=
  λ '(t, w), (Ok tt, (f t, w)).

Definition self {T} : M (T * World) T := λ '(t, w), (Ok t, (t, w)).

End Sys.

(** ** pkg/controlplane *)

Module Controlplane.
Import Sys.

Module Etcd.

Record t := mk {
  Path : string;
  URL : option Go.URL;
  dataDir : string;
  processState : option ProcessState;
  logFile : option string;
  logFileWriter : option string;
}.

(** [&Etcd{Path: path}] *)
Definition new (path : string) : t := mk path None "" None None None.

Definition set_URL (v : option Go.URL) (e : t) : t :=
  mk (Path e) v (dataDir e) (processState e) (logFile e) (logFileWriter e).
Definition set_dataDir (v : string) (e : t) : t :=
  mk (Path e) (URL e) v (processState e) (logFile e) (logFileWriter e).
Definition set_processState (v : option ProcessState) (e : t) : t :=
  mk (Path e) (URL e) (dataDir e) v (logFile e) (logFileWriter e).
Definition set_logFile (v : option string) (e : t) : t :=
  mk (Path e) (URL e) (dataDir e) (processState e) v (logFileWriter e).
Definition set_logFileWriter (v : option string) (e : t) : t :=
  mk (Path e) (URL e) (dataDir e) (processState e) (logFile e) v.

Definition setProcessState (os : OS) : M (t * World) unit :=
  (let! currentDir := onWorld (getwd os) in
   (* Set up the log file. *)
   let localPath := Go.Join [currentDir; ".tmp"; "kubernetes"; "etcd"] in
   do! onWorld (mkdirAll os localPath) in
   let logPath := Go.Join [localPath; "etcd.log"] in
   let opened := OpenFile os logPath in
   do! onWorld (emit (EvOpenFile logPath)) in
   do! modify (set_logFile (match opened with
                            | Some _ => None
                            | None => Some logPath
                            end)) in
   do! check opened in
   do! modify (set_logFileWriter (Some logPath)) in
   (* Set up the data dir. *)
   do! modify (set_dataDir (Go.Join [localPath; "data"])) in
   do! onWorld (mkdirAll os (Go.Join [localPath; "data"])) in
   (* Set the listen url. *)
   let! hp := onWorld (suggest os) in
   let url := Go.mkURL "http" (Go.JoinHostPort hp.2 (Go.Itoa hp.1)) in
   do! modify (set_URL (Some url)) in
   (* Set the listen peer URL. *)
   let! hp := onWorld (suggest os) in
   let listenPeerURL := Go.mkURL "http" (Go.JoinHostPort hp.2 (Go.Itoa hp.1)) in
   (* Starts etcd. *)
   let! e := self in
   let args := [ "--listen-client-urls=" +:+ Go.URL_String url;
                 "--advertise-client-urls=" +:+ Go.URL_String url;
                 "--listen-peer-urls=" +:+ Go.URL_String listenPeerURL;
                 "--data-dir=" +:+ dataDir e ] in
   let ps := mkProcessState (Path e) args url "/health" in
   do! modify (set_processState (Some ps)) in
   onWorld (init os CEtcd ps))%go.

Definition Start (os : OS) : M (t * World) unit :=
  (do! setProcessState os in
   let! e := self in
   match processState e with
   | Some ps => onWorld (start os CEtcd ps)
   | None => panic nil_dereference
   end)%go.

(** [Stop] on a receiver that may be the nil pointer: the first
    statement reads [e.processState]. *)
Definition Stop (os : OS) (e : option t) : M World unit :=
  match e with
  | None => panic nil_dereference
  | Some e =>
      (do! stop os CEtcd (processState e) in
       do! match logFileWriter e with
           | Some w => flush os CEtcd w
           | None => ret tt
           end in
       do! match logFile e with
           | Some f => close os CEtcd f
           | None => ret tt
           end in
       removeAll os (dataDir e))%go
  end.

End Etcd.

Module APIServer.

Record t := mk {
  EtcdURL : option Go.URL;
  Path : string;
  URL : option Go.URL;
  CA : option Kubeconfig.TinyCA;
  processState : option ProcessState;
  logFile : option string;
  logFileWriter : option string;
}.

(** [&APIServer{EtcdURL: etcdURL, Path: path}] *)
Definition new (etcdURL : option Go.URL) (path : string) : t :=
  mk etcdURL path None None None None None.

Definition set_URL (v : option Go.URL) (a : t) : t :=
  mk (EtcdURL a) (Path a) v (CA a) (processState a) (logFile a) (logFileWriter a).
Definition set_CA (v : option Kubeconfig.TinyCA) (a : t) : t :=
  mk (EtcdURL a) (Path a) (URL a) v (processState a) (logFile a) (logFileWriter a).
Definition set_processState (v : option ProcessState) (a : t) : t :=
  mk (EtcdURL a) (Path a) (URL a) (CA a) v (logFile a) (logFileWriter a).
Definition set_logFile (v : option string) (a : t) : t :=
  mk (EtcdURL a) (Path a) (URL a) (CA a) (processState a) v (logFileWriter a).
Definition set_logFileWriter (v : option string) (a : t) : t :=
  mk (EtcdURL a) (Path a) (URL a) (CA a) (processState a) (logFile a) v.

Record apiServerPKI := mkPKI {
  ca : Kubeconfig.TinyCA;
  caFile : string;
  certFile : string;
  keyFile : string;
  saCertFile : string;
  saKeyFile : string;
}.

Definition setupPKI (os : OS) (localPath host : string) : M World apiServerPKI :=
  let localServingCertDir := Go.Join [localPath; "ca"] in
  (do! emit (EvSetupPKI localServingCertDir) in
   let! ca := answer (pki os host) in
   ret (mkPKI ca
          (Go.Join [localServingCertDir; "ca.crt"])
          (Go.Join [localServingCertDir; "tls.crt"])
          (Go.Join [localServingCertDir; "tls.key"])
          (Go.Join [localServingCertDir; "sa-signer.crt"])
          (Go.Join [localServingCertDir; "sa-signer.key"])))%go.

Definition setProcessState (os : OS) : M (t * World) unit :=
  (let! currentDir := onWorld (getwd os) in
   (* Set up the log file. *)
   let localPath := Go.Join [currentDir; ".tmp"; "kubernetes"; "api-server"] in
   do! onWorld (mkdirAll os localPath) in
   let logPath := Go.Join [localPath; "api-server.log"] in
   let opened := OpenFile os logPath in
   do! onWorld (emit (EvOpenFile logPath)) in
   do! modify (set_logFile (match opened with
                            | Some _ => None
                            | None => Some logPath
                            end)) in
   do! check opened in
   do! modify (set_logFileWriter (Some logPath)) in
   (* Set up the listening url. *)
   let! hp := onWorld (suggest os) in
   let url := Go.mkURL "https" (Go.JoinHostPort hp.2 (Go.Itoa hp.1)) in
   do! modify (set_URL (Some url)) in
   (* Set up the PKI. *)
   let! pki := onWorld (setupPKI os localPath hp.2) in
   do! modify (set_CA (Some (ca pki))) in
   (* Starts the API server. *)
   let! a := self in
   match EtcdURL a with
   | None => panic nil_dereference
   | Some etcdURL =>
       let args :=
         [ "--advertise-address=" +:+ hp.2;
           "--secure-port=" +:+ Go.Itoa hp.1;
           "--client-ca-file=" +:+ caFile pki;
           "--tls-cert-file=" +:+ certFile pki;
           "--tls-private-key-file=" +:+ keyFile pki;
           "--service-cluster-ip-range=" +:+ "10.0.0.0/24";
           "--authorization-mode=" +:+ "RBAC";
           "--service-account-key-file=" +:+ saCertFile pki;
           "--service-account-signing-key-file=" +:+ saKeyFile pki;
           "--service-account-issuer=" +:+
             ("https://kubernetes.default.svc." +:+ "cluster.local");
           "--etcd-servers=" +:+ Go.URL_String etcdURL ] in
       let ps := mkProcessState (Path a) args url "/readyz" in
       do! modify (set_processState (Some ps)) in
       onWorld (init os CAPIServer ps)
   end)%go.

Definition Start (os : OS) : M (t * World) unit :=
  (do! setProcessState os in
   let! a := self in
   match processState a with
   | Some ps => onWorld (start os CAPIServer ps)
   | None => panic nil_dereference
   end)%go.

Definition Stop (os : OS) (a : option t) : M World unit :=
  match a with
  | None => panic nil_dereference
  | Some a =>
      (do! stop os CAPIServer (processState a) in
       do! match logFileWriter a with
           | Some w => flush os CAPIServer w
           | None => ret tt
           end in
       do! match logFile a with
           | Some f => close os CAPIServer f
           | None => ret tt
           end in
       ret tt)%go
  end.

End APIServer.

Record ControlPlane := mkControlPlane {
  PackagePath : string;
  KubeConfigFile : string;
  KubeConfigContext : string;
  etcd : option Etcd.t;
  apiServer : option APIServer.t;
}.

Definition set_etcd (v : option Etcd.t) (cp : ControlPlane) : ControlPlane :=
  mkControlPlane (PackagePath cp) (KubeConfigFile cp) (KubeConfigContext cp) v (apiServer cp).
Definition set_apiServer (v : option APIServer.t) (cp : ControlPlane) : ControlPlane :=
  mkControlPlane (PackagePath cp) (KubeConfigFile cp) (KubeConfigContext cp) (etcd cp) v.
Definition set_KubeConfig (file context : string) (cp : ControlPlane) : ControlPlane :=
  mkControlPlane (PackagePath cp) file context (etcd cp) (apiServer cp).

(** A method of a field that is a pointer: the callee mutates the pointee,
    which stays reachable from the field whatever the callee returns. *)
Definition onEtcd {A} (m : M (Etcd.t * World) A) : M (ControlPlane * World) A :=
  λ '(cp, w),
    match etcd cp with
    | None => (Panic nil_dereference, (cp, w))
    | Some e => let '(r, (e', w')) := m (e, w) in (r, (set_etcd (Some e') cp, w'))
    end.

Definition onAPIServer {A} (m : M (APIServer.t * World) A) : M (ControlPlane * World) A :=
  λ '(cp, w),
    match apiServer cp with
    | None => (Panic nil_dereference, (cp, w))
    | Some a => let '(r, (a', w')) := m (a, w) in (r, (set_apiServer (Some a') cp, w'))
    end.

(** kubeconfig.CreateOrMerge as [Start] calls it. A nil CA reaches
    [ca.NewClientCert] inside [create]. *)
Definition createOrMerge (os : OS) (ca : option Kubeconfig.TinyCA)
    (url clusterName explicitPath : string) : M World (string * string) :=
  (do! emit (EvCreateOrMerge clusterName) in
   match ca with
   | None => panic nil_dereference
   | Some ca =>
       onKube (Kubeconfig.CreateOrMerge (clientcmd os) ca url clusterName explicitPath)
   end)%go.

Definition Start (os : OS) : M (ControlPlane * World) unit :=
  (let! cp := self in
   do! modify (set_etcd (Some (Etcd.new (Go.Join [PackagePath cp; "etcd"])))) in
   do! onEtcd (Etcd.Start os) in
   let! cp := self in
   do! modify (set_apiServer
                 (Some (APIServer.new (e ← etcd cp; Etcd.URL e)
                          (Go.Join [PackagePath cp; "kube-apiserver"])))) in
   do! onAPIServer (APIServer.Start os) in
   let! cp := self in
   match a ← apiServer cp; APIServer.URL a with
   | None => panic nil_dereference
   | Some url =>
       λ '(cp, w),
         match createOrMerge os (a ← apiServer cp; APIServer.CA a)
                 (Go.URL_String url) "bootstrap" "" w with
         | (Ok (file, context), w') => (Ok tt, (set_KubeConfig file context cp, w'))
         | (Err e, w') => (Err e, (set_KubeConfig "" "" cp, w'))
         | (Panic p, w') => (Panic p, (cp, w'))
         end
   end)%go.

Definition Stop (os : OS) (cp : ControlPlane) : M World unit :=
  (do! APIServer.Stop os (apiServer cp) in
   do! Etcd.Stop os (etcd cp) in
   do! (do! emit (EvRemove "bootstrap") in
        onKube (Kubeconfig.Remove (clientcmd os) "bootstrap" "")) in
   ret tt)%go.

End Controlplane.

(** ** pkg/provider *)

Module Provider.
Import Sys.

Definition binaryName : string := "manager".
Definition manifestName : string := "components.yaml".

Record Provider := mkProvider {
  PackagePath : string;
  Args : list string;
  processState : option ProcessState;
  logFile : option string;
  logFileWriter : option string;
}.

Record providerURL := mkProviderURL {
  host : string;
  webhookPort : Z;
  healthPort : Z;
}.

Definition webhookHostPort (u : providerURL) : string :=
  Go.JoinHostPort (host u) (Go.Itoa (webhookPort u)).

Definition healthHostPort (u : providerURL) : string :=
  Go.JoinHostPort (host u) (Go.Itoa (healthPort u)).

Record providerPKI := mkProviderPKI {
  dir : string;
  caData : bytes;
}.

Definition Name {uc : Go.Unicode} (p : Provider) : string :=
  Go.ToUpper (Go.TrimPrefix (Go.Base (PackagePath p)) "bootstrap-").

Definition Stop (os : OS) (p : Provider) : M World unit :=
  (do! stop os CProvider (processState p) in
   do! match logFileWriter p with
       | Some w => flush os CProvider w
       | None => ret tt
       end in
   do! match logFile p with
       | Some f => close os CProvider f
       | None => ret tt
       end in
   ret tt)%go.

(** The certificate authority of the webhooks, as [setupPKI] uses it: its
    own certificate, the issuing of a serving certificate for a list of
    names, and the writing of a file. *)
Record HookCA := mkHookCA {
  CACertBytes : bytes;
  NewServingCert : list string → Kubeconfig.Issued;
}.

Record Certs := mkCerts {
  NewTinyCA : Outcome HookCA;
  WriteFile : string → bytes → option string;
}.

Definition setupPKI (os : OS) (certs : Certs) (localPath : string) (u : providerURL)
  : M World providerPKI :=
  let localServingCertDir := Go.Join [localPath; "ca"] in
  (do! wrap "unable to create directory for webhook serving certs"
         (mkdirAll os localServingCertDir) in
   let! hookCA := wrap "unable to create webhook CA" (answer (NewTinyCA certs)) in
   let names := ["localhost"; host u] in
   match NewServingCert hookCA names with
   | Kubeconfig.IssueFailed e =>
       throw ("unable to create webhook serving certs: " +:+ e)
   | Kubeconfig.EncodeFailed e =>
       throw ("unable to marshal webhook serving certs to bytes: " +:+ e)
   | Kubeconfig.IssuedPair certData keyData =>
       do! wrap "unable to write webhook serving cert to disk"
             (check (WriteFile certs (Go.Join [localServingCertDir; "tls.crt"]) certData)) in
       do! wrap "unable to write webhook serving cert key to disk"
             (check (WriteFile certs (Go.Join [localServingCertDir; "tls.key"]) keyData)) in
       ret (mkProviderPKI localServingCertDir certData)
   end)%go.

(** *** The objects of a manifest

    The Kubernetes types, with the fields that the package reads or
    writes. apiextensions and admissionregistration each declare a
    WebhookClientConfig and a ServiceReference of the same shape; one
    record stands for both. *)
Record ServiceReference := mkServiceReference {
  svc_Namespace : string;
  svc_Name : string;
  svc_Path : option string;
  svc_Port : option Z;
}.

Record WebhookClientConfig := mkClientConfig {
  URL : option string;
  Service : option ServiceReference;
  CABundle : bytes;
}.

Record WebhookConversion := mkWebhookConversion {
  conv_ClientConfig : option WebhookClientConfig;
  ConversionReviewVersions : list string;
}.

Record CustomResourceConversion := mkConversion {
  Strategy : string;
  Webhook : option WebhookConversion;
}.

(** apiextensionsv1.WebhookConverter *)
Definition WebhookConverter : string := "Webhook".

Record CustomResourceDefinition := mkCRD {
  crd_Name : string;
  crd_ResourceVersion : string;
  Conversion : option CustomResourceConversion;
}.

Record MutatingWebhook := mkMutatingWebhook {
  mw_Name : string;
  mw_ClientConfig : WebhookClientConfig;
  mw_ReinvocationPolicy : option string;
}.

Record MutatingWebhookConfiguration := mkMutating {
  mut_Name : string;
  mut_ResourceVersion : string;
  mut_Webhooks : list MutatingWebhook;
}.

Record ValidatingWebhook := mkValidatingWebhook {
  vw_Name : string;
  vw_ClientConfig : WebhookClientConfig;
}.

Record ValidatingWebhookConfiguration := mkValidating {
  val_Name : string;
  val_ResourceVersion : string;
  val_Webhooks : list ValidatingWebhook;
}.

Record manifestObjects := mkObjects {
  crds : list CustomResourceDefinition;
  mutHooks : list MutatingWebhookConfiguration;
  valHooks : list ValidatingWebhookConfiguration;
}.

(** *** Documents

    yaml.Unmarshal is outside the repository: a document fragment is given
    by what Unmarshal yields from it for each of the four target types. *)
Inductive Parsed (A : Type) :=
  | Decoded (a : A)
  | Malformed (e : string).
Arguments Decoded {A} a.
Arguments Malformed {A} e.

Record PartialObjectMetadata := mkMeta {
  Kind : string;
  APIVersion : string;
  meta_Name : string;
}.

Record Doc := mkDoc {
  asGeneric : Parsed PartialObjectMetadata;
  asCRD : Parsed CustomResourceDefinition;
  asMutating : Parsed MutatingWebhookConfiguration;
  asValidating : Parsed ValidatingWebhookConfiguration;
}.

(** [readDocuments]: ioutil.ReadFile and the YAML reader of apimachinery,
    as the fragments of the file at a path or the error of reading it. *)
Definition Files := string → Outcome (list Doc).

Definition readDocuments (fsys : Files) (fp : string) : Outcome (list Doc) :=
  fsys fp.

Definition unsupported (kind name : string) : string :=
  "only v1 is supported right now for " +:+ kind +:+ " (name: " +:+ name +:+ ")".

(** The first loop of [readAndAdaptManifestObjects], from the fragments
    still to read and the objects collected so far. *)
Fixpoint classify (docs : list Doc) (ret : manifestObjects) : Outcome manifestObjects :=
  match docs with
  | [] => Ok ret
  | doc :: rest =>
      match asGeneric doc with
      | Malformed e => Err e
      | Decoded generic =>
          if decide (Kind generic = "CustomResourceDefinition") then
            if decide (APIVersion generic ≠ "apiextensions.k8s.io/v1")
            then Err (unsupported "CustomResourceDefinition" (meta_Name generic))
            else match asCRD doc with
                 | Malformed e => Err e
                 | Decoded crd =>
                     classify rest (mkObjects (crds ret ++ [crd]) (mutHooks ret) (valHooks ret))
                 end
          else if decide (Kind generic = "MutatingWebhookConfiguration") then
            if decide (APIVersion generic ≠ "admissionregistration.k8s.io/v1")
            then Err (unsupported "MutatingWebhookConfiguration" (meta_Name generic))
            else match asMutating doc with
                 | Malformed e => Err e
                 | Decoded hook =>
                     classify rest (mkObjects (crds ret) (mutHooks ret ++ [hook]) (valHooks ret))
                 end
          else if decide (Kind generic = "ValidatingWebhookConfiguration") then
            if decide (APIVersion generic ≠ "admissionregistration.k8s.io/v1")
            then Err (unsupported "ValidatingWebhookConfiguration" (meta_Name generic))
            else match asValidating doc with
                 | Malformed e => Err e
                 | Decoded hook =>
                     classify rest (mkObjects (crds ret) (mutHooks ret) (valHooks ret ++ [hook]))
                 end
          else classify rest ret
      end
  end.

Definition localServingUrl (u : providerURL) : Go.URL :=
  Go.mkURL "https" (webhookHostPort u).

(** The body of the loop over [ret.crds]. *)
Definition adaptCRD (pki : providerPKI) (u : providerURL)
    (crd : CustomResourceDefinition) : Outcome CustomResourceDefinition :=
  let conversion :=
    match Conversion crd with
    | None => mkConversion "" (Some (mkWebhookConversion None []))
    | Some c => c
    end in
  match Webhook conversion with
  | None => Panic nil_dereference
  | Some _ =>
      Ok (mkCRD (crd_Name crd) (crd_ResourceVersion crd)
            (Some (mkConversion WebhookConverter
                     (Some (mkWebhookConversion
                              (Some (mkClientConfig
                                       (Some (Go.URL_String (localServingUrl u) +:+ "/convert"))
                                       None
                                       (caData pki)))
                              ["v1"; "v1beta1"])))))
  end.

(** The client config that both webhook loops assign; the format string is
    [%s/%s] and the second argument is [*ClientConfig.Service.Path]. *)
Definition adaptClientConfig (pki : providerPKI) (u : providerURL)
    (cc : WebhookClientConfig) : Outcome WebhookClientConfig :=
  match Service cc with
  | None => Panic nil_dereference
  | Some service =>
      match svc_Path service with
      | None => Panic nil_dereference
      | Some path =>
          Ok (mkClientConfig
                (Some (Go.URL_String (localServingUrl u) +:+ "/" +:+ path))
                None
                (caData pki))
      end
  end.

(** A loop whose body may panic. *)
Fixpoint forEach {A} (f : A → Outcome A) (l : list A) : Outcome (list A) :=
  match l with
  | [] => Ok []
  | x :: rest =>
      match f x with
      | Ok y =>
          match forEach f rest with
          | Ok ys => Ok (y :: ys)
          | Err e => Err e
          | Panic p => Panic p
          end
      | Err e => Err e
      | Panic p => Panic p
      end
  end.

Definition adaptMutatingWebhook pki u (w : MutatingWebhook) : Outcome MutatingWebhook :=
  match adaptClientConfig pki u (mw_ClientConfig w) with
  | Ok cc => Ok (mkMutatingWebhook (mw_Name w) cc (mw_ReinvocationPolicy w))
  | Err e => Err e
  | Panic p => Panic p
  end.

Definition adaptMutating pki u (hook : MutatingWebhookConfiguration)
  : Outcome MutatingWebhookConfiguration :=
  match forEach (adaptMutatingWebhook pki u) (mut_Webhooks hook) with
  | Ok ws => Ok (mkMutating (mut_Name hook) (mut_ResourceVersion hook) ws)
  | Err e => Err e
  | Panic p => Panic p
  end.

Definition adaptValidatingWebhook pki u (w : ValidatingWebhook) : Outcome ValidatingWebhook :=
  match adaptClientConfig pki u (vw_ClientConfig w) with
  | Ok cc => Ok (mkValidatingWebhook (vw_Name w) cc)
  | Err e => Err e
  | Panic p => Panic p
  end.

Definition adaptValidating pki u (hook : ValidatingWebhookConfiguration)
  : Outcome ValidatingWebhookConfiguration :=
  match forEach (adaptValidatingWebhook pki u) (val_Webhooks hook) with
  | Ok ws => Ok (mkValidating (val_Name hook) (val_ResourceVersion hook) ws)
  | Err e => Err e
  | Panic p => Panic p
  end.

(** The three adaptation loops, in the order of the source. *)
Definition adapt (pki : providerPKI) (u : providerURL) (ret : manifestObjects)
  : Outcome manifestObjects :=
  match forEach (adaptCRD pki u) (crds ret) with
  | Ok cs =>
      match forEach (adaptMutating pki u) (mutHooks ret) with
      | Ok ms =>
          match forEach (adaptValidating pki u) (valHooks ret) with
          | Ok vs => Ok (mkObjects cs ms vs)
          | Err e => Err e
          | Panic p => Panic p
          end
      | Err e => Err e
      | Panic p => Panic p
      end
  | Err e => Err e
  | Panic p => Panic p
  end.

Definition readAndAdaptManifestObjects (fsys : Files) (manifestPath : string)
    (pki : providerPKI) (u : providerURL) : Outcome manifestObjects :=
  match readDocuments fsys manifestPath with
  | Ok docs =>
      match classify docs (mkObjects [] [] []) with
      | Ok ret => adapt pki u ret
      | Err e => Err e
      | Panic p => Panic p
      end
  | Err e => Err e
  | Panic p => Panic p
  end.

(** *** The API server, as the controller-runtime client shows it *)

Inductive ObjectKind := KCRD | KMutating | KValidating.

#[global] Instance ObjectKind_eq_dec : EqDecision ObjectKind.
Proof. solve_decision. Defined.

Inductive Object :=
  | OCRD (crd : CustomResourceDefinition)
  | OMutating (hook : MutatingWebhookConfiguration)
  | OValidating (hook : ValidatingWebhookConfiguration).

Definition kindOf (o : Object) : ObjectKind :=
  match o with
  | OCRD _ => KCRD
  | OMutating _ => KMutating
  | OValidating _ => KValidating
  end.

Definition kindName (k : ObjectKind) : string :=
  match k with
  | KCRD => "CRD"
  | KMutating => "MutatingWebhookConfiguration"
  | KValidating => "ValidatingWebhookConfiguration"
  end.

Definition nameOf (o : Object) : string :=
  match o with
  | OCRD crd => crd_Name crd
  | OMutating hook => mut_Name hook
  | OValidating hook => val_Name hook
  end.

Definition setResourceVersion (rv : string) (o : Object) : Object :=
  match o with
  | OCRD crd => OCRD (mkCRD (crd_Name crd) rv (Conversion crd))
  | OMutating hook => OMutating (mkMutating (mut_Name hook) rv (mut_Webhooks hook))
  | OValidating hook => OValidating (mkValidating (val_Name hook) rv (val_Webhooks hook))
  end.

(** The requests sent to the API server. *)
Inductive Call :=
  | CallGet (k : ObjectKind) (name : string)
  | CallCreate (o : Object)
  | CallUpdate (o : Object).

(** The answer to a Get: the stored object's resource version and whether
    its Established condition is true, a not-found error, or another
    error. *)
Inductive GetResult :=
  | Found (resourceVersion : string) (established : bool)
  | NotFound
  | GetFailed (e : string).

(** A client answers each request from the requests sent so far, that
    request included. *)
Record Client := mkClient {
  onGet : list Call → GetResult;
  onWrite : list Call → option string;
}.

Definition Get (c : Client) (k : ObjectKind) (name : string) : M (list Call) GetResult :=
  λ sent, let sent := sent ++ [CallGet k name] in (Ok (onGet c sent), sent).

Definition Create (c : Client) (o : Object) : M (list Call) unit :=
  λ sent, let sent := sent ++ [CallCreate o] in
          match onWrite c sent with
          | None => (Ok tt, sent)
          | Some e => (Err e, sent)
          end.

Definition Update (c : Client) (o : Object) : M (list Call) unit :=
  λ sent, let sent := sent ++ [CallUpdate o] in
          match onWrite c sent with
          | None => (Ok tt, sent)
          | Some e => (Err e, sent)
          end.

(** The context, as the number of intervals a poll can wait before the
    context is done. *)
Record Context := mkContext { intervals : nat }.

(** wait.PollImmediateInfiniteWithContext: the condition runs at once, and
    again after each interval until it holds, fails, or the context is
    done. *)
Fixpoint poll {St} (fuel : nat) (condition : M St bool) : M St unit :=
  (let! done := condition in
   if (done : bool) then ret tt
   else match fuel with
        | 0 => throw "timed out waiting for the condition"
        | S fuel => poll fuel condition
        end)%go.

Definition PollImmediateInfiniteWithContext {St} (ctx : Context)
    (condition : M St bool) : M St unit :=
  poll (intervals ctx) condition.

(** The readiness predicate of the poll: the Established condition for a
    CRD, existence for the webhook configurations. *)
Definition ready (k : ObjectKind) (established : bool) : bool :=
  match k with
  | KCRD => established
  | KMutating | KValidating => true
  end.

(** One of the closures appended to [fns]; the three loops of the source
    differ in the type of the object and in the readiness predicate. *)
Definition applyObject (c : Client) (ctx : Context) (o : Object) : M (list Call) unit :=
  let kind := kindName (kindOf o) in
  (let! existing := Get c (kindOf o) (nameOf o) in
   do! match existing with
       | NotFound =>
           wrap ("error creating " +:+ kind +:+ " " +:+ nameOf o) (Create c o)
       | GetFailed e =>
           throw ("error fetching " +:+ kind +:+ " " +:+ nameOf o +:+ ": " +:+ e)
       | Found resourceVersion _ =>
           wrap ("error updating " +:+ kind +:+ " " +:+ nameOf o)
                (Update c (setResourceVersion resourceVersion o))
       end in
   wrap ("error starting " +:+ kind +:+ " " +:+ nameOf o)
     (PollImmediateInfiniteWithContext ctx
        (let! actual := Get c (kindOf o) (nameOf o) in
         match actual with
         | NotFound =>
             throw (kind +:+ " " +:+ nameOf o +:+ " was deleted before being established")
         | GetFailed e =>
             throw ("error fetching " +:+ kind +:+ " " +:+ nameOf o +:+ ": " +:+ e)
         | Found _ established => ret (ready (kindOf o) established)
         end)))%go.

(** The last loop of [createManifestObjects]: an error of a closure is
    raised as a panic. *)
Fixpoint runAll {St} (fns : list (M St unit)) : M St unit :=
  match fns with
  | [] => ret tt
  | f :: rest =>
      λ s, match f s with
           | (Ok _, s') => runAll rest s'
           | (Err e, s') => (Panic e, s')
           | (Panic p, s') => (Panic p, s')
           end
  end.

(** The client for a kubeconfig file: clientcmd.LoadFromFile, ClientConfig
    and client.New, with the error of the first of them that fails. *)
Definition Connect := string → Outcome Client.

Definition createManifestObjects (connect : Connect) (fsys : Files) (ctx : Context)
    (manifestPath kubeConfig : string) (pki : providerPKI) (u : providerURL)
  : M (list Call) unit :=
  match connect kubeConfig with
  | Err e => panic e
  | Panic p => panic p
  | Ok c =>
      (* Read the provider manifest and make it ready to work with kBB-8. *)
      match readAndAdaptManifestObjects fsys manifestPath pki u with
      | Err e => throw ("unable to get provider crds: " +:+ e)
      | Panic p => panic p
      | Ok objs =>
          let fns :=
            ((λ crd, applyObject c ctx (OCRD crd)) <$> crds objs) ++
            ((λ hook, applyObject c ctx (OMutating hook)) <$> mutHooks objs) ++
            ((λ hook, applyObject c ctx (OValidating hook)) <$> valHooks objs) in
          runAll fns
      end
  end.

End Provider.

(** ** kBB-8.go: the goroutines that start the providers *)

Module Main.

Definition provider (packagePath : string) (args : list string) : Provider.Provider :=
  Provider.mkProvider packagePath args None None None.

Definition providers : list Provider.Provider :=
  [ provider "./test/packages/bootstrap-capi"
      ["--feature-gates=MachinePool=true,ClusterResourceSet=true,ClusterTopology=true"];
    provider "./test/packages/bootstrap-cabpk"
      ["--feature-gates=MachinePool=true"];
    provider "./test/packages/bootstrap-kcp"
      ["--feature-gates=ClusterTopology=true"];
    provider "./test/packages/bootstrap-capd"
      ["--feature-gates=MachinePool=true,ClusterTopology=true";
       "--loadbalancer-use-host-port"] ].

(** A slice value: the array it points to, its length and its capacity. *)
Record Slice := mkSlice {
  ptr : nat;
  len : nat;
  cap : nat;
}.

(** The memory the goroutines share: the arrays behind the slices, the
    variable [names], and the counter of the WaitGroup. *)
Record Memory := mkMemory {
  arrays : gmap nat (list string);
  names : Slice;
  wg : Z;
}.

(** Where a goroutine stands in
    [p.Start(...); names = append(names, p.Name()); wg.Done()].
    The append reads the variable, writes the element, and the assignment
    then writes the variable: three accesses to shared memory, none of
    them under a lock. *)
Inductive PC :=
  | Spawned
  | Started
  | Loaded (read : Slice)
  | Stored (result : Slice)
  | Appended
  | Finished
  | Panicked (err : string).

Record Goroutine := mkGoroutine {
  p : Provider.Provider;
  pc : PC;
}.

Record State := mkState {
  mem : Memory;
  goroutines : list Goroutine;
}.

(** The element write of [append(s, x)]: in place when the capacity
    allows, else into a fresh array twice as large. *)
Definition appendTo (m : Memory) (s : Slice) (x : string) : Memory * Slice :=
  let array := default [] (arrays m !! ptr s) in
  if decide (len s < cap s)
  then (mkMemory (<[ptr s := <[len s := x]> array]> (arrays m)) (names m) (wg m),
        mkSlice (ptr s) (S (len s)) (cap s))
  else
    let fresh := size (arrays m) in
    let newcap := Nat.max 1 (2 * cap s) in
    (mkMemory (<[fresh := take (len s) array ++ x :: replicate (newcap - S (len s)) ""]>
                 (arrays m)) (names m) (wg m),
     mkSlice fresh (S (len s)) newcap).

(** One step of a goroutine; [startErr] is what [p.Start] returns. *)
Definition stepGoroutine {uc : Go.Unicode} (startErr : Provider.Provider → option string)
    (g : Goroutine) (m : Memory) : option (Goroutine * Memory) :=
  match pc g with
  | Spawned =>
      match startErr (p g) with
      | Some err => Some (mkGoroutine (p g) (Panicked err), m)
      | None => Some (mkGoroutine (p g) Started, m)
      end
  | Started => Some (mkGoroutine (p g) (Loaded (names m)), m)
  | Loaded s =>
      let '(m', s') := appendTo m s (Provider.Name (p g)) in
      Some (mkGoroutine (p g) (Stored s'), m')
  | Stored s' =>
      Some (mkGoroutine (p g) Appended, mkMemory (arrays m) s' (wg m))
  | Appended =>
      Some (mkGoroutine (p g) Finished, mkMemory (arrays m) (names m) (wg m - 1))
  | Finished => None
  | Panicked _ => None
  end.

(** The scheduler runs goroutine [i] for one step. *)
Definition step {uc : Go.Unicode} (startErr : Provider.Provider → option string)
    (i : nat) (st : State) : option State :=
  g ← goroutines st !! i;
  '(g', m') ← stepGoroutine startErr g (mem st);
  Some (mkState m' (<[i := g']> (goroutines st))).

Fixpoint run {uc : Go.Unicode} (startErr : Provider.Provider → option string)
    (schedule : list nat) (st : State) : option State :=
  match schedule with
  | [] => Some st
  | i :: rest => st' ← step startErr i st; run startErr rest st'
  end.

(** The state of main once its loop has run and no goroutine has yet been
    scheduled: [names := make([]string, 0, len(providers))], one
    [wg.Add(1)] and one goroutine per provider. *)
Definition spawn (ps : list Provider.Provider) : State :=
  mkState (mkMemory {[ 0 := replicate (length ps) "" ]}
                    (mkSlice 0 0 (length ps))
                    (Z.of_nat (length ps)))
          ((λ p, mkGoroutine p Spawned) <$> ps).

(** [wg.Wait()] returns when the counter is zero. *)
Definition waited (st : State) : bool :=
  bool_decide (wg (mem st) = 0%Z).

(** The slice that main then reads to build the final message. *)
Definition collected (st : State) : list string :=
  take (len (names (mem st)))
       (default [] (arrays (mem st) !! ptr (names (mem st)))).

(** Goroutine after goroutine, each one running to its end. *)
Definition oneAfterAnother (n : nat) : list nat :=
  i ← seq 0 n; replicate 5 i.

(** Every goroutine reads [names] before any of them writes it back. *)
Definition allReadFirst (n : nat) : list nat :=
  (i ← seq 0 n; replicate 2 i) ++ (i ← seq 0 n; replicate 3 i).

End Main.

(** * The vocabulary of the specification *)

Module KubeconfigSpec.
Import Kubeconfig.

(** The number of entries a map holds under a key. *)
Definition entriesUnder {V} (k : string) (m : gmap string V) : nat :=
  length (filter (λ kv, kv.1 = k) (map_to_list m)).

(** A config that holds nothing of a cluster name: none of the three
    derived keys, and a current context that is not the derived one. *)
Definition untouched (clusterName : string) (config : Config) : Prop :=
  Clusters config !! clusterKey clusterName = None ∧
  AuthInfos config !! userKey clusterName = None ∧
  Contexts config !! contextKey clusterName = None ∧
  CurrentContext config ≠ contextKey clusterName.

End KubeconfigSpec.

Module ControlplaneSpec.
Import Sys.

Inductive TeardownStage := CredentialsRemoved | APIServerStopped | StoreStopped.

#[global] Instance TeardownStage_eq_dec : EqDecision TeardownStage.
Proof. solve_decision. Defined.

Definition stageOf (ev : Event) : option TeardownStage :=
  match ev with
  | EvStop CAPIServer => Some APIServerStopped
  | EvStop CEtcd => Some StoreStopped
  | EvRemove _ => Some CredentialsRemoved
  | _ => None
  end.

Definition teardown (evs : list Event) : list TeardownStage := omap stageOf evs.

End ControlplaneSpec.

Module ProviderSpec.
Import Provider.

Definition unsupportedFragment (doc : Doc) : Prop :=
  ∃ g, asGeneric doc = Decoded g ∧
       ((Kind g = "CustomResourceDefinition" ∧ APIVersion g ≠ "apiextensions.k8s.io/v1") ∨
        (Kind g = "MutatingWebhookConfiguration" ∧
         APIVersion g ≠ "admissionregistration.k8s.io/v1") ∨
        (Kind g = "ValidatingWebhookConfiguration" ∧
         APIVersion g ≠ "admissionregistration.k8s.io/v1")).

(** A fragment that the first loop reads without an error. *)
Definition accepted (doc : Doc) : Prop :=
  ∃ g, asGeneric doc = Decoded g ∧
       (Kind g = "CustomResourceDefinition" →
          APIVersion g = "apiextensions.k8s.io/v1" ∧ ∃ crd, asCRD doc = Decoded crd) ∧
       (Kind g = "MutatingWebhookConfiguration" →
          APIVersion g = "admissionregistration.k8s.io/v1" ∧
          ∃ hook, asMutating doc = Decoded hook) ∧
       (Kind g = "ValidatingWebhookConfiguration" →
          APIVersion g = "admissionregistration.k8s.io/v1" ∧
          ∃ hook, asValidating doc = Decoded hook).

(** A webhook-configuration fragment with a webhook entry whose client
    config has no service reference. *)
Definition nilServiceFragment (doc : Doc) : Prop :=
  ∃ g, asGeneric doc = Decoded g ∧
       ((Kind g = "MutatingWebhookConfiguration" ∧
         ∃ hook w, asMutating doc = Decoded hook ∧ w ∈ mut_Webhooks hook ∧
                   Service (mw_ClientConfig w) = None) ∨
        (Kind g = "ValidatingWebhookConfiguration" ∧
         ∃ hook w, asValidating doc = Decoded hook ∧ w ∈ val_Webhooks hook ∧
                   Service (vw_ClientConfig w) = None)).

(** The fragments that the first loop collects, kind by kind. *)
Definition crdOf (doc : Doc) : option CustomResourceDefinition :=
  match asGeneric doc, asCRD doc with
  | Decoded g, Decoded crd =>
      if decide (Kind g = "CustomResourceDefinition") then Some crd else None
  | _, _ => None
  end.

Definition mutatingOf (doc : Doc) : option MutatingWebhookConfiguration :=
  match asGeneric doc, asMutating doc with
  | Decoded g, Decoded hook =>
      if decide (Kind g = "MutatingWebhookConfiguration") then Some hook else None
  | _, _ => None
  end.

Definition validatingOf (doc : Doc) : option ValidatingWebhookConfiguration :=
  match asGeneric doc, asValidating doc with
  | Decoded g, Decoded hook =>
      if decide (Kind g = "ValidatingWebhookConfiguration") then Some hook else None
  | _, _ => None
  end.

(** A loop body that never returns an error and panics, when it does,
    with [p]. *)
Definition panicsWith {A} (p : string) (f : A → Outcome A) : Prop :=
  ∀ x, (∃ y, f x = Ok y) ∨ f x = Panic p.

End ProviderSpec.

(** * Concrete runs *)

Module Scenario.
Import Sys.

Definition ca0 : Kubeconfig.TinyCA :=
  Kubeconfig.mkTinyCA [x01; x02]
    (λ _, Kubeconfig.IssuedPair [x0a] [x0b]).

Definition home : string := "/home/user/.kube/config".

Definition clientcmd0 : Kubeconfig.Clientcmd :=
  Kubeconfig.mkClientcmd [home]
    (λ _ fs, match Kubeconfig.files fs !! home with
             | Some c => Kubeconfig.LoadOk c
             | None => Kubeconfig.LoadOk Kubeconfig.NewConfig
             end)
    (λ _ _, home).

(** An environment in which every call succeeds. *)
Definition os_ok : OS :=
  mkOS (Ok "/work") (λ _, None) (λ _, None)
       (λ n, Ok (6000 + Z.of_nat n, "127.0.0.1")%Z)
       (λ _, Ok ca0)
       (λ _, None) (λ _, None) (λ _, Ok tt)
       (λ _, None) (λ _, None) (λ _, None)
       clientcmd0.

(** The same environment, except that the etcd binary cannot be started. *)
Definition os_no_etcd : OS :=
  mkOS (Ok "/work") (λ _, None) (λ _, None)
       (λ n, Ok (6000 + Z.of_nat n, "127.0.0.1")%Z)
       (λ _, Ok ca0)
       (λ _, None)
       (λ ps, if decide (ps_Path ps = "test/packages/bootstrap-kubernetes/etcd")
              then Some "fork/exec test/packages/bootstrap-kubernetes/etcd: no such file or directory"
              else None)
       (λ _, Ok tt)
       (λ _, None) (λ _, None) (λ _, None)
       clientcmd0.

Definition world0 : World :=
  mkWorld (Kubeconfig.mkFS ∅ ∅) [] 0.

(** The control plane of main, before [Start]. *)
Definition cp0 : Controlplane.ControlPlane :=
  Controlplane.mkControlPlane "./test/packages/bootstrap-kubernetes" "" "" None None.

(** A second authority, for a second merge. *)
Definition ca1 : Kubeconfig.TinyCA :=
  Kubeconfig.mkTinyCA [x03; x04]
    (λ _, Kubeconfig.IssuedPair [x0c] [x0d]).

(** A credentials file that someone else manages, with its own current
    context. *)
Definition external : Kubeconfig.Config :=
  Kubeconfig.mkConfig
    {[ "prod" := Kubeconfig.mkCluster "https://prod.example.com:6443" [x7f] ]}
    {[ "prod-admin" := Kubeconfig.mkAuthInfo [x10] [x11] ]}
    {[ "prod" := Kubeconfig.mkContext "prod" "prod-admin" ]}
    "prod".

(** A credentials file whose current context names the bootstrap cluster
    although no context, cluster or user of that name is left in it. *)
Definition dangling : Kubeconfig.Config :=
  Kubeconfig.mkConfig ∅ ∅ ∅ "kBB-8-bootstrap".

Definition fsExternal : Kubeconfig.FS := Kubeconfig.mkFS {[ home := external ]} ∅.
Definition fsDangling : Kubeconfig.FS := Kubeconfig.mkFS {[ home := dangling ]} ∅.

(** The webhook identity of a provider. *)
Definition pki0 : Provider.providerPKI :=
  Provider.mkProviderPKI "/work/.tmp/provider/capi/ca" [x2d; x2d; x2d; x2d; x2d].

Definition url0 : Provider.providerURL :=
  Provider.mkProviderURL "127.0.0.1" 9443 8081.

Definition manifestPath0 : string := "test/packages/bootstrap-capi/components.yaml".

(** A client config that refers to a service in the cluster. *)
Definition serviceConfig (path : string) : Provider.WebhookClientConfig :=
  Provider.mkClientConfig None
    (Some (Provider.mkServiceReference "capi-system" "capi-webhook-service" (Some path) None))
    [x01].

(** A client config that already is a URL. *)
Definition urlConfig : Provider.WebhookClientConfig :=
  Provider.mkClientConfig (Some "https://hooks.example.com/mutate") None [x01].

Definition otherType {A} : Provider.Parsed A :=
  Provider.Malformed "cannot unmarshal into this type".

Definition crdDoc (apiVersion : string) (crd : Provider.CustomResourceDefinition)
  : Provider.Doc :=
  Provider.mkDoc
    (Provider.Decoded (Provider.mkMeta "CustomResourceDefinition" apiVersion
                         (Provider.crd_Name crd)))
    (Provider.Decoded crd) otherType otherType.

Definition mutatingDoc (apiVersion : string) (hook : Provider.MutatingWebhookConfiguration)
  : Provider.Doc :=
  Provider.mkDoc
    (Provider.Decoded (Provider.mkMeta "MutatingWebhookConfiguration" apiVersion
                         (Provider.mut_Name hook)))
    otherType (Provider.Decoded hook) otherType.

Definition validatingDoc (apiVersion : string)
    (hook : Provider.ValidatingWebhookConfiguration) : Provider.Doc :=
  Provider.mkDoc
    (Provider.Decoded (Provider.mkMeta "ValidatingWebhookConfiguration" apiVersion
                         (Provider.val_Name hook)))
    otherType otherType (Provider.Decoded hook).

Definition manifest (docs : list Provider.Doc) : Provider.Files :=
  λ path, if decide (path = manifestPath0) then Ok docs
          else Err ("open " +:+ path +:+ ": no such file or directory").

Definition mutating0 : Provider.MutatingWebhookConfiguration :=
  Provider.mkMutating "capi-mutating-webhook-configuration" ""
    [Provider.mkMutatingWebhook "default.cluster.cluster.x-k8s.io"
       (serviceConfig "/mutate") None].

Definition validating0 : Provider.ValidatingWebhookConfiguration :=
  Provider.mkValidating "capi-validating-webhook-configuration" ""
    [Provider.mkValidatingWebhook "validation.cluster.cluster.x-k8s.io"
       (serviceConfig "/mutate")].

(** A webhook configuration whose entry calls a URL, not a service. *)
Definition mutatingByURL : Provider.MutatingWebhookConfiguration :=
  Provider.mkMutating "external-mutating-webhook-configuration" ""
    [Provider.mkMutatingWebhook "default.external.example.com" urlConfig None].

(** A CRD that declares its conversion webhook, as the CRDs of Cluster API
    do, and one that declares none. *)
Definition crdDeclared : Provider.CustomResourceDefinition :=
  Provider.mkCRD "clusters.cluster.x-k8s.io" ""
    (Some (Provider.mkConversion "Webhook"
             (Some (Provider.mkWebhookConversion
                      (Some (serviceConfig "/convert")) ["v1"; "v1beta1"])))).

Definition crdPlain : Provider.CustomResourceDefinition :=
  Provider.mkCRD "machines.cluster.x-k8s.io" "" None.

(** A client of an API server that stores nothing at first, accepts every
    write, and establishes what it stores at once. *)
Definition stored (k : Provider.ObjectKind) (name : string) (sent : list Provider.Call) : bool :=
  existsb (λ call, match call with
                   | Provider.CallCreate o | Provider.CallUpdate o =>
                       bool_decide (Provider.kindOf o = k ∧ Provider.nameOf o = name)
                   | Provider.CallGet _ _ => false
                   end) sent.

Definition client0 : Provider.Client :=
  Provider.mkClient
    (λ sent, match last sent with
             | Some (Provider.CallGet k name) =>
                 if stored k name sent then Provider.Found "1" true else Provider.NotFound
             | _ => Provider.GetFailed "not a get"
             end)
    (λ _, None).

Definition connect0 : Provider.Connect := λ _, Ok client0.

Definition ctx0 : Provider.Context := Provider.mkContext 10.

End Scenario.

(** * The start of a provider

    [Provider.Start] and [Provider.setProcessState] of pkg/provider, over
    the provider, the world of the operating system and the requests sent
    to the API server. *)

Module ProviderStart.
Import Sys Provider.

(** What is outside the repository: the certificates package, the client
    of the API server, the files of the manifests, and what
    [process.State.Ready] answers at each poll. *)
Record Env := mkEnv {
  certs : Certs;
  connect : Connect;
  fsys : Files;
  Ready : ProcessState → nat → bool;
}.

Definition onSys {A} (m : M World A) : M (Provider * (World * list Call)) A :=
  λ '(p, (w, sent)), let '(r, w') := m w in (r, (p, (w', sent))).

Definition onAPI {A} (m : M (list Call) A) : M (Provider * (World * list Call)) A :=
  λ '(p, (w, sent)), let '(r, sent') := m sent in (r, (p, (w, sent'))).

Definition update (f : Provider → Provider) : M (Provider * (World * list Call)) unit :=
  λ '(p, s), (Ok tt, (f p, s)).

Definition receiver : M (Provider * (World * list Call)) Provider :=
  λ '(p, s), (Ok p, (p, s)).

Definition set_processState (v : option ProcessState) (p : Provider) : Provider :=
  mkProvider (PackagePath p) (Args p) v (logFile p) (logFileWriter p).

Definition set_logFile (v : option string) (p : Provider) : Provider :=
  mkProvider (PackagePath p) (Args p) (processState p) v (logFileWriter p).

Definition set_logFileWriter (v : option string) (p : Provider) : Provider :=
  mkProvider (PackagePath p) (Args p) (processState p) (logFile p) v.

Definition setProcessState {uc : Go.Unicode} (os : OS) (env : Env) (ctx : Context)
    (kubeConfig : string) : M (Provider * (World * list Call)) unit :=
  (let! currentDir := onSys (getwd os) in
   let! p := receiver in
   (* Set up the log file. *)
   let localPath :=
     Go.Join [currentDir; ".tmp"; "provider"; Go.ToLower (Name p)] in
   do! onSys (mkdirAll os localPath) in
   let logPath := Go.Join [localPath; "manager.log"] in
   let opened := OpenFile os logPath in
   do! onSys (emit (EvOpenFile logPath)) in
   do! update (set_logFile (match opened with
                            | Some _ => None
                            | None => Some logPath
                            end)) in
   do! check opened in
   do! update (set_logFileWriter (Some logPath)) in
   (* Set up the webhook url. *)
   let! webhook :=
     onSys (wrap "unable to grab random port for serving webhooks on" (suggest os)) in
   (* Set up the health url. *)
   let! health :=
     onSys (wrap "unable to grab random port for serving health on" (suggest os)) in
   let pURL := mkProviderURL webhook.2 webhook.1 health.1 in
   (* Set up the PKI. *)
   let! pki := onSys (setupPKI os (certs env) localPath pURL) in
   (* Create a subset of objects from the provider manifest. *)
   let manifestPath := Go.Join [PackagePath p; manifestName] in
   do! onAPI (createManifestObjects (connect env) (fsys env) ctx manifestPath kubeConfig
                pki pURL) in
   (* Starts the provider. *)
   let args :=
     Args p ++
     [ "--kubeconfig=" +:+ kubeConfig;
       "--webhook-cert-dir=" +:+ dir pki;
       "--webhook-port=" +:+ Go.Itoa (webhookPort pURL);
       "--health-addr=:" +:+ Go.Itoa (healthPort pURL);
       "--metrics-bind-addr=0" ] in
   let ps :=
     mkProcessState (Go.Join [PackagePath p; binaryName]) args
       (Go.mkURL "http" (Go.JoinHostPort (host pURL) (Go.Itoa (healthPort pURL))))
       "/healthz" in
   do! update (set_processState (Some ps)) in
   onSys (init os CProvider ps))%go.

(** The condition that [Start] polls: the poll of number [n] asks the
    process state whether it is ready. *)
Definition isReady (env : Env) (ps : ProcessState) : M nat bool :=
  λ n, (Ok (Ready env ps n), S n).

Definition Start {uc : Go.Unicode} (os : OS) (env : Env) (ctx : Context)
    (kubeConfig : string) : M (Provider * (World * list Call)) unit :=
  (do! setProcessState os env ctx kubeConfig in
   let! p := receiver in
   match processState p with
   | None => panic nil_dereference
   | Some ps =>
       do! onSys (start os CProvider ps) in
       match (PollImmediateInfiniteWithContext ctx (isReady env ps) 0).1 with
       | Ok _ => ret tt
       | Err e => throw ("error starting " +:+ PackagePath p +:+ ": " +:+ e)
       | Panic msg => panic msg
       end
   end)%go.

End ProviderStart.

(** * More vocabulary: startup, adaptation, requests, the wait group *)

Module ControlplaneStartSpec.
Import Sys.

(** The stages of a startup, as the events of [ControlPlane.Start] show
    them. *)
Inductive StartupStage := StoreStarted | APIServerStarted | CredentialsPublished.

Definition startupOf (ev : Event) : option StartupStage :=
  match ev with
  | EvStart CEtcd => Some StoreStarted
  | EvStart CAPIServer => Some APIServerStarted
  | EvCreateOrMerge _ => Some CredentialsPublished
  | _ => None
  end.

Definition startup (evs : list Event) : list StartupStage := omap startupOf evs.

End ControlplaneStartSpec.

Module ProviderApplySpec.
Import Provider.

(** A fragment of a kind that the provider does not manage. *)
Definition unmanaged (doc : Doc) : Prop :=
  ∃ g, asGeneric doc = Decoded g ∧
       Kind g ≠ "CustomResourceDefinition" ∧
       Kind g ≠ "MutatingWebhookConfiguration" ∧
       Kind g ≠ "ValidatingWebhookConfiguration".

(** A client config as the adaptation leaves it. *)
Definition rewired (pki : providerPKI) (u : providerURL) (cc : WebhookClientConfig) : Prop :=
  Service cc = None ∧ CABundle cc = caData pki ∧
  ∃ path, URL cc = Some ("https://" +:+ Go.escapeHost (webhookHostPort u) +:+ "/" +:+ path).

(** The requests that change the server. *)
Definition written (call : Call) : option Object :=
  match call with
  | CallCreate o | CallUpdate o => Some o
  | CallGet _ _ => None
  end.

Definition identity (o : Object) : ObjectKind * string := (kindOf o, nameOf o).

(** What the adaptation keeps of an object and what it makes of its client
    configs. *)
Definition adaptedCRD pki u (crd crd' : CustomResourceDefinition) : Prop :=
  crd_Name crd' = crd_Name crd ∧ crd_ResourceVersion crd' = crd_ResourceVersion crd ∧
  ∃ cc, Conversion crd' =
          Some (mkConversion WebhookConverter
                  (Some (mkWebhookConversion (Some cc) ["v1"; "v1beta1"]))) ∧
        rewired pki u cc.

Definition adaptedMutating pki u (hook hook' : MutatingWebhookConfiguration) : Prop :=
  mut_Name hook' = mut_Name hook ∧ mut_ResourceVersion hook' = mut_ResourceVersion hook ∧
  Forall2 (λ w w', mw_Name w' = mw_Name w ∧
                   mw_ReinvocationPolicy w' = mw_ReinvocationPolicy w ∧
                   rewired pki u (mw_ClientConfig w'))
          (mut_Webhooks hook) (mut_Webhooks hook').

Definition adaptedValidating pki u (hook hook' : ValidatingWebhookConfiguration) : Prop :=
  val_Name hook' = val_Name hook ∧ val_ResourceVersion hook' = val_ResourceVersion hook ∧
  Forall2 (λ w w', vw_Name w' = vw_Name w ∧ rewired pki u (vw_ClientConfig w'))
          (val_Webhooks hook) (val_Webhooks hook').

(** The objects of a manifest in the order in which
    [createManifestObjects] applies them. *)
Definition objectsOf (objs : manifestObjects) : list Object :=
  (OCRD <$> crds objs) ++ (OMutating <$> mutHooks objs) ++ (OValidating <$> valHooks objs).

(** A path element: a text without a separator. *)
Definition noSlash (s : string) : Prop := "/"%char ∉ String.list_ascii_of_string s.

End ProviderApplySpec.

Module WaitGroupSpec.
Import Main.

(** One for a goroutine that has not called [wg.Done()] yet. *)
Definition pending (g : Goroutine) : nat :=
  match pc g with
  | Finished => 0
  | _ => 1
  end.

(** A goroutine that is still to call [p.Start] or has panicked in it. *)
Definition stuck (g : Goroutine) : Prop :=
  pc g = Spawned ∨ ∃ err, pc g = Panicked err.

Definition pendingCount (gs : list Goroutine) : nat := sum_list (pending <$> gs).

(** The state in which the first [k] goroutines have run to their end and
    the others have not been scheduled. *)
Definition afterFirst {uc : Go.Unicode} (k : nat) (ps : list Provider.Provider) : State :=
  mkState
    (mkMemory {[ 0 := (Provider.Name <$> take k ps) ++ replicate (length ps - k) "" ]}
              (mkSlice 0 k (length ps))
              (Z.of_nat (length ps) - Z.of_nat k))
    (((λ p, mkGoroutine p Finished) <$> take k ps) ++
     ((λ p, mkGoroutine p Spawned) <$> drop k ps)).

End WaitGroupSpec.

(** * More scenarios *)

Module Scenarios.
Import Sys Scenario.

Definition url1 : string := "https://127.0.0.1:6002".

(** Case tables that leave every text as it is: the names of the
    scenarios are ASCII and never reach them. *)
Definition unicode0 : Go.Unicode := Go.mkUnicode (λ s, s) (λ s, s).

(** The config that [create] issues for the bootstrap cluster. *)
Definition issued0 : Kubeconfig.Config :=
  default Kubeconfig.NewConfig (Kubeconfig.create ca0 "bootstrap" url1).1.

(** The file of someone else after a cluster named workload was merged
    into it. *)
Definition workload : Kubeconfig.Config :=
  Kubeconfig.merge
    (default Kubeconfig.NewConfig (Kubeconfig.create ca1 "workload" "https://10.0.0.1:6443").1)
    external.

Definition fsMerged : Kubeconfig.FS :=
  Kubeconfig.mkFS {[ home := Kubeconfig.merge issued0 workload ]} ∅.

(** An authority that cannot issue a client certificate. *)
Definition caBroken : Kubeconfig.TinyCA :=
  Kubeconfig.mkTinyCA [x01; x02]
    (λ _, Kubeconfig.IssueFailed "crypto/rsa: message too long for RSA key size").

(** A clientcmd that insists on an explicit file: a missing one is an
    error that [os.IsNotExist] recognises; the file of the default
    precedence may be missing. *)
Definition clientcmdStrict : Kubeconfig.Clientcmd :=
  Kubeconfig.mkClientcmd [home]
    (λ rules fs,
       if decide (Kubeconfig.ExplicitPath rules ≠ "")
       then match Kubeconfig.files fs !! Kubeconfig.ExplicitPath rules with
            | Some c => Kubeconfig.LoadOk c
            | None =>
                Kubeconfig.LoadErr
                  ("stat " +:+ Kubeconfig.ExplicitPath rules +:+ ": no such file or directory")
                  true
            end
       else match Kubeconfig.files fs !! home with
            | Some c => Kubeconfig.LoadOk c
            | None => Kubeconfig.LoadOk Kubeconfig.NewConfig
            end)
    (λ rules _, if decide (Kubeconfig.ExplicitPath rules ≠ "")
                then Kubeconfig.ExplicitPath rules else home).

Definition explicit0 : string := "/tmp/bootstrap.kubeconfig".

Definition fsEmpty : Kubeconfig.FS := Kubeconfig.mkFS ∅ ∅.

(** The control plane of main and its world after a [Start] in which every
    call succeeds. *)
Definition started0 : Controlplane.ControlPlane * World :=
  Eval vm_compute in (Controlplane.Start os_ok (cp0, world0)).2.

(** An environment in which the API server does not stop. *)
Definition os_stuck : OS :=
  mkOS (Ok "/work") (λ _, None) (λ _, None)
       (λ n, Ok (6000 + Z.of_nat n, "127.0.0.1")%Z)
       (λ _, Ok ca0)
       (λ _, None) (λ _, None)
       (λ ps, match ps with
              | Some s => if decide (ps_HealthCheckPath s = "/readyz")
                          then Err "timeout waiting for process kube-apiserver to stop"
                          else Ok tt
              | None => Ok tt
              end)
       (λ _, None) (λ _, None) (λ _, None)
       clientcmd0.

(** An environment whose authority cannot issue a client certificate. *)
Definition os_nocert : OS :=
  mkOS (Ok "/work") (λ _, None) (λ _, None)
       (λ n, Ok (6000 + Z.of_nat n, "127.0.0.1")%Z)
       (λ _, Ok caBroken)
       (λ _, None) (λ _, None) (λ _, Ok tt)
       (λ _, None) (λ _, None) (λ _, None)
       clientcmd0.

(** A fragment of a kind the provider does not manage. *)
Definition deploymentDoc : Provider.Doc :=
  Provider.mkDoc
    (Provider.Decoded (Provider.mkMeta "Deployment" "apps/v1" "capi-controller-manager"))
    otherType otherType otherType.

Definition strippedPath : string := "test/packages/bootstrap-capi/stripped.yaml".

(** A manifest with a Deployment, and the same manifest without it. *)
Definition twoManifests : Provider.Files :=
  λ path,
    if decide (path = manifestPath0)
    then Ok [crdDoc "apiextensions.k8s.io/v1" crdPlain; deploymentDoc;
             mutatingDoc "admissionregistration.k8s.io/v1" mutating0]
    else if decide (path = strippedPath)
    then Ok [crdDoc "apiextensions.k8s.io/v1" crdPlain;
             mutatingDoc "admissionregistration.k8s.io/v1" mutating0]
    else Err ("open " +:+ path +:+ ": no such file or directory").

Definition supported : list Provider.Doc :=
  [crdDoc "apiextensions.k8s.io/v1" crdPlain;
   mutatingDoc "admissionregistration.k8s.io/v1" mutating0].

Definition unsupportedDocs : list Provider.Doc :=
  [crdDoc "apiextensions.k8s.io/v1" crdPlain;
   mutatingDoc "admissionregistration.k8s.io/v1beta1" mutating0].

Definition certs0 : Provider.Certs :=
  Provider.mkCerts
    (Ok (Provider.mkHookCA [x05] (λ _, Kubeconfig.IssuedPair [x06] [x07])))
    (λ _ _, None).

Definition capi0 : Provider.Provider :=
  Main.provider "./test/packages/bootstrap-capi" ["--v=2"].

(** The provider becomes ready at its third poll. *)
Definition env0 : ProviderStart.Env :=
  ProviderStart.mkEnv certs0 connect0 (manifest supported) (λ _ n, bool_decide (2 ≤ n)).

(** The provider never becomes ready. *)
Definition envNever : ProviderStart.Env :=
  ProviderStart.mkEnv certs0 connect0 (manifest supported) (λ _ _, false).

(** The provider and what is around it after a [Start] in which every
    call succeeds. *)
Definition providerStarted0 : Provider.Provider * (World * list Provider.Call) :=
  Eval vm_compute in
    (ProviderStart.Start (uc:=unicode0) os_ok env0 ctx0 home (capi0, (world0, []))).2.

(** The same after a [Start] whose polls all fail. *)
Definition providerTimedOut0 : Provider.Provider * (World * list Provider.Call) :=
  Eval vm_compute in
    (ProviderStart.Start (uc:=unicode0) os_ok envNever ctx0 home (capi0, (world0, []))).2.

(** The manifest of the provider has a fragment of the v1beta1 API. *)
Definition envUnsupported : ProviderStart.Env :=
  ProviderStart.mkEnv certs0 connect0 (manifest unsupportedDocs) (λ _ _, true).

(** The manager of kcp cannot be started. *)
Definition startErrKcp (p : Provider.Provider) : option string :=
  if decide (Provider.PackagePath p = "./test/packages/bootstrap-kcp")
  then Some "error starting ./test/packages/bootstrap-kcp: timed out waiting for the condition"
  else None.

Definition scheduleKcp : list nat :=
  replicate 5 0 ++ replicate 5 1 ++ [2] ++ replicate 5 3.

End Scenarios.

(** * Properties of pkg/kubeconfig *)

Module KubeconfigFacts.
Import Kubeconfig KubeconfigSpec Scenario.

Lemma entriesUnder_lookup {V} (k : string) (m : gmap string V) :
  entriesUnder k m = match m !! k with Some _ => 1 | None => 0 end.
Proof.
  unfold entriesUnder.
  induction m as [|i x m Hi IH] using map_ind.
  - by rewrite map_to_list_empty, lookup_empty.
  - rewrite map_to_list_insert by done.
    rewrite filter_cons. simpl.
    destruct (decide (i = k)) as [->|Hne].
    + rewrite lookup_insert_eq. rewrite Hi in IH. simpl. by rewrite IH.
    + rewrite lookup_insert_ne by done. done.
Qed.

Lemma scan_from {V} (newName : string) (newV : V) (base existing : gmap string V) :
  map_fold (λ existingName _ '(m, shouldAppend),
              if decide (existingName = newName)
              then (<[existingName := newV]> m, false)
              else (m, shouldAppend))
           (base, true) existing =
    match existing !! newName with
    | Some _ => (<[newName := newV]> base, false)
    | None => (base, true)
    end.
Proof.
  induction existing as [|i x m Hi Hfirst IH] using map_first_key_ind.
  - by rewrite map_fold_empty, lookup_empty.
  - rewrite map_fold_insert_first_key by done.
    rewrite IH. destruct (decide (i = newName)) as [->|Hne].
    + by rewrite lookup_insert_eq, Hi.
    + rewrite lookup_insert_ne by done.
      by destruct (m !! newName).
Qed.

Lemma scan_spec {V} (newName : string) (newV : V) (existing : gmap string V) :
  scan newName newV existing =
    match existing !! newName with
    | Some _ => (<[newName := newV]> existing, false)
    | None => (existing, true)
    end.
Proof. apply scan_from. Qed.

Lemma mergeEntries_union {V} (new existing : gmap string V) :
  mergeEntries new existing = new ∪ existing.
Proof.
  unfold mergeEntries.
  induction new as [|i x m Hi Hfirst IH] using map_first_key_ind.
  - by rewrite map_fold_empty, (left_id_L ∅ (∪)).
  - rewrite map_fold_insert_first_key by done.
    rewrite IH, scan_spec. rewrite <- insert_union_l.
    destruct ((m ∪ existing) !! i); done.
Qed.

Lemma create_issued (ca : TinyCA) (clusterName url : string) (cert key : bytes) :
  NewClientCert ca (mkClientInfo (userKey clusterName) [systemPrivilegedGroup])
    = IssuedPair cert key →
  create ca clusterName url =
    (Some {| Clusters := {[ clusterKey clusterName := mkCluster url (CertBytes ca) ]};
             AuthInfos := {[ userKey clusterName := mkAuthInfo key cert ]};
             Contexts := {[ contextKey clusterName :=
                              mkContext (clusterKey clusterName) (userKey clusterName) ]};
             CurrentContext := contextKey clusterName |}, None).
Proof. intros H. unfold create. by rewrite H. Qed.

Lemma merge_singleton_lookup {V} (k : string) (v : V) (existing : gmap string V) :
  mergeEntries {[ k := v ]} existing = <[k := v]> existing.
Proof. by rewrite mergeEntries_union, insert_union_singleton_l. Qed.

(** C4. Merging an entry for the same cluster name twice, into any
    pre-existing config, leaves exactly one entry under each of the three
    derived keys (cluster, user with the -admin suffix, context), and that
    entry is the one of the second merge: the second merge adds no key to
    the maps, and the result is what merging the second entry alone gives. *)
Theorem merge_twice_one_entry_per_key
    (existing : Config) (ca1 ca2 : TinyCA) (url1 url2 clusterName : string)
    (cert1 key1 cert2 key2 : bytes) :
  NewClientCert ca1 (mkClientInfo (userKey clusterName) [systemPrivilegedGroup])
    = IssuedPair cert1 key1 →
  NewClientCert ca2 (mkClientInfo (userKey clusterName) [systemPrivilegedGroup])
    = IssuedPair cert2 key2 →
  ∃ new1 new2,
    create ca1 clusterName url1 = (Some new1, None) ∧
    create ca2 clusterName url2 = (Some new2, None) ∧
    let once := merge new1 existing in
    let twice := merge new2 once in
    entriesUnder (clusterKey clusterName) (Clusters twice) = 1 ∧
    entriesUnder (userKey clusterName) (AuthInfos twice) = 1 ∧
    entriesUnder (contextKey clusterName) (Contexts twice) = 1 ∧
    Clusters twice !! clusterKey clusterName = Some (mkCluster url2 (CertBytes ca2)) ∧
    AuthInfos twice !! userKey clusterName = Some (mkAuthInfo key2 cert2) ∧
    Contexts twice !! contextKey clusterName
      = Some (mkContext (clusterKey clusterName) (userKey clusterName)) ∧
    dom (Clusters twice) = dom (Clusters once) ∧
    dom (AuthInfos twice) = dom (AuthInfos once) ∧
    dom (Contexts twice) = dom (Contexts once) ∧
    twice = merge new2 existing.
Proof.
  intros H1 H2. eexists _, _.
  split; [by apply create_issued|]. split; [by apply create_issued|].
  cbn zeta. unfold merge; cbn [Clusters AuthInfos Contexts CurrentContext].
  rewrite !merge_singleton_lookup, !entriesUnder_lookup, !lookup_insert_eq.
  rewrite !insert_insert_eq, !dom_insert_L.
  repeat split; try done; set_solver.
Qed.

Lemma remove_eq (clusterName : string) (config : Config) :
  remove clusterName config =
    (mkConfig (delete (clusterKey clusterName) (Clusters config))
              (delete (userKey clusterName) (AuthInfos config))
              (delete (contextKey clusterName) (Contexts config))
              (if decide (CurrentContext config = contextKey clusterName)
               then "" else CurrentContext config),
     bool_decide (¬ untouched clusterName config)).
Proof.
  unfold remove, untouched.
  destruct (Clusters config !! clusterKey clusterName) as [c|] eqn:Hc;
    destruct (AuthInfos config !! userKey clusterName) as [a|] eqn:Ha;
    destruct (Contexts config !! contextKey clusterName) as [x|] eqn:Hx;
    destruct (decide (CurrentContext config = contextKey clusterName)) as [Hcur|Hcur];
    cbn -[clusterKey userKey contextKey];
    rewrite ?(delete_id _ _ Hc), ?(delete_id _ _ Ha), ?(delete_id _ _ Hx);
    f_equal; symmetry;
    first [ apply bool_decide_eq_true_2; intros (? & ? & ? & ?); congruence
          | apply bool_decide_eq_false_2; intros Hn; apply Hn; done ].
Qed.

Lemma removeFrom_untouched (clusterName path : string) (fs : FS) (c : Config) :
  files fs !! path = Some c → untouched clusterName c →
  removeFrom clusterName path fs = (Ok tt, fs).
Proof.
  intros Hf Hu. unfold removeFrom, bind, LoadFromFile. rewrite Hf.
  rewrite remove_eq. rewrite bool_decide_eq_false_2 by naive_solver. done.
Qed.

Lemma removeAll_untouched (clusterName : string) (paths : list string) (fs : FS) :
  (∀ path, path ∈ paths → ∃ c, files fs !! path = Some c ∧ untouched clusterName c) →
  removeAll clusterName paths fs = (Ok tt, fs).
Proof.
  induction paths as [|path rest IH]; intros H; [done|].
  cbn [removeAll]. unfold bind.
  destruct (H path) as (c & Hf & Hu); [by left|].
  rewrite (removeFrom_untouched _ _ _ _ Hf Hu).
  apply IH. intros q Hq. apply H. by right.
Qed.

(** C5, as amended. [remove] deletes the three derived keys from the
    clusters, users and contexts maps, and clears the current context when
    it is the derived context key and leaves it as it is otherwise. It
    reports no mutation exactly when none of the derived keys is present and
    the current context is not the derived one; the config is then
    unchanged, and [Remove] over credentials files that all load and are all
    in that case returns no error and rewrites none of them. *)
Theorem remove_deletes_keys_and_clears_current (clusterName : string) (config : Config) :
  let config' := (remove clusterName config).1 in
  let mutated := (remove clusterName config).2 in
  Clusters config' = delete (clusterKey clusterName) (Clusters config) ∧
  AuthInfos config' = delete (userKey clusterName) (AuthInfos config) ∧
  Contexts config' = delete (contextKey clusterName) (Contexts config) ∧
  Clusters config' !! clusterKey clusterName = None ∧
  AuthInfos config' !! userKey clusterName = None ∧
  Contexts config' !! contextKey clusterName = None ∧
  (CurrentContext config = contextKey clusterName → CurrentContext config' = "") ∧
  (CurrentContext config ≠ contextKey clusterName →
     CurrentContext config' = CurrentContext config) ∧
  (mutated = false ↔ untouched clusterName config) ∧
  (untouched clusterName config → config' = config) ∧
  (∀ (cc : Clientcmd) (explicitPath : string) (fs : FS),
     (∀ path, path ∈ GetLoadingPrecedence (getConfigLoadingRules cc explicitPath) →
              ∃ c, files fs !! path = Some c ∧ untouched clusterName c) →
     Remove cc clusterName explicitPath fs = (Ok tt, fs)).
Proof.
  cbn zeta. rewrite remove_eq. cbn [fst snd Clusters AuthInfos Contexts CurrentContext].
  rewrite !lookup_delete_eq.
  split_and!; try done.
  - intros ->. by rewrite decide_True.
  - intros Hcur. by rewrite decide_False.
  - rewrite bool_decide_eq_false. split; [apply dec_stable | naive_solver].
  - intros (Hc & Ha & Hx & Hcur). destruct config as [cs us xs cur]; cbn in *.
    rewrite (delete_id _ _ Hc), (delete_id _ _ Ha), (delete_id _ _ Hx).
    by rewrite decide_False.
  - intros cc explicitPath fs Hall. unfold Remove. by apply removeAll_untouched.
Qed.

(** C9. For every pre-existing config that loads, [CreateOrMerge] writes a
    config in which every entry under a key other than the three derived
    ones is the pre-existing one, and whose current context is the derived
    context key, whatever the pre-existing current context was. *)
Theorem CreateOrMerge_keeps_other_entries_and_takes_current
    (cc : Clientcmd) (ca : TinyCA) (url clusterName explicitPath : string)
    (fs : FS) (existing : Config) (cert key : bytes) :
  rules_Load cc (getConfigLoadingRules cc explicitPath) fs = LoadOk existing →
  NewClientCert ca (mkClientInfo (userKey clusterName) [systemPrivilegedGroup])
    = IssuedPair cert key →
  GetDefaultFilename cc (getConfigLoadingRules cc explicitPath) fs ∉ unwritable fs →
  ∃ written,
    CreateOrMerge cc ca url clusterName explicitPath fs =
      (Ok (GetDefaultFilename cc (getConfigLoadingRules cc explicitPath) fs,
           contextKey clusterName),
       mkFS (<[GetDefaultFilename cc (getConfigLoadingRules cc explicitPath) fs := written]>
               (files fs))
            (unwritable fs)) ∧
    (∀ k, k ≠ clusterKey clusterName → Clusters written !! k = Clusters existing !! k) ∧
    (∀ k, k ≠ userKey clusterName → AuthInfos written !! k = AuthInfos existing !! k) ∧
    (∀ k, k ≠ contextKey clusterName → Contexts written !! k = Contexts existing !! k) ∧
    CurrentContext written = contextKey clusterName.
Proof.
  intros Hload Hissue Hw. eexists. split.
  - unfold CreateOrMerge. rewrite Hload, (create_issued _ _ _ _ _ Hissue).
    cbn [fst]. unfold WriteToFile. rewrite decide_False by done. reflexivity.
  - unfold merge; cbn [Clusters AuthInfos Contexts CurrentContext].
    rewrite !merge_singleton_lookup.
    repeat split; try done; intros k Hk; by rewrite lookup_insert_ne.
Qed.

(** C4 at a file that someone else manages, with two authorities. *)
Lemma merge_twice_witness :
  ∃ new1 new2,
    create ca0 "bootstrap" "https://127.0.0.1:6002" = (Some new1, None) ∧
    create ca1 "bootstrap" "https://127.0.0.1:7002" = (Some new2, None) ∧
    entriesUnder (clusterKey "bootstrap") (Clusters (merge new2 (merge new1 external))) = 1 ∧
    Clusters (merge new2 (merge new1 external)) !! clusterKey "bootstrap"
      = Some (mkCluster "https://127.0.0.1:7002" (CertBytes ca1)).
Proof.
  destruct (merge_twice_one_entry_per_key external ca0 ca1
              "https://127.0.0.1:6002" "https://127.0.0.1:7002" "bootstrap"
              [x0a] [x0b] [x0c] [x0d] eq_refl eq_refl)
    as (new1 & new2 & H1 & H2 & Hn & _ & _ & Hv & _).
  exists new1, new2. repeat split; assumption.
Defined.

(** C5, the claim as stated fails: no derived key is present, and yet the
    removal mutates the config and rewrites the file. *)
Lemma remove_rewrites_dangling_current :
  Clusters dangling !! clusterKey "bootstrap" = None ∧
  AuthInfos dangling !! userKey "bootstrap" = None ∧
  Contexts dangling !! contextKey "bootstrap" = None ∧
  remove "bootstrap" dangling = (NewConfig, true) ∧
  remove "bootstrap" dangling ≠ (dangling, false) ∧
  Remove clientcmd0 "bootstrap" "" fsDangling = (Ok tt, mkFS {[ home := NewConfig ]} ∅) ∧
  files (Remove clientcmd0 "bootstrap" "" fsDangling).2 !! home ≠ files fsDangling !! home.
Proof.
  split_and!; try (vm_compute; reflexivity); vm_compute; discriminate.
Defined.

(** C5 as amended, at the file that someone else manages. *)
Lemma remove_untouched_witness :
  untouched "bootstrap" external ∧
  remove "bootstrap" external = (external, false) ∧
  Remove clientcmd0 "bootstrap" "" fsExternal = (Ok tt, fsExternal).
Proof.
  assert (untouched "bootstrap" external) as Hu.
  { unfold untouched. split_and!; try (vm_compute; reflexivity). vm_compute. discriminate. }
  pose proof (remove_deletes_keys_and_clears_current "bootstrap" external) as H.
  cbn zeta in H. destruct (remove "bootstrap" external) as [config' mutated].
  cbn [fst snd] in H.
  destruct H as (_ & _ & _ & _ & _ & _ & _ & _ & Hm & Hsame & Hfile).
  split; [exact Hu|]. split.
  - rewrite (Hsame Hu), (proj2 Hm Hu). reflexivity.
  - apply Hfile. intros path Hpath. exists external. split; [|exact Hu].
    vm_compute in Hpath. apply list_elem_of_singleton in Hpath as ->. reflexivity.
Defined.

(** C9 at the file that someone else manages: the entries of [prod] stay
    and the current context moves from [prod] to the bootstrap cluster. *)
Lemma CreateOrMerge_witness :
  CurrentContext external = "prod" ∧
  ∃ written,
    CreateOrMerge clientcmd0 ca0 "https://127.0.0.1:6002" "bootstrap" "" fsExternal
      = (Ok (home, "kBB-8-bootstrap"), mkFS (<[home := written]> (files fsExternal)) ∅) ∧
    Clusters written !! "prod" = Clusters external !! "prod" ∧
    AuthInfos written !! "prod-admin" = AuthInfos external !! "prod-admin" ∧
    Contexts written !! "prod" = Contexts external !! "prod" ∧
    CurrentContext written = "kBB-8-bootstrap".
Proof.
  split; [reflexivity|].
  destruct (CreateOrMerge_keeps_other_entries_and_takes_current clientcmd0 ca0
              "https://127.0.0.1:6002" "bootstrap" "" fsExternal external [x0a] [x0b])
    as (written & Hrun & Hc & Ha & Hx & Hcur).
  - reflexivity.
  - reflexivity.
  - cbn. apply not_elem_of_empty.
  - exists written. split_and!.
    + exact Hrun.
    + apply Hc. vm_compute. discriminate.
    + apply Ha. vm_compute. discriminate.
    + apply Hx. vm_compute. discriminate.
    + exact Hcur.
Defined.

End KubeconfigFacts.

(** * Properties of pkg/controlplane *)

(** Membership in a concrete list of stages or events. *)
Ltac stage_in :=
  solve [repeat first [apply list_elem_of_here | apply list_elem_of_further]].

Ltac stage_out H :=
  exfalso; repeat (apply elem_of_cons in H as [H|H]; [discriminate H|]);
  by apply elem_of_nil in H.

Module ControlplaneFacts.
Import Sys Controlplane ControlplaneSpec Scenario.

(** Runs a Stop method whose external answers are all among the
    hypotheses, and reads the trace off the resulting world. *)
Ltac stop_cases :=
  unfold bind, stop, flush, close, removeAll, emit, answer, check, ret, throw;
  repeat (cbn; match goal with H : _ = _ |- _ => rewrite H end);
  cbn; rewrite <- ?app_assoc; eexists; (split; [reflexivity|]); cbn; done.

Lemma APIServer_Stop_trace (os : OS) (a : option APIServer.t) (w : World) :
  ∃ tr, events (APIServer.Stop os a w).2 = events w ++ tr ∧
        teardown tr `prefix_of` [APIServerStopped] ∧
        ((APIServer.Stop os a w).1 = Ok tt → teardown tr = [APIServerStopped]).
Proof.
  unfold APIServer.Stop. destruct a as [a|].
  - destruct (process_Stop os (APIServer.processState a)) as [[]|e|p] eqn:Hs,
      (APIServer.logFileWriter a) as [wr|], (APIServer.logFile a) as [f|];
    try destruct (Flush os wr) eqn:Hf; try destruct (Close os f) eqn:Hc;
    stop_cases.
  - exists []. cbn. rewrite app_nil_r. split_and!; [done| apply prefix_nil |done].
Qed.

Lemma Etcd_Stop_trace (os : OS) (e : option Etcd.t) (w : World) :
  ∃ tr, events (Etcd.Stop os e w).2 = events w ++ tr ∧
        teardown tr `prefix_of` [StoreStopped] ∧
        ((Etcd.Stop os e w).1 = Ok tt → teardown tr = [StoreStopped]).
Proof.
  unfold Etcd.Stop. destruct e as [e|].
  - destruct (process_Stop os (Etcd.processState e)) as [[]|err|p] eqn:Hs,
      (Etcd.logFileWriter e) as [wr|], (Etcd.logFile e) as [f|],
      (RemoveAll os (Etcd.dataDir e)) eqn:Hr;
    try destruct (Flush os wr) eqn:Hf; try destruct (Close os f) eqn:Hc;
    stop_cases.
  - exists []. cbn. rewrite app_nil_r. split_and!; [done| apply prefix_nil |done].
Qed.

Lemma Remove_trace (os : OS) (w : World) :
  ∃ r fs, (do! emit (EvRemove "bootstrap") in
           onKube (Kubeconfig.Remove (clientcmd os) "bootstrap" ""))%go w
          = (r, mkWorld fs (events w ++ [EvRemove "bootstrap"]) (suggested w)).
Proof.
  unfold bind, emit, onKube. cbn.
  destruct (Kubeconfig.Remove _ _ _ _) as [r fs]. by exists r, fs.
Qed.

(** A stop of a component that is set marks its stage at once, whatever
    follows; a stop through the nil pointer panics before anything. *)
Lemma APIServer_Stop_stages (os : OS) (a : option APIServer.t) (w : World) :
  ∃ tr, events (APIServer.Stop os a w).2 = events w ++ tr ∧
        teardown tr = match a with Some _ => [APIServerStopped] | None => [] end ∧
        ((APIServer.Stop os a w).1 = Ok tt → is_Some a).
Proof.
  unfold APIServer.Stop. destruct a as [a|].
  - destruct (process_Stop os (APIServer.processState a)) as [[]|e|p] eqn:Hs,
      (APIServer.logFileWriter a) as [wr|], (APIServer.logFile a) as [f|];
    try destruct (Flush os wr) eqn:Hf; try destruct (Close os f) eqn:Hc;
    unfold bind, stop, flush, close, emit, answer, check, ret, throw;
    repeat (cbn; match goal with H : _ = _ |- _ => rewrite H end);
    cbn; rewrite <- ?app_assoc; eexists; (split; [reflexivity|]); cbn;
    (split; [reflexivity|by eexists]).
  - exists []. cbn. rewrite app_nil_r. split_and!; done.
Qed.

Lemma Etcd_Stop_stages (os : OS) (e : option Etcd.t) (w : World) :
  ∃ tr, events (Etcd.Stop os e w).2 = events w ++ tr ∧
        teardown tr = match e with Some _ => [StoreStopped] | None => [] end ∧
        ((Etcd.Stop os e w).1 = Ok tt → is_Some e).
Proof.
  unfold Etcd.Stop. destruct e as [e|].
  - destruct (process_Stop os (Etcd.processState e)) as [[]|err|p] eqn:Hs,
      (Etcd.logFileWriter e) as [wr|], (Etcd.logFile e) as [f|],
      (RemoveAll os (Etcd.dataDir e)) eqn:Hr;
    try destruct (Flush os wr) eqn:Hf; try destruct (Close os f) eqn:Hc;
    unfold bind, stop, flush, close, removeAll, emit, answer, check, ret, throw;
    repeat (cbn; match goal with H : _ = _ |- _ => rewrite H end);
    cbn; rewrite <- ?app_assoc; eexists; (split; [reflexivity|]); cbn;
    (split; [reflexivity|by eexists]).
  - exists []. cbn. rewrite app_nil_r. split_and!; done.
Qed.

(** C2, as amended. Whatever the environment answers, [Stop] goes through
    its teardown stages in the order of the code: the API server is stopped
    first, then the store, and the credentials entry is removed last. A
    step runs only when the ones before it returned no error: the store is
    stopped exactly when the stop of the API server returned no error (and
    there is a store), the credentials are removed exactly when both stops
    returned no error, and a stop that fails is where [Stop] ends, with its
    result and the world as that step left it. A [Stop] that returns no
    error has gone through the three of them. *)
Theorem Stop_teardown_order (os : OS) (cp : ControlPlane) (w : World) :
  let apiServerStop := APIServer.Stop os (apiServer cp) w in
  let etcdStop := Etcd.Stop os (etcd cp) apiServerStop.2 in
  ∃ tr, events (Stop os cp w).2 = events w ++ tr ∧
        teardown tr `prefix_of` [APIServerStopped; StoreStopped; CredentialsRemoved] ∧
        ((Stop os cp w).1 = Ok tt →
         teardown tr = [APIServerStopped; StoreStopped; CredentialsRemoved]) ∧
        (APIServerStopped ∈ teardown tr ↔ is_Some (apiServer cp)) ∧
        (StoreStopped ∈ teardown tr ↔ apiServerStop.1 = Ok tt ∧ is_Some (etcd cp)) ∧
        (CredentialsRemoved ∈ teardown tr ↔ apiServerStop.1 = Ok tt ∧ etcdStop.1 = Ok tt) ∧
        (apiServerStop.1 ≠ Ok tt → Stop os cp w = apiServerStop) ∧
        (apiServerStop.1 = Ok tt → etcdStop.1 ≠ Ok tt → Stop os cp w = etcdStop).
Proof.
  cbv zeta. unfold Stop, bind.
  destruct (APIServer_Stop_stages os (apiServer cp) w) as (tr1 & E1 & T1 & S1).
  destruct (APIServer.Stop os (apiServer cp) w) as [r1 w1]; cbn [fst snd] in *.
  assert (∀ tr, teardown (tr1 ++ tr) = teardown tr1 ++ teardown tr) as Happ.
  { intros tr. unfold teardown. by rewrite omap_app. }
  assert (r1 ≠ Ok tt →
          ∃ tr, events w1 = events w ++ tr ∧
            teardown tr `prefix_of` [APIServerStopped; StoreStopped; CredentialsRemoved] ∧
            (r1 = Ok tt →
             teardown tr = [APIServerStopped; StoreStopped; CredentialsRemoved]) ∧
            (APIServerStopped ∈ teardown tr ↔ is_Some (apiServer cp)) ∧
            (StoreStopped ∈ teardown tr ↔ r1 = Ok tt ∧ is_Some (etcd cp)) ∧
            (CredentialsRemoved ∈ teardown tr ↔
               r1 = Ok tt ∧ (Etcd.Stop os (etcd cp) w1).1 = Ok tt)) as Hfail1.
  { intros Hr1. exists tr1. rewrite T1. split; [done|].
    destruct (apiServer cp) as [a|]; split_and!; try done.
    - by exists [StoreStopped; CredentialsRemoved].
    - split; [by eexists|intros _; stage_in].
    - split; [intros H; stage_out H|by intros [? _]].
    - split; [intros H; stage_out H|by intros [? _]].
    - apply prefix_nil.
    - split; [intros H; stage_out H|by intros [? ?]].
    - split; [intros H; stage_out H|by intros [? _]].
    - split; [intros H; stage_out H|by intros [? _]]. }
  destruct r1 as [[]|e|p]; cycle 1.
  { destruct Hfail1 as (tr & ?); [done|]. exists tr. split_and!; try tauto; done. }
  { destruct Hfail1 as (tr & ?); [done|]. exists tr. split_and!; try tauto; done. }
  clear Hfail1. destruct (S1 eq_refl) as [a Ha]. rewrite Ha in T1. clear S1.
  destruct (Etcd_Stop_stages os (etcd cp) w1) as (tr2 & E2 & T2 & S2).
  destruct (Etcd.Stop os (etcd cp) w1) as [r2 w2]; cbn [fst snd] in *.
  assert (r2 ≠ Ok tt →
          ∃ tr, events w2 = events w ++ tr ∧
            teardown tr `prefix_of` [APIServerStopped; StoreStopped; CredentialsRemoved] ∧
            (r2 = Ok tt →
             teardown tr = [APIServerStopped; StoreStopped; CredentialsRemoved]) ∧
            (APIServerStopped ∈ teardown tr ↔ is_Some (apiServer cp)) ∧
            (StoreStopped ∈ teardown tr ↔ Ok tt = Ok tt ∧ is_Some (etcd cp)) ∧
            (CredentialsRemoved ∈ teardown tr ↔ Ok tt = Ok tt ∧ r2 = Ok tt)) as Hfail2.
  { intros Hr2. exists (tr1 ++ tr2). rewrite Happ, T1, T2, E2, E1, app_assoc.
    split; [done|]. rewrite Ha.
    destruct (etcd cp) as [e0|]; cbn [app]; split_and!; try done.
    - by exists [CredentialsRemoved].
    - split; [by eexists|intros _; stage_in].
    - split; [by eauto|intros _; stage_in].
    - split; [intros H; stage_out H|by intros [_ ?]].
    - by exists [StoreStopped; CredentialsRemoved].
    - split; [by eexists|intros _; stage_in].
    - split; [intros H; stage_out H|by intros [_ [? ?]]].
    - split; [intros H; stage_out H|by intros [_ ?]]. }
  destruct r2 as [[]|e|p]; cycle 1.
  { destruct Hfail2 as (tr & ?); [done|]. exists tr. split_and!; try tauto; done. }
  { destruct Hfail2 as (tr & ?); [done|]. exists tr. split_and!; try tauto; done. }
  clear Hfail2. destruct (S2 eq_refl) as [e0 He]. rewrite He in T2. clear S2.
  destruct (Remove_trace os w2) as (r3 & fs & HR).
  unfold bind in HR. rewrite HR.
  exists (tr1 ++ tr2 ++ [EvRemove "bootstrap"]).
  assert (teardown (tr1 ++ tr2 ++ [EvRemove "bootstrap"])
          = [APIServerStopped; StoreStopped; CredentialsRemoved]) as ->.
  { rewrite !Happ, T1. unfold teardown in *. by rewrite omap_app, T2. }
  rewrite Ha, He.
  destruct r3 as [[]|e|p]; cbn [fst snd events];
    rewrite E2, E1, <- !app_assoc;
    (split_and!;
     [done|done|done
     |split; [by eexists|intros _; stage_in]
     |split; [by eauto|intros _; stage_in]
     |split; [done|intros _; stage_in]
     |done|done]).
Qed.

(** C2, the claim as stated fails: after a start in which every call
    succeeds, [Stop] succeeds and removes the credentials entry last, not
    first. *)
Lemma Stop_removes_credentials_last :
  ∃ cp w w',
    Start os_ok (cp0, world0) = (Ok tt, (cp, w)) ∧
    Stop os_ok cp w = (Ok tt, w') ∧
    teardown (drop (length (events w)) (events w'))
      = [APIServerStopped; StoreStopped; CredentialsRemoved] ∧
    teardown (drop (length (events w)) (events w'))
      ≠ [CredentialsRemoved; APIServerStopped; StoreStopped].
Proof.
  eexists _, _, _. split; [vm_compute; reflexivity|].
  split; [vm_compute; reflexivity|].
  split; [vm_compute; reflexivity|vm_compute; discriminate].
Defined.

(** C2 as amended, at the control plane of main after a start in which
    every call succeeds. *)
Lemma Stop_teardown_order_witness :
  ∃ cp w,
    Start os_ok (cp0, world0) = (Ok tt, (cp, w)) ∧
    (Stop os_ok cp w).1 = Ok tt ∧
    ∃ tr, events (Stop os_ok cp w).2 = events w ++ tr ∧
          teardown tr = [APIServerStopped; StoreStopped; CredentialsRemoved].
Proof.
  eexists _, _. split; [vm_compute; reflexivity|].
  split; [vm_compute; reflexivity|].
  match goal with
  | |- ∃ tr, events (Stop ?os ?cp ?w).2 = _ ∧ _ =>
      destruct (Stop_teardown_order os cp w) as (tr & Hev & _ & Hall & _)
  end.
  exists tr. split; [exact Hev|]. apply Hall. vm_compute. reflexivity.
Defined.

(** The first statement of [Stop] reads a field of the API server: on a
    control plane without one it panics before anything is stopped. *)
Lemma Stop_nil_apiServer (os : OS) (cp : ControlPlane) (w : World) :
  apiServer cp = None → Stop os cp w = (Panic nil_dereference, w).
Proof. intros H. unfold Stop, bind, APIServer.Stop. by rewrite H. Qed.

(** A start that fails in etcd returns the error of etcd, with the control
    plane holding the etcd it tried and the API server it had. *)
Lemma Start_etcd_error (os : OS) (cp : ControlPlane) (w w' : World)
    (e : string) (tried : Etcd.t) :
  Etcd.Start os (Etcd.new (Go.Join [PackagePath cp; "etcd"]), w) = (Err e, (tried, w')) →
  Start os (cp, w) = (Err e, (set_etcd (Some tried) cp, w')).
Proof.
  intros H. unfold Start, bind, self, modify, onEtcd. cbn. by rewrite H.
Qed.

(** Whatever the environment, a control plane that had no API server and
    whose etcd fails to start cannot be stopped: [Stop] panics. *)
Lemma Stop_after_etcd_error (os : OS) (cp cp' : ControlPlane) (w w' : World)
    (e : string) (tried : Etcd.t) :
  apiServer cp = None →
  Etcd.Start os (Etcd.new (Go.Join [PackagePath cp; "etcd"]), w) = (Err e, (tried, w')) →
  Start os (cp, w) = (Err e, (cp', w')) →
  Stop os cp' w' = (Panic nil_dereference, w').
Proof.
  intros Hnil Hetcd Hstart. rewrite (Start_etcd_error _ _ _ _ _ _ Hetcd) in Hstart.
  injection Hstart as <-. by apply Stop_nil_apiServer.
Qed.

(** C3, evaluated where the code fails. The etcd binary cannot be started:
    [Start] returns the error and leaves the control plane without an API
    server, and [Stop] on that control plane panics on the nil pointer
    instead of stopping etcd. The same happens to a control plane on which
    [Start] was never called. *)
Theorem Stop_panics_after_failed_Start :
  ∃ e cp w,
    Start os_no_etcd (cp0, world0) = (Err e, (cp, w)) ∧
    is_Some (etcd cp) ∧ apiServer cp = None ∧
    Stop os_no_etcd cp w = (Panic nil_dereference, w) ∧
    Stop os_ok cp0 world0 = (Panic nil_dereference, world0).
Proof.
  eexists _, _, _. split; [vm_compute; reflexivity|].
  split; [by eexists|]. split; [reflexivity|].
  split; vm_compute; reflexivity.
Qed.

End ControlplaneFacts.

(** * Properties of pkg/provider *)

Module ProviderFacts.
Import Provider ProviderSpec Scenario.

Lemma classify_collects (docs : list Doc) (acc ret : manifestObjects) :
  classify docs acc = Ok ret →
  crds ret = crds acc ++ omap crdOf docs ∧
  mutHooks ret = mutHooks acc ++ omap mutatingOf docs ∧
  valHooks ret = valHooks acc ++ omap validatingOf docs.
Proof.
  revert acc. induction docs as [|doc docs IH]; intros acc; cbn [classify].
  - intros [= <-]. by rewrite !app_nil_r.
  - change (omap ?f (doc :: docs)) with
      (match f doc with Some y => y :: omap f docs | None => omap f docs end).
    unfold crdOf at 1, mutatingOf at 1, validatingOf at 1.
    destruct (asGeneric doc) as [g|]; [|done].
    destruct (decide (Kind g = "CustomResourceDefinition")) as [Hk|Hcrd].
    { case_decide; [done|]. destruct (asCRD doc); [|done].
      intros (-> & -> & ->)%IH. cbn [crds mutHooks valHooks].
      rewrite <- !app_assoc.
      destruct (asMutating doc), (asValidating doc);
        rewrite ?Hk, ?decide_False by discriminate; done. }
    destruct (decide (Kind g = "MutatingWebhookConfiguration")) as [Hk|Hmut].
    { case_decide; [done|]. destruct (asMutating doc); [|done].
      intros (-> & -> & ->)%IH. cbn [crds mutHooks valHooks].
      rewrite <- !app_assoc.
      destruct (asCRD doc), (asValidating doc);
        rewrite ?Hk, ?decide_False by discriminate; done. }
    destruct (decide (Kind g = "ValidatingWebhookConfiguration")) as [Hk|Hval].
    { case_decide; [done|]. destruct (asValidating doc); [|done].
      intros (-> & -> & ->)%IH. cbn [crds mutHooks valHooks].
      rewrite <- !app_assoc.
      destruct (asCRD doc), (asMutating doc); done. }
    intros (-> & -> & ->)%IH.
    destruct (asCRD doc), (asMutating doc), (asValidating doc); done.
Qed.

Lemma forEach_panicsWith {A} (p : string) (f : A → Outcome A) (l : list A) :
  panicsWith p f → (∃ ys, forEach f l = Ok ys) ∨ forEach f l = Panic p.
Proof.
  intros Hf. induction l as [|x l IH]; cbn [forEach]; [by left; eexists|].
  destruct (Hf x) as [[y ->]| ->]; [|by right].
  destruct IH as [[ys ->]| ->]; [by left; eexists|by right].
Qed.

Lemma forEach_panic {A} (p : string) (f : A → Outcome A) (l : list A) (x : A) :
  panicsWith p f → x ∈ l → f x = Panic p → forEach f l = Panic p.
Proof.
  intros Hf Hx Hp. induction l as [|z l IH]; [by apply elem_of_nil in Hx|].
  cbn [forEach]. apply elem_of_cons in Hx as [<-|Hx]; [by rewrite Hp|].
  destruct (Hf z) as [[y ->]| ->]; [|done]. by rewrite (IH Hx).
Qed.

Lemma forEach_Forall2 {A} (f : A → Outcome A) (l ys : list A) :
  forEach f l = Ok ys → Forall2 (λ x y, f x = Ok y) l ys.
Proof.
  revert ys. induction l as [|x l IH]; cbn [forEach]; intros ys.
  - intros [= <-]. constructor.
  - destruct (f x) as [y| |] eqn:Hx; [|done..].
    destruct (forEach f l) as [ys'| |]; [|done..].
    intros [= <-]. constructor; [done|by apply IH].
Qed.

Lemma adaptClientConfig_ok pki u cc service path :
  Service cc = Some service → svc_Path service = Some path →
  adaptClientConfig pki u cc =
    Ok (mkClientConfig (Some (Go.URL_String (localServingUrl u) +:+ "/" +:+ path))
                       None (caData pki)).
Proof. intros Hs Hp. unfold adaptClientConfig. by rewrite Hs, Hp. Qed.

Lemma adaptClientConfig_panicsWith pki u :
  panicsWith nil_dereference (adaptClientConfig pki u).
Proof.
  intros cc. unfold adaptClientConfig.
  destruct (Service cc) as [service|]; [|by right].
  destruct (svc_Path service); [left; by eexists|by right].
Qed.

Lemma adaptCRD_panicsWith pki u : panicsWith nil_dereference (adaptCRD pki u).
Proof.
  intros crd. unfold adaptCRD.
  destruct (Conversion crd) as [c|]; cbn; [|left; by eexists].
  destruct (Webhook c); [left; by eexists|by right].
Qed.

Lemma adaptMutatingWebhook_panicsWith pki u :
  panicsWith nil_dereference (adaptMutatingWebhook pki u).
Proof.
  intros w. unfold adaptMutatingWebhook.
  destruct (adaptClientConfig_panicsWith pki u (mw_ClientConfig w)) as [[y ->]| ->];
    [left; by eexists|by right].
Qed.

Lemma adaptValidatingWebhook_panicsWith pki u :
  panicsWith nil_dereference (adaptValidatingWebhook pki u).
Proof.
  intros w. unfold adaptValidatingWebhook.
  destruct (adaptClientConfig_panicsWith pki u (vw_ClientConfig w)) as [[y ->]| ->];
    [left; by eexists|by right].
Qed.

Lemma adaptMutating_panicsWith pki u : panicsWith nil_dereference (adaptMutating pki u).
Proof.
  intros hook. unfold adaptMutating.
  destruct (forEach_panicsWith nil_dereference (adaptMutatingWebhook pki u)
              (mut_Webhooks hook) (adaptMutatingWebhook_panicsWith pki u))
    as [[ys ->]| ->]; [left; by eexists|by right].
Qed.

Lemma adaptValidating_panicsWith pki u : panicsWith nil_dereference (adaptValidating pki u).
Proof.
  intros hook. unfold adaptValidating.
  destruct (forEach_panicsWith nil_dereference (adaptValidatingWebhook pki u)
              (val_Webhooks hook) (adaptValidatingWebhook_panicsWith pki u))
    as [[ys ->]| ->]; [left; by eexists|by right].
Qed.

Lemma adaptMutating_nil_service pki u hook w :
  w ∈ mut_Webhooks hook → Service (mw_ClientConfig w) = None →
  adaptMutating pki u hook = Panic nil_dereference.
Proof.
  intros Hw Hs. unfold adaptMutating.
  rewrite (forEach_panic nil_dereference _ _ w (adaptMutatingWebhook_panicsWith pki u) Hw);
    [done|].
  unfold adaptMutatingWebhook, adaptClientConfig. by rewrite Hs.
Qed.

Lemma adaptValidating_nil_service pki u hook w :
  w ∈ val_Webhooks hook → Service (vw_ClientConfig w) = None →
  adaptValidating pki u hook = Panic nil_dereference.
Proof.
  intros Hw Hs. unfold adaptValidating.
  rewrite (forEach_panic nil_dereference _ _ w (adaptValidatingWebhook_panicsWith pki u) Hw);
    [done|].
  unfold adaptValidatingWebhook, adaptClientConfig. by rewrite Hs.
Qed.

Lemma adapt_nil_service pki u (ret : manifestObjects) :
  (∃ hook w, hook ∈ mutHooks ret ∧ w ∈ mut_Webhooks hook ∧
             Service (mw_ClientConfig w) = None) ∨
  (∃ hook w, hook ∈ valHooks ret ∧ w ∈ val_Webhooks hook ∧
             Service (vw_ClientConfig w) = None) →
  adapt pki u ret = Panic nil_dereference.
Proof.
  intros H. unfold adapt.
  destruct (forEach_panicsWith nil_dereference _ (crds ret) (adaptCRD_panicsWith pki u))
    as [[cs ->]| ->]; [|done].
  destruct H as [(hook & w & Hh & Hw & Hs)|(hook & w & Hh & Hw & Hs)].
  - by rewrite (forEach_panic nil_dereference _ _ hook (adaptMutating_panicsWith pki u) Hh
                  (adaptMutating_nil_service pki u hook w Hw Hs)).
  - destruct (forEach_panicsWith nil_dereference _ (mutHooks ret)
                (adaptMutating_panicsWith pki u)) as [[ms ->]| ->]; [|done].
    by rewrite (forEach_panic nil_dereference _ _ hook (adaptValidating_panicsWith pki u) Hh
                  (adaptValidating_nil_service pki u hook w Hw Hs)).
Qed.

(** C10. When a manifest that passes the first loop holds a mutating or
    validating webhook-configuration fragment with a webhook entry whose
    client config has no service reference, the adaptation reads the path
    through the nil service and panics: [readAndAdaptManifestObjects]
    returns neither objects nor an error. *)
Theorem nil_service_panics (fsys : Files) (manifestPath : string)
    (pki : providerPKI) (u : providerURL) (docs : list Doc) (ret : manifestObjects) :
  readDocuments fsys manifestPath = Ok docs →
  classify docs (mkObjects [] [] []) = Ok ret →
  (∃ doc, doc ∈ docs ∧ nilServiceFragment doc) →
  readAndAdaptManifestObjects fsys manifestPath pki u = Panic nil_dereference.
Proof.
  intros Hread Hclass (doc & Hdoc & g & Hg & Hnil).
  unfold readAndAdaptManifestObjects. rewrite Hread, Hclass.
  apply classify_collects in Hclass as (_ & Hmut & Hval). cbn in Hmut, Hval.
  apply adapt_nil_service.
  destruct Hnil as [(Hk & hook & w & Hh & Hw & Hs)|(Hk & hook & w & Hh & Hw & Hs)].
  - left. exists hook, w. split_and!; [|done..].
    rewrite Hmut. apply list_elem_of_omap. exists doc. split; [done|].
    unfold mutatingOf. by rewrite Hg, Hh, decide_True.
  - right. exists hook, w. split_and!; [|done..].
    rewrite Hval. apply list_elem_of_omap. exists doc. split; [done|].
    unfold validatingOf. by rewrite Hg, Hh, decide_True.
Qed.

Lemma classify_unsupported (docs : list Doc) (acc : manifestObjects) :
  (∃ doc, doc ∈ docs ∧ unsupportedFragment doc) → ∃ e, classify docs acc = Err e.
Proof.
  intros (bad & Hin & Hbad). revert acc.
  induction docs as [|doc docs IH]; intros acc; [by apply elem_of_nil in Hin|].
  cbn [classify]. apply elem_of_cons in Hin as [<-|Hin].
  - destruct Hbad as (g & -> & [[Hk Hv]|[[Hk Hv]|[Hk Hv]]]);
      rewrite Hk; repeat (case_decide; try done); by eexists.
  - destruct (asGeneric doc) as [g|]; [|by eexists].
    repeat case_decide; try (by eexists); try (by apply IH);
      try (destruct (asCRD doc); [by apply IH|by eexists]);
      try (destruct (asMutating doc); [by apply IH|by eexists]);
      try (destruct (asValidating doc); [by apply IH|by eexists]).
Qed.

Lemma classify_first_unsupported (pre post : list Doc) (doc : Doc)
    (g : PartialObjectMetadata) (acc : manifestObjects) :
  Forall accepted pre → asGeneric doc = Decoded g → unsupportedFragment doc →
  classify (pre ++ doc :: post) acc = Err (unsupported (Kind g) (meta_Name g)).
Proof.
  intros Hpre Hg (g' & Hg' & Hbad). rewrite Hg in Hg'. injection Hg' as <-.
  revert acc. induction Hpre as [|d pre (gd & Hd & Hcrd & Hmut & Hval) _ IH]; intros acc.
  - cbn [app classify]. rewrite Hg.
    destruct Hbad as [[Hk Hv]|[[Hk Hv]|[Hk Hv]]];
      rewrite Hk; repeat (case_decide; try done).
  - cbn [app classify]. rewrite Hd.
    destruct (decide (Kind gd = _)) as [Hk|_].
    { destruct (Hcrd Hk) as (Hv & crd & ->). rewrite decide_False by (by intros []).
      apply IH. }
    destruct (decide (Kind gd = _)) as [Hk|_].
    { destruct (Hmut Hk) as (Hv & hook & ->). rewrite decide_False by (by intros []).
      apply IH. }
    destruct (decide (Kind gd = _)) as [Hk|_]; [|apply IH].
    destruct (Hval Hk) as (Hv & hook & ->). rewrite decide_False by (by intros []).
    apply IH.
Qed.

(** C7. When a manifest holds a fragment of one of the three managed kinds
    whose apiVersion is not the supported one, [createManifestObjects]
    sends nothing to the API server and does not succeed; with a client at
    hand it returns an error, and when the fragments before the first
    unsupported one are read without an error, that error is the one that
    names the unsupported fragment. *)
Theorem unsupported_apiVersion_reaches_no_server
    (connect : Connect) (fsys : Files) (ctx : Context)
    (manifestPath kubeConfig : string) (pki : providerPKI) (u : providerURL)
    (docs : list Doc) (sent : list Call) :
  readDocuments fsys manifestPath = Ok docs →
  (∃ doc, doc ∈ docs ∧ unsupportedFragment doc) →
  let result :=
    createManifestObjects connect fsys ctx manifestPath kubeConfig pki u sent in
  result.2 = sent ∧
  result.1 ≠ Ok tt ∧
  (∀ c, connect kubeConfig = Ok c →
        ∃ e, result.1 = Err ("unable to get provider crds: " +:+ e)) ∧
  (∀ c pre doc post g,
     connect kubeConfig = Ok c → docs = pre ++ doc :: post → Forall accepted pre →
     asGeneric doc = Decoded g → unsupportedFragment doc →
     result.1 = Err ("unable to get provider crds: " +:+
                     unsupported (Kind g) (meta_Name g))).
Proof.
  intros Hread Hbad. cbn zeta. unfold createManifestObjects, readAndAdaptManifestObjects.
  rewrite Hread.
  destruct (classify_unsupported docs (mkObjects [] [] []) Hbad) as [e He].
  split_and!.
  - destruct (connect kubeConfig); [by rewrite He|done..].
  - destruct (connect kubeConfig); [by rewrite He|done..].
  - intros c ->. rewrite He. by eexists.
  - intros c pre doc post g -> -> Hpre Hg Hdoc.
    by rewrite (classify_first_unsupported pre post doc g _ Hpre Hg Hdoc).
Qed.

Lemma JoinHostPort_not_empty (host port : string) : Go.JoinHostPort host port ≠ "".
Proof.
  unfold Go.JoinHostPort. case_decide; [done|].
  destruct host; [done|]. done.
Qed.

Lemma localServingUrl_String (u : providerURL) :
  Go.URL_String (localServingUrl u) = "https://" +:+ Go.escapeHost (webhookHostPort u).
Proof.
  unfold Go.URL_String, localServingUrl. cbn [Go.Scheme Go.Host].
  rewrite decide_True by done. rewrite decide_True by (by left).
  rewrite decide_True by apply JoinHostPort_not_empty. done.
Qed.

(** C6, as amended. For every CRD fragment that declares no conversion, or
    declares one with a webhook section, the adaptation sets the conversion
    to the webhook strategy, with the review versions v1 and v1beta1 and a
    client config made of the URL of the local webhook endpoint followed by
    /convert, the CA bundle of the provider and no service reference; this
    holds for every CRD of a manifest whose adaptation returns objects. *)
Theorem adaptCRD_sets_webhook_conversion (pki : providerPKI) (u : providerURL)
    (crd : CustomResourceDefinition) :
  (∀ c, Conversion crd = Some c → is_Some (Webhook c)) →
  adaptCRD pki u crd =
    Ok (mkCRD (crd_Name crd) (crd_ResourceVersion crd)
          (Some (mkConversion WebhookConverter
                   (Some (mkWebhookConversion
                            (Some (mkClientConfig
                                     (Some ("https://" +:+ Go.escapeHost (webhookHostPort u)
                                            +:+ "/convert"))
                                     None
                                     (caData pki)))
                            ["v1"; "v1beta1"]))))) ∧
  ∀ ret ret', crd ∈ crds ret → adapt pki u ret = Ok ret' →
              ∃ crd', crd' ∈ crds ret' ∧ adaptCRD pki u crd = Ok crd'.
Proof.
  intros Hc. split.
  - unfold adaptCRD. rewrite localServingUrl_String.
    destruct (Conversion crd) as [c|]; cbn; [|done].
    by destruct (Hc c eq_refl) as [wh ->].
  - intros ret ret' Hin. unfold adapt.
    destruct (forEach _ (crds ret)) as [cs| |] eqn:Hcs; [|done..].
    destruct (forEach _ (mutHooks ret)); [|done..].
    destruct (forEach _ (valHooks ret)); [|done..].
    intros [= <-]. cbn [crds].
    apply forEach_Forall2 in Hcs.
    apply list_elem_of_lookup in Hin as [i Hi].
    destruct (Forall2_lookup_l _ _ _ _ _ Hcs Hi) as (crd' & Hi' & Hok).
    exists crd'. split; [|done]. apply list_elem_of_lookup. by exists i.
Qed.

(** The URL that both webhook loops write: the local endpoint, a slash, and
    the path of the service as it was. *)
Lemma adaptClientConfig_URL pki u cc service path :
  Service cc = Some service → svc_Path service = Some path →
  adaptClientConfig pki u cc =
    Ok (mkClientConfig
          (Some ("https://" +:+ Go.escapeHost (webhookHostPort u) +:+ "/" +:+ path))
          None (caData pki)).
Proof.
  intros Hs Hp. rewrite (adaptClientConfig_ok _ _ _ _ _ Hs Hp).
  by rewrite localServingUrl_String.
Qed.

(** C1, evaluated where the code fails. A mutating and a validating webhook
    configuration whose entries have the service path /mutate are adapted
    for the endpoint 127.0.0.1:9443: the CA bundle is the one of the
    provider and the service reference is gone, but the URL has two slashes
    before mutate and is not the URL of the claim. *)
Theorem webhook_URL_doubles_the_slash :
  readAndAdaptManifestObjects
    (manifest [mutatingDoc "admissionregistration.k8s.io/v1" mutating0;
               validatingDoc "admissionregistration.k8s.io/v1" validating0])
    manifestPath0 pki0 url0
  = Ok (mkObjects []
          [mkMutating "capi-mutating-webhook-configuration" ""
             [mkMutatingWebhook "default.cluster.cluster.x-k8s.io"
                (mkClientConfig (Some "https://127.0.0.1:9443//mutate") None (caData pki0))
                None]]
          [mkValidating "capi-validating-webhook-configuration" ""
             [mkValidatingWebhook "validation.cluster.cluster.x-k8s.io"
                (mkClientConfig (Some "https://127.0.0.1:9443//mutate") None (caData pki0))]])
  ∧ "https://127.0.0.1:9443//mutate"
      ≠ "https://" +:+ host url0 +:+ ":" +:+ Go.Itoa (webhookPort url0) +:+ "/mutate".
Proof. split; [vm_compute; reflexivity|vm_compute; discriminate]. Qed.

(** C6, the claim as stated fails: a CRD that declares its conversion
    webhook does not keep it; the client config that referred to a service
    is replaced by the local URL. *)
Lemma declared_conversion_is_overwritten :
  ∃ crd',
    adaptCRD pki0 url0 crdDeclared = Ok crd' ∧
    Conversion crd' ≠ Conversion crdDeclared ∧
    (c ← Conversion crd'; w ← Webhook c; cc ← conv_ClientConfig w; URL cc)
      = Some "https://127.0.0.1:9443/convert".
Proof.
  eexists. split; [vm_compute; reflexivity|].
  split; [vm_compute; discriminate|vm_compute; reflexivity].
Defined.

(** C6 as amended, at a CRD that declares its conversion webhook. *)
Lemma adaptCRD_witness :
  (∀ c, Conversion crdDeclared = Some c → is_Some (Webhook c)) ∧
  ∃ crd', adaptCRD pki0 url0 crdDeclared = Ok crd' ∧
          (c ← Conversion crd'; Some (Strategy c)) = Some WebhookConverter.
Proof.
  assert (∀ c, Conversion crdDeclared = Some c → is_Some (Webhook c)) as H.
  { intros c [= <-]. by eexists. }
  split; [exact H|].
  destruct (adaptCRD_sets_webhook_conversion pki0 url0 crdDeclared H) as [-> _].
  eexists. split; reflexivity.
Defined.

(** C7 at a manifest whose second fragment is a webhook configuration of
    the v1beta1 API. *)
Lemma unsupported_apiVersion_witness :
  createManifestObjects connect0
    (manifest [crdDoc "apiextensions.k8s.io/v1" crdPlain;
               mutatingDoc "admissionregistration.k8s.io/v1beta1" mutating0])
    ctx0 manifestPath0 home pki0 url0 []
  = (Err ("unable to get provider crds: " +:+
          unsupported "MutatingWebhookConfiguration" "capi-mutating-webhook-configuration"),
     []).
Proof.
  pose proof (unsupported_apiVersion_reaches_no_server connect0
                (manifest [crdDoc "apiextensions.k8s.io/v1" crdPlain;
                           mutatingDoc "admissionregistration.k8s.io/v1beta1" mutating0])
                ctx0 manifestPath0 home pki0 url0
                [crdDoc "apiextensions.k8s.io/v1" crdPlain;
                 mutatingDoc "admissionregistration.k8s.io/v1beta1" mutating0] []) as H.
  assert (unsupportedFragment (mutatingDoc "admissionregistration.k8s.io/v1beta1" mutating0))
    as Hbad.
  { eexists. split; [reflexivity|]. right; left. split; [reflexivity|]. cbn. discriminate. }
  destruct H as (Hsent & _ & _ & Hfirst).
  - reflexivity.
  - eexists. split; [|exact Hbad]. apply elem_of_cons. right. apply elem_of_cons. by left.
  - cbn zeta in Hsent, Hfirst.
    destruct (createManifestObjects _ _ _ _ _ _ _ _) as [r sent]. cbn [fst snd] in *.
    rewrite Hsent.
    rewrite (Hfirst client0 [crdDoc "apiextensions.k8s.io/v1" crdPlain]
               (mutatingDoc "admissionregistration.k8s.io/v1beta1" mutating0) []
               (mkMeta "MutatingWebhookConfiguration" "admissionregistration.k8s.io/v1beta1"
                  "capi-mutating-webhook-configuration")); [reflexivity..| |reflexivity|exact Hbad].
    constructor; [|constructor].
    eexists. split; [reflexivity|]. split_and!; intros Hk; try discriminate Hk.
    split; [reflexivity|by eexists].
Defined.

(** C10 at a webhook configuration whose entry calls a URL. *)
Lemma nil_service_witness :
  nilServiceFragment (mutatingDoc "admissionregistration.k8s.io/v1" mutatingByURL) ∧
  readAndAdaptManifestObjects
    (manifest [mutatingDoc "admissionregistration.k8s.io/v1" mutatingByURL])
    manifestPath0 pki0 url0
  = Panic nil_dereference.
Proof.
  assert (nilServiceFragment (mutatingDoc "admissionregistration.k8s.io/v1" mutatingByURL))
    as Hnil.
  { eexists. split; [reflexivity|]. left. split; [reflexivity|].
    eexists _, _. split; [reflexivity|]. split; [by apply elem_of_cons; left|reflexivity]. }
  split; [exact Hnil|].
  eapply (nil_service_panics _ _ _ _
            [mutatingDoc "admissionregistration.k8s.io/v1" mutatingByURL]).
  - reflexivity.
  - vm_compute. reflexivity.
  - eexists. split; [|exact Hnil]. apply elem_of_cons. by left.
Defined.

(** The CA bundle that [setupPKI] hands to the adaptation is the serving
    certificate that the authority issued for localhost and the host. *)
Lemma setupPKI_caData (os : Sys.OS) (certs : Certs) (localPath : string)
    (u : providerURL) (w w' : Sys.World) (pki : providerPKI) :
  setupPKI os certs localPath u w = (Ok pki, w') →
  ∃ hookCA keyData,
    NewTinyCA certs = Ok hookCA ∧
    NewServingCert hookCA ["localhost"; host u] = Kubeconfig.IssuedPair (caData pki) keyData ∧
    dir pki = Go.Join [localPath; "ca"].
Proof.
  unfold setupPKI, bind, wrap, Sys.mkdirAll, Sys.emit, Sys.answer, check, bind, ret, throw.
  cbn. destruct (Sys.MkdirAll os _); [done|].
  destruct (NewTinyCA certs) as [hookCA| |]; [|done..].
  destruct (NewServingCert hookCA _) as [| |certData keyData] eqn:Hcert; [done..|].
  destruct (WriteFile certs _ certData); [done|].
  destruct (WriteFile certs _ keyData); [done|].
  intros [= <- <-]. by exists hookCA, keyData.
Qed.

(** A provider whose [Start] did not reach the assignment of its process
    state has a nil one and no log file: what [Stop] does on it is what
    Stop of pkg/process does on a nil receiver. *)
Lemma Stop_never_started (os : Sys.OS) (p : Provider) (w : Sys.World) :
  processState p = None → logFileWriter p = None → logFile p = None →
  (Stop os p w).1 = Sys.process_Stop os None.
Proof.
  intros Hp Hw Hf. unfold Stop, bind, Sys.stop, Sys.emit, Sys.answer, ret.
  rewrite Hp, Hw, Hf. cbn. by destruct (Sys.process_Stop os None) as [[]| |].
Qed.

End ProviderFacts.

(** * Properties of the goroutines of main *)

Module MainFacts.
Import Main.

(** C8, evaluated where the code fails. The four providers of main all
    start; when every goroutine reads [names] before any of them writes it
    back, the WaitGroup is released with one name collected out of four.
    Only when the goroutines happen to run one after another are the four
    names there: the result depends on the schedule, as it cannot with a
    synchronized handoff. *)
Theorem names_lost_without_synchronization {uc : Go.Unicode} :
  (∃ st, run (λ _, None) (allReadFirst 4) (spawn providers) = Some st ∧
         Forall (λ g, pc g = Finished) (goroutines st) ∧
         waited st = true ∧
         collected st = ["CAPD"]) ∧
  (∃ st, run (λ _, None) (oneAfterAnother 4) (spawn providers) = Some st ∧
         Forall (λ g, pc g = Finished) (goroutines st) ∧
         waited st = true ∧
         collected st = ["CAPI"; "CABPK"; "KCP"; "CAPD"]).
Proof.
  split; eexists; (split; [vm_compute; reflexivity|]);
    (split; [repeat constructor|]); split; vm_compute; reflexivity.
Qed.

End MainFacts.


(** * Tactics for the runs of the state monad *)

(** A case analysis on the innermost answer that the run waits for. *)
Ltac oracle :=
  match goal with
  | |- context [match ?x with _ => _ end] =>
      lazymatch x with
      | context [match _ with _ => _ end] => fail
      | _ => destruct x eqn:?
      end
  end.

(** An event is none of the events of a concrete trace. *)
Ltac not_among :=
  let H := fresh in
  intros H; exfalso;
  repeat (apply elem_of_cons in H as [H|H]; [discriminate H|]);
  by apply elem_of_nil in H.

(** * More properties of pkg/kubeconfig *)

Module CredentialsFacts.
Import Kubeconfig KubeconfigSpec Scenario Scenarios.

Lemma mergeEntries_is_union {V} (new existing : gmap string V) :
  mergeEntries new existing = new ∪ existing.
Proof. apply KubeconfigFacts.mergeEntries_union. Qed.

(** X1. What a key holds after [merge]: the entry of the new config when
    it has one, the existing entry otherwise; the current context is that
    of the new config, also when it is empty. *)
Theorem merge_lookup (new existing : Config) (k : string) :
  Clusters (merge new existing) !! k
    = match Clusters new !! k with Some c => Some c | None => Clusters existing !! k end ∧
  AuthInfos (merge new existing) !! k
    = match AuthInfos new !! k with Some a => Some a | None => AuthInfos existing !! k end ∧
  Contexts (merge new existing) !! k
    = match Contexts new !! k with Some x => Some x | None => Contexts existing !! k end ∧
  CurrentContext (merge new existing) = CurrentContext new.
Proof.
  unfold merge; cbn [Clusters AuthInfos Contexts CurrentContext].
  rewrite !mergeEntries_is_union, !lookup_union.
  split_and!; try done.
  - by destruct (Clusters new !! k), (Clusters existing !! k).
  - by destruct (AuthInfos new !! k), (AuthInfos existing !! k).
  - by destruct (Contexts new !! k), (Contexts existing !! k).
Qed.

Lemma length_app (s t : string) :
  String.length (s +:+ t) = String.length s + String.length t.
Proof.
  induction s as [|c s IH]; [done|].
  change (String c s +:+ t) with (String c (s +:+ t)).
  cbn [String.length]. by rewrite IH.
Qed.

Lemma app_inj_l (s t1 t2 : string) : s +:+ t1 = s +:+ t2 → t1 = t2.
Proof. apply String.app_inj. Qed.

Lemma clusterKey_inj (n1 n2 : string) : clusterKey n1 = clusterKey n2 → n1 = n2.
Proof. apply app_inj_l. Qed.

Lemma app_inj_r (s t1 t2 : string) : t1 +:+ s = t2 +:+ s → t1 = t2.
Proof.
  revert t2. induction t1 as [|c t1 IH]; intros [|d t2] H; try done.
  - exfalso. apply (f_equal String.length) in H.
    change (String d t2 +:+ s) with (String d (t2 +:+ s)) in H.
    cbn [String.length] in H. rewrite !length_app in H.
    cbn [String.length] in H. lia.
  - exfalso. apply (f_equal String.length) in H.
    change (String c t1 +:+ s) with (String c (t1 +:+ s)) in H.
    cbn [String.length] in H. rewrite !length_app in H.
    cbn [String.length] in H. lia.
  - change (String c (t1 +:+ s) = String d (t2 +:+ s)) in H.
    injection H as -> H. by rewrite (IH _ H).
Qed.

Lemma userKey_inj (n1 n2 : string) : userKey n1 = userKey n2 → n1 = n2.
Proof. unfold userKey. intros H%app_inj_l. by apply app_inj_r in H. Qed.

(** X2. The keys derived from two different cluster names never meet: the
    entries of another cluster that kBB-8 has merged into the same file
    survive the merge of this one. *)
Theorem merge_keeps_other_cluster (existing new : Config) (ca : TinyCA)
    (name other url : string) :
  other ≠ name →
  create ca name url = (Some new, None) →
  Clusters (merge new existing) !! clusterKey other = Clusters existing !! clusterKey other ∧
  AuthInfos (merge new existing) !! userKey other = AuthInfos existing !! userKey other ∧
  Contexts (merge new existing) !! contextKey other = Contexts existing !! contextKey other.
Proof.
  intros Hne. unfold create.
  destruct (NewClientCert ca _) as [| |cert key]; [done..|]. intros [= <-].
  unfold merge; cbn [Clusters AuthInfos Contexts CurrentContext].
  rewrite !KubeconfigFacts.merge_singleton_lookup.
  split_and!; apply lookup_insert_ne; intros H.
  - by apply clusterKey_inj in H.
  - by apply userKey_inj in H.
  - by apply clusterKey_inj in H.
Qed.

Lemma merge_keeps_other_cluster_witness :
  create ca0 "bootstrap" url1 = (Some issued0, None) ∧
  Clusters (merge issued0 workload) !! clusterKey "workload"
    = Some (mkCluster "https://10.0.0.1:6443" (CertBytes ca1)).
Proof.
  assert (create ca0 "bootstrap" url1 = (Some issued0, None)) as Hnew by reflexivity.
  split; [exact Hnew|].
  destruct (merge_keeps_other_cluster workload issued0 ca0 "bootstrap" "workload" url1)
    as (H & _ & _); [discriminate|exact Hnew|].
  rewrite H. vm_compute. reflexivity.
Defined.

(** X3. Removal after a merge does not restore the file: the three entries
    are gone and the maps are the existing ones without the derived keys,
    but the current context is empty, not the one that was current before
    the merge. *)
Theorem remove_after_merge (existing new : Config) (ca : TinyCA) (name url : string) :
  create ca name url = (Some new, None) →
  remove name (merge new existing) =
    (mkConfig (delete (clusterKey name) (Clusters existing))
              (delete (userKey name) (AuthInfos existing))
              (delete (contextKey name) (Contexts existing))
              "",
     true).
Proof.
  unfold create.
  destruct (NewClientCert ca _) as [| |cert key]; [done..|]. intros [= <-].
  rewrite KubeconfigFacts.remove_eq.
  unfold merge; cbn [Clusters AuthInfos Contexts CurrentContext].
  rewrite !KubeconfigFacts.merge_singleton_lookup, !delete_insert_eq.
  rewrite decide_True by done. f_equal.
  apply bool_decide_eq_true_2. intros (_ & _ & _ & H). by apply H.
Qed.

Lemma remove_after_merge_witness :
  CurrentContext external = "prod" ∧
  remove "bootstrap" (merge issued0 external) = (mkConfig (Clusters external)
                                                          (AuthInfos external)
                                                          (Contexts external) "", true).
Proof.
  split; [reflexivity|].
  rewrite (remove_after_merge external issued0 ca0 "bootstrap" url1 eq_refl).
  vm_compute. reflexivity.
Defined.

(** X4. [CreateOrMerge] drops the error of [create]: when the client
    certificate cannot be issued or encoded and the existing config loads,
    the nil config reaches [merge] and the call panics; nothing is written. *)
Theorem CreateOrMerge_panics_without_certificate
    (cc : Clientcmd) (ca : TinyCA) (url clusterName explicitPath : string)
    (fs : FS) (existing : Config) :
  rules_Load cc (getConfigLoadingRules cc explicitPath) fs = LoadOk existing →
  (∀ cert key, NewClientCert ca (mkClientInfo (userKey clusterName) [systemPrivilegedGroup])
                 ≠ IssuedPair cert key) →
  CreateOrMerge cc ca url clusterName explicitPath fs = (Panic nil_dereference, fs).
Proof.
  intros Hload Hissue. unfold CreateOrMerge, create. rewrite Hload.
  destruct (NewClientCert ca _) as [| |cert key] eqn:H; [done..|].
  by destruct (Hissue cert key).
Qed.

Lemma CreateOrMerge_panics_witness :
  CreateOrMerge clientcmd0 caBroken url1 "bootstrap" "" fsExternal
    = (Panic nil_dereference, fsExternal).
Proof.
  apply (CreateOrMerge_panics_without_certificate clientcmd0 caBroken url1 "bootstrap" ""
           fsExternal external).
  - reflexivity.
  - intros cert key. discriminate.
Defined.

(** X5. A config that cannot be loaded: the error is returned and nothing
    is written, unless an explicit path was given and the file does not
    exist; then the file is created with the three entries of the cluster
    alone. *)
Theorem CreateOrMerge_when_load_fails
    (cc : Clientcmd) (ca : TinyCA) (url clusterName explicitPath : string)
    (fs : FS) (e : string) (isNotExist : bool) :
  rules_Load cc (getConfigLoadingRules cc explicitPath) fs = LoadErr e isNotExist →
  (explicitPath = "" ∨ isNotExist = false →
     CreateOrMerge cc ca url clusterName explicitPath fs = (Err e, fs)) ∧
  (∀ new,
     explicitPath ≠ "" → isNotExist = true →
     create ca clusterName url = (Some new, None) →
     GetDefaultFilename cc (getConfigLoadingRules cc explicitPath) fs ∉ unwritable fs →
     CreateOrMerge cc ca url clusterName explicitPath fs =
       (Ok (GetDefaultFilename cc (getConfigLoadingRules cc explicitPath) fs,
            contextKey clusterName),
        mkFS (<[GetDefaultFilename cc (getConfigLoadingRules cc explicitPath) fs := new]>
                (files fs))
             (unwritable fs))).
Proof.
  intros Hload. split.
  - intros H. unfold CreateOrMerge. rewrite Hload.
    destruct H as [-> | ->]; [|by rewrite andb_false_r].
    rewrite bool_decide_eq_false_2; [done|]. intros H. by apply H.
  - intros new Hpath -> Hnew Hw. unfold CreateOrMerge. rewrite Hload, Hnew.
    rewrite bool_decide_eq_true_2 by done. cbn [andb negb fst].
    unfold WriteToFile. rewrite decide_False by done.
    revert Hnew. unfold create.
    destruct (NewClientCert ca _) as [| |cert key]; [done..|]. intros [= <-].
    unfold merge, NewConfig; cbn [Clusters AuthInfos Contexts CurrentContext].
    rewrite !KubeconfigFacts.merge_singleton_lookup. rewrite !insert_empty. done.
Qed.

Lemma CreateOrMerge_when_load_fails_witness :
  rules_Load clientcmdStrict (getConfigLoadingRules clientcmdStrict explicit0) fsEmpty
    = LoadErr ("stat " +:+ explicit0 +:+ ": no such file or directory") true ∧
  CreateOrMerge clientcmdStrict ca0 url1 "bootstrap" explicit0 fsEmpty
    = (Ok (explicit0, "kBB-8-bootstrap"), mkFS {[ explicit0 := issued0 ]} ∅).
Proof.
  destruct (CreateOrMerge_when_load_fails clientcmdStrict ca0 url1 "bootstrap" explicit0
              fsEmpty _ true eq_refl) as [_ H].
  split; [reflexivity|].
  rewrite (H issued0).
  - vm_compute. reflexivity.
  - unfold explicit0. discriminate.
  - reflexivity.
  - reflexivity.
  - apply not_elem_of_empty.
Defined.

(** X6. [Remove] does not forgive a missing file as [CreateOrMerge] does:
    with an explicit path that cannot be loaded it returns the error of the
    load and changes nothing. *)
Theorem Remove_missing_explicit_file
    (cc : Clientcmd) (clusterName explicitPath : string) (fs : FS) :
  explicitPath ≠ "" → files fs !! explicitPath = None →
  Remove cc clusterName explicitPath fs =
    (Err ("open " +:+ explicitPath +:+ ": no such file or directory"), fs).
Proof.
  intros Hpath Hmissing. unfold Remove, getConfigLoadingRules, GetLoadingPrecedence.
  destruct (decide (explicitPath ≠ "")) as [_|[]]; [|done]. cbn [ExplicitPath].
  destruct (decide (explicitPath ≠ "")) as [_|[]]; [|done].
  cbn [removeAll]. unfold bind, removeFrom, bind, LoadFromFile. by rewrite Hmissing.
Qed.

Lemma Remove_missing_explicit_file_witness :
  Remove clientcmd0 "bootstrap" explicit0 fsExternal
    = (Err "open /tmp/bootstrap.kubeconfig: no such file or directory", fsExternal).
Proof.
  apply (Remove_missing_explicit_file clientcmd0 "bootstrap" explicit0 fsExternal).
  - unfold explicit0. discriminate.
  - reflexivity.
Defined.

Lemma remove_makes_untouched (name : string) (c : Config) :
  untouched name (remove name c).1.
Proof.
  rewrite KubeconfigFacts.remove_eq. unfold untouched.
  cbn [fst Clusters AuthInfos Contexts CurrentContext].
  rewrite !lookup_delete_eq. split_and!; try done.
  case_decide; done.
Qed.

Lemma removeFrom_loaded (name path : string) (fs : FS) (c : Config) :
  files fs !! path = Some c → path ∉ unwritable fs →
  ∃ c', removeFrom name path fs = (Ok tt, mkFS (<[path := c']> (files fs)) (unwritable fs)) ∧
        untouched name c' ∧ (untouched name c → c' = c).
Proof.
  intros Hc Hw. unfold removeFrom, bind, LoadFromFile. rewrite Hc.
  pose proof (remove_makes_untouched name c) as Hu.
  rewrite KubeconfigFacts.remove_eq in *. cbn [fst] in Hu.
  destruct (decide (untouched name c)) as [Hc'|Hc'].
  - rewrite bool_decide_eq_false_2 by (by intros []).
    exists c. rewrite insert_id by done. by destruct fs.
  - rewrite bool_decide_eq_true_2 by done. unfold WriteToFile.
    rewrite decide_False by done. eexists. split; [done|]. by split.
Qed.

Lemma removeAll_cleans (name : string) (paths : list string) (fs : FS) :
  (∀ p, p ∈ paths → is_Some (files fs !! p) ∧ p ∉ unwritable fs) →
  ∃ fs', removeAll name paths fs = (Ok tt, fs') ∧
         unwritable fs' = unwritable fs ∧
         (∀ p, p ∈ paths → ∃ c, files fs' !! p = Some c ∧ untouched name c) ∧
         (∀ p, p ∉ paths → files fs' !! p = files fs !! p) ∧
         (∀ p c, files fs !! p = Some c → untouched name c → files fs' !! p = Some c) ∧
         (∀ p, is_Some (files fs !! p) → is_Some (files fs' !! p)).
Proof.
  revert fs. induction paths as [|path rest IH]; intros fs Hall.
  - exists fs. split_and!; try done. intros p Hp. by apply elem_of_nil in Hp.
  - destruct (Hall path) as [[c Hc] Hw]; [by left|].
    destruct (removeFrom_loaded name path fs c Hc Hw) as (c' & Hrun & Hu & Hsame).
    cbn [removeAll]. unfold bind. rewrite Hrun.
    set (fs1 := mkFS (<[path := c']> (files fs)) (unwritable fs)).
    destruct (IH fs1) as (fs' & Hrest & Hunw & Hclean & Hother & Hkeep & Hsome).
    { intros p Hp. destruct (Hall p) as [Hl Hw']; [by right|]. split; [|done].
      cbn. destruct (decide (path = p)) as [->|Hne];
        [rewrite lookup_insert_eq; by eexists|by rewrite lookup_insert_ne]. }
    exists fs'. split; [done|]. split; [by rewrite Hunw|]. split_and!.
    + intros p [->|Hp]%elem_of_cons; [|by apply Hclean].
      exists c'. split; [|done]. apply Hkeep; [|done]. cbn. by rewrite lookup_insert_eq.
    + intros p Hp. rewrite Hother by (intros H; apply Hp; by right).
      cbn. apply lookup_insert_ne. intros ->. apply Hp. by left.
    + intros p c0 Hc0 Hu0. apply Hkeep; [|done]. cbn.
      destruct (decide (path = p)) as [->|Hne]; [|by rewrite lookup_insert_ne].
      rewrite lookup_insert_eq. rewrite Hc in Hc0. injection Hc0 as <-.
      by rewrite Hsame.
    + intros p Hp. apply Hsome. cbn.
      destruct (decide (path = p)) as [->|Hne];
        [rewrite lookup_insert_eq; by eexists|by rewrite lookup_insert_ne].
Qed.

(** X7. Over credentials files that all load and can all be written,
    [Remove] returns no error, leaves nothing of the cluster name in any
    file of the loading precedence, does not touch any other file, and is
    idempotent: a second [Remove] changes nothing. *)
Theorem Remove_cleans_every_file (cc : Clientcmd) (clusterName explicitPath : string)
    (fs : FS) :
  (∀ p, p ∈ GetLoadingPrecedence (getConfigLoadingRules cc explicitPath) →
        is_Some (files fs !! p) ∧ p ∉ unwritable fs) →
  ∃ fs', Remove cc clusterName explicitPath fs = (Ok tt, fs') ∧
         (∀ p, p ∈ GetLoadingPrecedence (getConfigLoadingRules cc explicitPath) →
               ∃ c, files fs' !! p = Some c ∧ untouched clusterName c) ∧
         (∀ p, p ∉ GetLoadingPrecedence (getConfigLoadingRules cc explicitPath) →
               files fs' !! p = files fs !! p) ∧
         Remove cc clusterName explicitPath fs' = (Ok tt, fs').
Proof.
  intros Hall. unfold Remove.
  destruct (removeAll_cleans clusterName _ fs Hall)
    as (fs' & Hrun & _ & Hclean & Hother & _ & _).
  exists fs'. split_and!; try done.
  by apply KubeconfigFacts.removeAll_untouched.
Qed.

Lemma Remove_cleans_every_file_witness :
  ¬ untouched "bootstrap" (merge issued0 workload) ∧
  ∃ fs', Remove clientcmd0 "bootstrap" "" fsMerged = (Ok tt, fs') ∧
         ∃ c, files fs' !! home = Some c ∧ untouched "bootstrap" c.
Proof.
  split.
  { intros (H & _). vm_compute in H. discriminate H. }
  destruct (Remove_cleans_every_file clientcmd0 "bootstrap" "" fsMerged)
    as (fs' & Hrun & Hclean & _).
  - intros p Hp. vm_compute in Hp. apply list_elem_of_singleton in Hp as ->.
    split; [by eexists|apply not_elem_of_empty].
  - exists fs'. split; [exact Hrun|]. apply Hclean.
    apply list_elem_of_singleton. reflexivity.
Defined.

End CredentialsFacts.

(** * More properties of pkg/controlplane *)

Module StartupFacts.
Import Sys Controlplane ControlplaneStartSpec Scenario Scenarios.

Ltac trace_done :=
  rewrite <- ?app_assoc;
  first [ eexists; split; [reflexivity|]
        | exists []; split; [by rewrite app_nil_r|] ];
  cbn; (split; [first [done | apply prefix_nil] | done]).

Lemma Etcd_Start_trace (os : OS) (e : Etcd.t) (w : World) :
  ∃ tr, events (Etcd.Start os (e, w)).2.2 = events w ++ tr ∧
        startup tr `prefix_of` [StoreStarted] ∧
        ((Etcd.Start os (e, w)).1 = Ok tt → startup tr = [StoreStarted]).
Proof.
  unfold Etcd.Start, Etcd.setProcessState, bind, onWorld, getwd, mkdirAll, suggest,
    init, start, emit, answer, check, modify, self, ret, throw, panic, bind.
  cbn.
  repeat (oracle; cbn); trace_done.
Qed.

Ltac unfold_start :=
  unfold Etcd.Start, Etcd.setProcessState, APIServer.Start, APIServer.setProcessState,
    APIServer.setupPKI, bind, onWorld, getwd, mkdirAll, suggest,
    init, start, emit, answer, check, modify, self, ret, throw, panic, bind.

Lemma APIServer_Start_trace (os : OS) (a : APIServer.t) (w : World) :
  ∃ tr, events (APIServer.Start os (a, w)).2.2 = events w ++ tr ∧
        startup tr `prefix_of` [APIServerStarted] ∧
        ((APIServer.Start os (a, w)).1 = Ok tt → startup tr = [APIServerStarted]).
Proof. unfold_start. cbn. repeat (oracle; cbn); trace_done. Qed.

(** What a started etcd looks like. *)
Lemma Etcd_Start_ok (os : OS) (e e' : Etcd.t) (w w' : World) :
  Etcd.Start os (e, w) = (Ok tt, (e', w')) →
  Etcd.Path e' = Etcd.Path e ∧
  ∃ ps url,
    Etcd.processState e' = Some ps ∧ Etcd.URL e' = Some url ∧
    ps_Path ps = Etcd.Path e ∧ ps_HealthCheckURL ps = url ∧
    ps_HealthCheckPath ps = "/health" ∧
    process_Init os ps = None ∧ process_Start os ps = None ∧
    is_Some (Etcd.logFile e') ∧ Etcd.logFileWriter e' = Etcd.logFile e'.
Proof.
  unfold_start. cbn.
  repeat (oracle; cbn); intros H; try discriminate H; injection H as <- <-; cbn;
    (split; [done|]); eexists _, _; split_and!; try done; by eexists.
Qed.

Lemma APIServer_Start_ok (os : OS) (a a' : APIServer.t) (w w' : World) :
  APIServer.Start os (a, w) = (Ok tt, (a', w')) →
  APIServer.Path a' = APIServer.Path a ∧ APIServer.EtcdURL a' = APIServer.EtcdURL a ∧
  ∃ ps url ca etcdURL,
    APIServer.processState a' = Some ps ∧ APIServer.URL a' = Some url ∧
    APIServer.CA a' = Some ca ∧ APIServer.EtcdURL a = Some etcdURL ∧
    ps_Path ps = APIServer.Path a ∧ ps_HealthCheckURL ps = url ∧
    ps_HealthCheckPath ps = "/readyz" ∧
    last (ps_Args ps) = Some ("--etcd-servers=" +:+ Go.URL_String etcdURL) ∧
    process_Init os ps = None ∧ process_Start os ps = None ∧
    is_Some (APIServer.logFile a') ∧ APIServer.logFileWriter a' = APIServer.logFile a'.
Proof.
  unfold_start. cbn.
  repeat (oracle; cbn); intros H; try discriminate H; injection H as <- <-; cbn;
    (split; [done|]); (split; [done|]); eexists _, _, _, _; split_and!; try done; by eexists.
Qed.

(** What a successful [CreateOrMerge] has written. *)
Lemma CreateOrMerge_ok (cc : Kubeconfig.Clientcmd) (ca : Kubeconfig.TinyCA)
    (url name explicitPath file context : string) (fs fs' : Kubeconfig.FS) :
  Kubeconfig.CreateOrMerge cc ca url name explicitPath fs = (Ok (file, context), fs') →
  context = Kubeconfig.contextKey name ∧
  ∃ written,
    Kubeconfig.files fs' !! file = Some written ∧
    Kubeconfig.CurrentContext written = Kubeconfig.contextKey name ∧
    Kubeconfig.Clusters written !! Kubeconfig.clusterKey name
      = Some (Kubeconfig.mkCluster url (Kubeconfig.CertBytes ca)) ∧
    Kubeconfig.Contexts written !! Kubeconfig.contextKey name
      = Some (Kubeconfig.mkContext (Kubeconfig.clusterKey name) (Kubeconfig.userKey name)) ∧
    is_Some (Kubeconfig.AuthInfos written !! Kubeconfig.userKey name).
Proof.
  unfold Kubeconfig.CreateOrMerge, Kubeconfig.create, Kubeconfig.WriteToFile.
  set (existing := match Kubeconfig.rules_Load cc _ fs with
                   | Kubeconfig.LoadOk c => Ok c
                   | Kubeconfig.LoadErr e b => _
                   end).
  destruct existing as [existing| |]; [|done..].
  destruct (Kubeconfig.NewClientCert ca _) as [| |cert key]; [done..|]. cbn [fst].
  case_decide; [done|]. intros [= <- <- <-].
  split; [done|]. eexists. split; [apply lookup_insert_eq|].
  unfold Kubeconfig.merge;
    cbn [Kubeconfig.Clusters Kubeconfig.AuthInfos Kubeconfig.Contexts Kubeconfig.CurrentContext].
  rewrite !KubeconfigFacts.merge_singleton_lookup, !lookup_insert_eq.
  split_and!; done.
Qed.

Lemma prefix_singleton_elem {A} (l : list A) (x y : A) :
  l `prefix_of` [x] → y ∈ l → y = x.
Proof.
  intros [k Hk] Hy. apply list_elem_of_singleton. rewrite Hk.
  apply elem_of_app. by left.
Qed.

(** X8. Whatever the operating system answers, [ControlPlane.Start] goes
    through its stages in one order and stops at the first that fails: etcd
    is started, then the API server, then the credentials are published.
    The API server is started only when the start of etcd returned no
    error, the credentials are published exactly when both starts returned
    no error, and a start that fails is where [Start] ends, with its result
    and the world as that step left it. A [Start] that returns no error
    went through all three. *)
Theorem Start_publishes_after_both_started (os : OS) (cp : ControlPlane) (w : World) :
  let etcdStart := Etcd.Start os (Etcd.new (Go.Join [PackagePath cp; "etcd"]), w) in
  let apiServerStart :=
    APIServer.Start os
      (APIServer.new (Etcd.URL etcdStart.2.1) (Go.Join [PackagePath cp; "kube-apiserver"]),
       etcdStart.2.2) in
  ∃ tr, events (Start os (cp, w)).2.2 = events w ++ tr ∧
        startup tr `prefix_of` [StoreStarted; APIServerStarted; CredentialsPublished] ∧
        ((Start os (cp, w)).1 = Ok tt →
         startup tr = [StoreStarted; APIServerStarted; CredentialsPublished]) ∧
        (APIServerStarted ∈ startup tr → etcdStart.1 = Ok tt) ∧
        (CredentialsPublished ∈ startup tr ↔
           etcdStart.1 = Ok tt ∧ apiServerStart.1 = Ok tt) ∧
        (etcdStart.1 ≠ Ok tt →
           (Start os (cp, w)).1 = etcdStart.1 ∧
           (Start os (cp, w)).2.2 = etcdStart.2.2) ∧
        (etcdStart.1 = Ok tt → apiServerStart.1 ≠ Ok tt →
           (Start os (cp, w)).1 = apiServerStart.1 ∧
           (Start os (cp, w)).2.2 = apiServerStart.2.2).
Proof.
  cbv zeta.
  destruct (Start os (cp, w)) as [r [cp' w']] eqn:HS. cbn [fst snd]. revert HS.
  unfold Start, bind, self, modify, onEtcd, onAPIServer. cbn.
  destruct (Etcd_Start_trace os (Etcd.new (Go.Join [PackagePath cp; "etcd"])) w)
    as (tr1 & E1 & P1 & F1).
  destruct (Etcd.Start os _) as [r1 [e1 w1]]; cbn [fst snd] in *.
  assert (r1 ≠ Ok tt → ∀ s, s ≠ StoreStarted → s ∈ startup tr1 → False) as Hno1.
  { intros _ s Hs Hin. by apply Hs, (prefix_singleton_elem _ _ _ P1). }
  destruct r1 as [[]|err|p]; cycle 1.
  { intros [= <- <- <-]. exists tr1. split_and!; try done.
    - etrans; [done|]. by exists [APIServerStarted; CredentialsPublished].
    - intros H. by destruct (Hno1 ltac:(done) APIServerStarted ltac:(done) H).
    - split; [|by intros [? _]]. intros H.
      by destruct (Hno1 ltac:(done) CredentialsPublished ltac:(done) H). }
  { intros [= <- <- <-]. exists tr1. split_and!; try done.
    - etrans; [done|]. by exists [APIServerStarted; CredentialsPublished].
    - intros H. by destruct (Hno1 ltac:(done) APIServerStarted ltac:(done) H).
    - split; [|by intros [? _]]. intros H.
      by destruct (Hno1 ltac:(done) CredentialsPublished ltac:(done) H). }
  clear Hno1. specialize (F1 eq_refl). clear P1.
  assert (∀ tr, startup (tr1 ++ tr) = StoreStarted :: startup tr) as Happ.
  { intros tr. unfold startup in *. by rewrite omap_app, F1. }
  unfold set_apiServer, set_etcd;
    cbn [apiServer etcd PackagePath KubeConfigFile KubeConfigContext mbind option_bind].
  match goal with
  | |- context [APIServer.Start os (?a, w1)] =>
      destruct (APIServer_Start_trace os a w1) as (tr2 & E2 & P2 & F2);
      destruct (APIServer.Start os (a, w1)) as [r2 [a2 w2]] eqn:Ha2; cbn [fst snd] in *
  end.
  assert (r2 ≠ Ok tt → CredentialsPublished ∈ startup (tr1 ++ tr2) → False) as Hno2.
  { intros _. rewrite Happ. intros [H|H]%elem_of_cons; [done|].
    by pose proof (prefix_singleton_elem _ _ _ P2 H). }
  destruct r2 as [[]|err|p]; cycle 1.
  { intros [= <- <- <-]. exists (tr1 ++ tr2).
    rewrite E2, E1, app_assoc. split_and!; try done.
    - rewrite Happ. apply prefix_cons. etrans; [done|]. by exists [CredentialsPublished].
    - split; [|by intros [_ ?]]. intros H. by destruct (Hno2 ltac:(done) H). }
  { intros [= <- <- <-]. exists (tr1 ++ tr2).
    rewrite E2, E1, app_assoc. split_and!; try done.
    - rewrite Happ. apply prefix_cons. etrans; [done|]. by exists [CredentialsPublished].
    - split; [|by intros [_ ?]]. intros H. by destruct (Hno2 ltac:(done) H). }
  clear Hno2. specialize (F2 eq_refl). clear P2.
  apply APIServer_Start_ok in Ha2
    as (_ & _ & psa & url & ca & etcdURL & _ & Hurl & _).
  assert (startup (tr1 ++ tr2) = [StoreStarted; APIServerStarted]) as H12.
  { rewrite Happ. by rewrite F2. }
  unfold createOrMerge, bind, emit, onKube, panic.
  cbn [apiServer etcd PackagePath mbind option_bind events kube suggested].
  rewrite Hurl.
  assert (startup (tr1 ++ tr2 ++ [EvCreateOrMerge "bootstrap"])
          = [StoreStarted; APIServerStarted; CredentialsPublished]) as Hall.
  { rewrite app_assoc. unfold startup in *. by rewrite omap_app, H12. }
  cbv beta iota. cbn [apiServer mbind option_bind events kube suggested].
  destruct (APIServer.CA a2) as [ca'|]; cbv beta iota; cycle 1.
  { intros [= <- <- <-]. exists (tr1 ++ tr2 ++ [EvCreateOrMerge "bootstrap"]).
    cbn. rewrite E2, E1, <- !app_assoc, Hall.
    split_and!; try done. split; [done|intros _; stage_in]. }
  destruct (Kubeconfig.CreateOrMerge _ _ _ _ _ _) as [[[file context]|err|p] fs'];
    cbv beta iota; intros [= <- <- <-]; exists (tr1 ++ tr2 ++ [EvCreateOrMerge "bootstrap"]);
    cbn; rewrite E2, E1, <- !app_assoc, Hall;
    (split_and!; try done; split; [done|intros _; stage_in]).
Qed.

(** X9. After a [ControlPlane.Start] that returns no error, both components
    are set and have a process state, the API server was given the URL of
    etcd, the context is the key of the bootstrap cluster, and the file
    that [KubeConfigFile] names holds a config whose current context is
    that key and whose cluster entry has the URL and the CA of the API
    server. *)
Theorem ControlPlane_Start_ok_state (os : OS) (cp cp' : ControlPlane) (w w' : World) :
  Start os (cp, w) = (Ok tt, (cp', w')) →
  PackagePath cp' = PackagePath cp ∧
  ∃ e a url ca config,
    etcd cp' = Some e ∧ apiServer cp' = Some a ∧
    is_Some (Etcd.processState e) ∧ is_Some (APIServer.processState a) ∧
    is_Some (Etcd.URL e) ∧ APIServer.EtcdURL a = Etcd.URL e ∧
    APIServer.URL a = Some url ∧ APIServer.CA a = Some ca ∧
    KubeConfigContext cp' = Kubeconfig.contextKey "bootstrap" ∧
    Kubeconfig.files (kube w') !! KubeConfigFile cp' = Some config ∧
    Kubeconfig.CurrentContext config = KubeConfigContext cp' ∧
    Kubeconfig.Clusters config !! Kubeconfig.clusterKey "bootstrap"
      = Some (Kubeconfig.mkCluster (Go.URL_String url) (Kubeconfig.CertBytes ca)).
Proof.
  unfold Start, bind, self, modify, onEtcd, onAPIServer. cbn.
  destruct (Etcd.Start os _) as [r1 [e1 w1]] eqn:He.
  destruct r1 as [[]|err|p]; [|done..].
  apply Etcd_Start_ok in He as (_ & pse & urle & Hpse & Hurle & _).
  unfold set_apiServer, set_etcd;
    cbn [apiServer etcd PackagePath KubeConfigFile KubeConfigContext mbind option_bind].
  destruct (APIServer.Start os _) as [r2 [a2 w2]] eqn:Ha.
  destruct r2 as [[]|err|p]; [|done..].
  apply APIServer_Start_ok in Ha
    as (_ & Hetcd & psa & url & ca & etcdURL & Hpsa & Hurl & Hca & _).
  cbn [APIServer.new APIServer.EtcdURL] in Hetcd.
  unfold createOrMerge, bind, emit, onKube, panic.
  cbn [apiServer etcd PackagePath mbind option_bind events kube suggested].
  rewrite Hurl. cbv beta iota. cbn [apiServer mbind option_bind events kube suggested].
  rewrite Hca. cbv beta iota.
  destruct (Kubeconfig.CreateOrMerge _ _ _ _ _ _) as [[[file context]|err|p] fs'] eqn:Hc;
    cbv beta iota; [|done..].
  intros [= <- <-]. split; [done|].
  apply CreateOrMerge_ok in Hc as (-> & config & Hfile & Hcur & Hcluster & _).
  exists e1, a2, url, ca, config. cbn.
  rewrite Hpse, Hpsa, Hetcd, Hurle. split_and!; try done; by eexists.
Qed.

Lemma ControlPlane_Start_ok_state_witness :
  Start os_ok (cp0, world0) = (Ok tt, started0) ∧
  KubeConfigFile started0.1 = home ∧
  KubeConfigContext started0.1 = "kBB-8-bootstrap" ∧
  ∃ config, Kubeconfig.files (kube started0.2) !! home = Some config ∧
            Kubeconfig.CurrentContext config = "kBB-8-bootstrap".
Proof.
  assert (Start os_ok (cp0, world0) = (Ok tt, (started0.1, started0.2))) as H
    by (vm_compute; reflexivity).
  destruct (ControlPlane_Start_ok_state os_ok cp0 started0.1 world0 started0.2 H)
    as (_ & e & a & url & ca & config & _ & _ & _ & _ & _ & _ & _ & _ & Hctx & Hfile & Hcur & _).
  split; [exact H|]. split; [vm_compute; reflexivity|]. split; [exact Hctx|].
  exists config. split; [exact Hfile|]. rewrite Hcur. exact Hctx.
Defined.

(** X10. When the API server does not stop, [ControlPlane.Stop] returns its
    error at once: etcd is left running, its data directory stays, and the
    credentials are not removed. *)
Theorem Stop_stops_at_failing_apiServer (os : OS) (cp : ControlPlane)
    (a : APIServer.t) (w : World) (e : string) :
  apiServer cp = Some a →
  process_Stop os (APIServer.processState a) = Err e →
  Stop os cp w = (Err e, mkWorld (kube w) (events w ++ [EvStop CAPIServer]) (suggested w)).
Proof.
  intros Ha He. unfold Stop, APIServer.Stop, bind, stop, emit, answer.
  rewrite Ha. cbn. by rewrite He.
Qed.

Lemma Stop_stops_at_failing_apiServer_witness :
  Stop os_stuck started0.1 started0.2
    = (Err "timeout waiting for process kube-apiserver to stop",
       mkWorld (kube started0.2) (events started0.2 ++ [EvStop CAPIServer])
               (suggested started0.2)).
Proof.
  destruct (apiServer started0.1) as [a|] eqn:Ha; [|by vm_compute in Ha].
  apply (Stop_stops_at_failing_apiServer os_stuck started0.1 a started0.2 _ Ha).
  vm_compute in Ha. injection Ha as <-. vm_compute. reflexivity.
Defined.

Lemma removeAll_no_panic (name : string) (paths : list string) (fs : Kubeconfig.FS)
    (p : string) :
  (Kubeconfig.removeAll name paths fs).1 ≠ Panic p.
Proof.
  revert fs. induction paths as [|path rest IH]; intros fs; [done|].
  cbn [Kubeconfig.removeAll]. unfold bind, Kubeconfig.removeFrom, bind,
    Kubeconfig.LoadFromFile, Kubeconfig.WriteToFile, ret.
  destruct (Kubeconfig.files fs !! path) as [c|]; [|done].
  destruct (Kubeconfig.remove name c) as [c' []]; [case_decide; [done|]|]; apply IH.
Qed.

(** X11. On a control plane whose two components are set, [Stop] does not
    panic, whatever the flushes, the closes and the removals answer, as
    long as [process.State.Stop] itself does not. *)
Theorem Stop_does_not_panic_when_started (os : OS) (cp : ControlPlane)
    (e : Etcd.t) (a : APIServer.t) (w : World) (p : string) :
  etcd cp = Some e → apiServer cp = Some a →
  (∀ ps msg, process_Stop os ps ≠ Panic msg) →
  (Stop os cp w).1 ≠ Panic p.
Proof.
  intros He Ha Hstop. unfold Stop, APIServer.Stop, Etcd.Stop, bind, stop, flush, close,
    removeAll, emit, answer, check, onKube, ret, throw, Kubeconfig.Remove.
  rewrite He, Ha. cbn.
  pose proof (Hstop (APIServer.processState a)) as H1.
  pose proof (Hstop (Etcd.processState e)) as H2.
  destruct (process_Stop os (APIServer.processState a)) as [[]|?|msg]; cbn;
    [|done|by destruct (H1 msg)].
  destruct (APIServer.logFileWriter a) as [wr|]; cbn;
    [destruct (Flush os wr); cbn; [done|]|];
    (destruct (APIServer.logFile a) as [f|]; cbn;
      [destruct (Close os f); cbn; [done|]|]);
    (destruct (process_Stop os (Etcd.processState e)) as [[]|?|msg]; cbn;
      [|done|by destruct (H2 msg)]);
    (destruct (Etcd.logFileWriter e) as [wr'|]; cbn;
      [destruct (Flush os wr'); cbn; [done|]|]);
    (destruct (Etcd.logFile e) as [f'|]; cbn;
      [destruct (Close os f'); cbn; [done|]|]);
    (destruct (RemoveAll os (Etcd.dataDir e)); cbn; [done|]);
    match goal with
    | |- context [Kubeconfig.removeAll ?n ?ps ?fs] =>
        pose proof (removeAll_no_panic n ps fs p) as Hk;
        destruct (Kubeconfig.removeAll n ps fs) as [[[]|?|?] ?]; cbn in *; congruence
    end.
Qed.

Lemma Stop_does_not_panic_witness :
  (Stop os_ok started0.1 started0.2).1 ≠ Panic nil_dereference.
Proof.
  destruct (etcd started0.1) as [e|] eqn:He; [|by vm_compute in He].
  destruct (apiServer started0.1) as [a|] eqn:Ha; [|by vm_compute in Ha].
  apply (Stop_does_not_panic_when_started os_ok started0.1 e a started0.2 _ He Ha).
  intros ps msg. discriminate.
Defined.

Lemma Etcd_Start_no_panic (os : OS) (e : Etcd.t) (w : World) (msg : string) :
  (∀ m, Getwd os ≠ Panic m) → (∀ n m, Suggest os n ≠ Panic m) →
  (Etcd.Start os (e, w)).1 ≠ Panic msg.
Proof.
  intros Hwd Hs. unfold_start. cbn.
  repeat (oracle; cbn); try done;
    repeat match goal with
           | H : ∀ m, Panic ?x ≠ Panic m |- _ => by destruct (H x)
           | H : Suggest os _ = Panic _ |- _ => by destruct (Hs _ _ H)
           end.
Qed.

Lemma APIServer_Start_no_panic (os : OS) (a : APIServer.t) (w : World) (msg : string) :
  (∀ m, Getwd os ≠ Panic m) → (∀ n m, Suggest os n ≠ Panic m) →
  (∀ h m, pki os h ≠ Panic m) →
  is_Some (APIServer.EtcdURL a) →
  (APIServer.Start os (a, w)).1 ≠ Panic msg.
Proof.
  intros Hwd Hs Hp [url Hurl]. destruct a. cbn in Hurl. subst. unfold_start. cbn.
  repeat (oracle; cbn); try done;
    repeat match goal with
           | H : ∀ m, Panic ?x ≠ Panic m |- _ => by destruct (H x)
           | H : Suggest os _ = Panic _ |- _ => by destruct (Hs _ _ H)
           | H : pki os _ = Panic _ |- _ => by destruct (Hp _ _ H)
           end.
Qed.

Lemma APIServer_Start_CA (os : OS) (a a' : APIServer.t) (w w' : World)
    (ca : Kubeconfig.TinyCA) :
  APIServer.Start os (a, w) = (Ok tt, (a', w')) →
  APIServer.CA a' = Some ca →
  ∃ host, pki os host = Ok ca.
Proof.
  unfold_start. cbn.
  repeat (oracle; cbn); intros H; try discriminate H; injection H as <- <-; cbn;
    intros [= <-]; by eexists.
Qed.

Lemma CreateOrMerge_panic (cc : Kubeconfig.Clientcmd) (ca : Kubeconfig.TinyCA)
    (url name explicitPath : string) (fs fs' : Kubeconfig.FS) (p : string) :
  Kubeconfig.CreateOrMerge cc ca url name explicitPath fs = (Panic p, fs') →
  p = nil_dereference ∧
  ∀ cert key,
    Kubeconfig.NewClientCert ca
      (Kubeconfig.mkClientInfo (Kubeconfig.userKey name) [Kubeconfig.systemPrivilegedGroup])
    ≠ Kubeconfig.IssuedPair cert key.
Proof.
  unfold Kubeconfig.CreateOrMerge, Kubeconfig.create, Kubeconfig.WriteToFile.
  destruct (Kubeconfig.rules_Load cc _ fs) as [c|e b]; [|destruct (negb _)];
    (destruct (Kubeconfig.NewClientCert ca _) as [| |cert key] eqn:Hcert; cbn [fst];
     [by intros [= <- <-]..|]); try done; by case_decide.
Qed.

(** X26. With a working directory, ports and an authority that do not
    panic, the only panic of [ControlPlane.Start] is the nil dereference of
    the credentials step, and it happens only when the CA that the API
    server set up cannot issue the client certificate: the accesses of
    [Start] to the process states, to the URL of etcd and to the URL and
    the CA of the API server never meet a nil pointer. *)
Theorem Start_panics_only_without_certificate (os : OS) (cp : ControlPlane) (w : World)
    (msg : string) :
  (∀ m, Getwd os ≠ Panic m) → (∀ n m, Suggest os n ≠ Panic m) →
  (∀ h m, pki os h ≠ Panic m) →
  (Start os (cp, w)).1 = Panic msg →
  msg = nil_dereference ∧
  ∃ host ca,
    pki os host = Ok ca ∧
    ∀ cert key,
      Kubeconfig.NewClientCert ca
        (Kubeconfig.mkClientInfo (Kubeconfig.userKey "bootstrap")
           [Kubeconfig.systemPrivilegedGroup])
      ≠ Kubeconfig.IssuedPair cert key.
Proof.
  intros Hwd Hs Hp.
  unfold Start, bind, self, modify, onEtcd, onAPIServer. cbn.
  pose proof (Etcd_Start_no_panic os (Etcd.new (Go.Join [PackagePath cp; "etcd"])) w) as N1.
  destruct (Etcd.Start os _) as [r1 [e1 w1]] eqn:He.
  destruct r1 as [[]|err|p]; [|done|by destruct (N1 p Hwd Hs)].
  apply Etcd_Start_ok in He as (_ & pse & urle & Hpse & Hurle & _).
  unfold set_apiServer, set_etcd;
    cbn [apiServer etcd PackagePath KubeConfigFile KubeConfigContext mbind option_bind].
  match goal with
  | |- context [APIServer.Start os (?a, w1)] =>
      pose proof (APIServer_Start_no_panic os a w1) as N2
  end.
  destruct (APIServer.Start os _) as [r2 [a2 w2]] eqn:Ha.
  destruct r2 as [[]|err|p]; [|done|].
  2: { exfalso. apply (N2 p Hwd Hs Hp); [cbn; rewrite Hurle; by eexists | done]. }
  pose proof Ha as Ha'.
  apply APIServer_Start_ok in Ha
    as (_ & Hetcd & psa & url & ca & etcdURL & Hpsa & Hurl & Hca & _).
  unfold createOrMerge, bind, emit, onKube, panic.
  cbn [apiServer etcd PackagePath mbind option_bind events kube suggested].
  rewrite Hurl. cbv beta iota. cbn [apiServer mbind option_bind events kube suggested].
  rewrite Hca. cbv beta iota.
  destruct (Kubeconfig.CreateOrMerge _ _ _ _ _ _) as [[[file context]|err|p] fs'] eqn:Hc;
    cbv beta iota; [done..|].
  cbn [fst]. intros [= <-].
  apply CreateOrMerge_panic in Hc as [-> Hcert]. split; [done|].
  destruct (APIServer_Start_CA _ _ _ _ _ _ Ha' Hca) as [host Hhost].
  by exists host, ca.
Qed.

Lemma Start_panics_witness :
  (Start os_nocert (cp0, world0)).1 = Panic nil_dereference ∧
  ∃ host ca,
    pki os_nocert host = Ok ca ∧
    ∀ cert key,
      Kubeconfig.NewClientCert ca
        (Kubeconfig.mkClientInfo (Kubeconfig.userKey "bootstrap")
           [Kubeconfig.systemPrivilegedGroup])
      ≠ Kubeconfig.IssuedPair cert key.
Proof.
  assert ((Start os_nocert (cp0, world0)).1 = Panic nil_dereference) as H
    by (vm_compute; reflexivity).
  split; [exact H|].
  apply (Start_panics_only_without_certificate os_nocert cp0 world0 nil_dereference).
  - intros m Hm. discriminate Hm.
  - intros n m Hm. discriminate Hm.
  - intros h m Hm. discriminate Hm.
  - exact H.
Defined.

Ltac among :=
  intros _; solve [repeat first [apply list_elem_of_here | apply list_elem_of_further]].

Ltac answered :=
  intros _; split_and!; first [done | (let H := fresh in intros ? H; by simplify_eq)].

Ltac refuted :=
  let Hw := fresh in let Hc := fresh in
  intros (? & Hw & Hc);
  first [ done
        | specialize (Hw _ eq_refl); congruence
        | specialize (Hc _ eq_refl); congruence ].

(** X12. [Etcd.Stop] removes the data directory exactly when the process
    stopped and the log writer and the log file, where set, were flushed and
    closed; the removal is the last thing a stop without error does, and it
    has succeeded. *)
Theorem Etcd_Stop_removes_data_dir_last (os : OS) (e : Etcd.t) (w : World) :
  ∃ tr, events (Etcd.Stop os (Some e) w).2 = events w ++ tr ∧
    (EvRemoveAll (Etcd.dataDir e) ∈ tr ↔
       process_Stop os (Etcd.processState e) = Ok tt ∧
       (∀ wr, Etcd.logFileWriter e = Some wr → Flush os wr = None) ∧
       (∀ f, Etcd.logFile e = Some f → Close os f = None)) ∧
    ((Etcd.Stop os (Some e) w).1 = Ok tt →
       last tr = Some (EvRemoveAll (Etcd.dataDir e)) ∧
       RemoveAll os (Etcd.dataDir e) = None).
Proof.
  unfold Etcd.Stop, bind, stop, flush, close, removeAll, emit, answer, check, ret, throw.
  cbn.
  destruct (process_Stop os (Etcd.processState e)) as [[]|err|msg] eqn:Hs; cbn;
    [|eexists; (split; [reflexivity|]); (split; [split; [not_among|refuted]|done])..].
  destruct (Etcd.logFileWriter e) as [wr|]; cbn;
    [destruct (Flush os wr) eqn:Hf; cbn|];
    try (destruct (Etcd.logFile e) as [f|]; cbn;
         [destruct (Close os f) eqn:Hc; cbn|]);
    try (destruct (RemoveAll os (Etcd.dataDir e)) eqn:Hr; cbn);
    rewrite <- ?app_assoc; eexists; (split; [reflexivity|]); cbn;
    (split; [split; first [not_among | answered | among | refuted]
            |first [done | intros _; split; [reflexivity|assumption]]]).
Qed.
End StartupFacts.

(** * More properties of pkg/provider *)

Module ApplyFacts.
Import Provider ProviderSpec ProviderApplySpec Scenario Scenarios.

Lemma classify_skips (pre post : list Doc) (doc : Doc) (acc : manifestObjects) :
  unmanaged doc → classify (pre ++ doc :: post) acc = classify (pre ++ post) acc.
Proof.
  intros (g & Hg & H1 & H2 & H3). revert acc.
  induction pre as [|d pre IH]; intros acc; cbn [app classify].
  - rewrite Hg. by rewrite !decide_False.
  - destruct (asGeneric d) as [gd|]; [|done].
    repeat case_decide; try done;
      try (destruct (asCRD d); [apply IH|done]);
      try (destruct (asMutating d); [apply IH|done]);
      try (destruct (asValidating d); [apply IH|done]); apply IH.
Qed.

(** X13. A fragment of a kind other than the three the provider manages
    (a Deployment, a Service, ...) is skipped: the manifest with it and the
    manifest without it are read and adapted to the same result, whether
    objects, error or panic. *)
Theorem unmanaged_fragment_changes_nothing (fsys : Files) (with_doc without : string)
    (pre post : list Doc) (doc : Doc) (pki : providerPKI) (u : providerURL) :
  readDocuments fsys with_doc = Ok (pre ++ doc :: post) →
  readDocuments fsys without = Ok (pre ++ post) →
  unmanaged doc →
  readAndAdaptManifestObjects fsys with_doc pki u
    = readAndAdaptManifestObjects fsys without pki u.
Proof.
  intros H1 H2 Hdoc. unfold readAndAdaptManifestObjects.
  by rewrite H1, H2, classify_skips.
Qed.

Lemma unmanaged_fragment_witness :
  unmanaged deploymentDoc ∧
  readAndAdaptManifestObjects twoManifests manifestPath0 pki0 url0
    = readAndAdaptManifestObjects twoManifests strippedPath pki0 url0.
Proof.
  assert (unmanaged deploymentDoc) as Hdoc.
  { eexists. split; [reflexivity|]. split_and!; discriminate. }
  split; [exact Hdoc|].
  apply (unmanaged_fragment_changes_nothing twoManifests manifestPath0 strippedPath
           [crdDoc "apiextensions.k8s.io/v1" crdPlain]
           [mutatingDoc "admissionregistration.k8s.io/v1" mutating0]
           deploymentDoc pki0 url0); [reflexivity|reflexivity|exact Hdoc].
Defined.

Lemma runAll_no_error {St} (fns : list (M St unit)) (s : St) (e : string) :
  (runAll fns s).1 ≠ Err e.
Proof.
  revert s. induction fns as [|f fns IH]; intros s; cbn [runAll]; [done|].
  destruct (f s) as [[[]|?|?] s']; [apply IH|done..].
Qed.

(** X14. The only error that [createManifestObjects] returns is that of
    reading and adapting the manifest, with the prefix of the code, and
    then no request was sent: a failure of the client or of a request is
    never returned as an error (it is raised as a panic). *)
Theorem createManifestObjects_returns_only_reading_errors
    (connect : Connect) (fsys : Files) (ctx : Context)
    (manifestPath kubeConfig : string) (pki : providerPKI) (u : providerURL)
    (sent sent' : list Call) (e : string) :
  createManifestObjects connect fsys ctx manifestPath kubeConfig pki u sent = (Err e, sent') →
  sent' = sent ∧
  ∃ cause, readAndAdaptManifestObjects fsys manifestPath pki u = Err cause ∧
           e = "unable to get provider crds: " +:+ cause.
Proof.
  unfold createManifestObjects.
  destruct (connect kubeConfig) as [c| |]; [|done..].
  destruct (readAndAdaptManifestObjects fsys manifestPath pki u) as [objs|cause|]; [| |done].
  - intros H. exfalso. eapply (runAll_no_error _ sent e). by rewrite H.
  - intros [= <- <-]. split; [done|]. by exists cause.
Qed.

Lemma createManifestObjects_reading_error_witness :
  createManifestObjects connect0 (manifest unsupportedDocs) ctx0 manifestPath0 home pki0 url0 []
    = (Err ("unable to get provider crds: " +:+
            unsupported "MutatingWebhookConfiguration" "capi-mutating-webhook-configuration"),
       []) ∧
  readAndAdaptManifestObjects (manifest unsupportedDocs) manifestPath0 pki0 url0
    = Err (unsupported "MutatingWebhookConfiguration" "capi-mutating-webhook-configuration").
Proof.
  assert (createManifestObjects connect0 (manifest unsupportedDocs) ctx0 manifestPath0 home
            pki0 url0 []
          = (Err ("unable to get provider crds: " +:+
                  unsupported "MutatingWebhookConfiguration"
                    "capi-mutating-webhook-configuration"), [])) as H
    by (vm_compute; reflexivity).
  split; [exact H|].
  destruct (createManifestObjects_returns_only_reading_errors _ _ _ _ _ _ _ _ _ _ H)
    as (_ & cause & Hcause & He).
  rewrite Hcause. f_equal. apply String.app_inj in He. by symmetry.
Defined.

Lemma adaptClientConfig_rewired pki u cc cc' :
  adaptClientConfig pki u cc = Ok cc' → rewired pki u cc'.
Proof.
  unfold adaptClientConfig.
  destruct (Service cc) as [service|]; [|done].
  destruct (svc_Path service) as [path|]; [|done]. intros [= <-].
  rewrite ProviderFacts.localServingUrl_String. split_and!; [done..|]. by exists path.
Qed.

Lemma adaptCRD_adapted pki u crd crd' :
  adaptCRD pki u crd = Ok crd' → adaptedCRD pki u crd crd'.
Proof.
  unfold adaptCRD. destruct (Webhook _); [|done]. intros [= <-].
  rewrite ProviderFacts.localServingUrl_String.
  split_and!; [done..|]. eexists. split; [done|]. split_and!; [done..|]. by exists "convert".
Qed.

Lemma adaptMutating_adapted pki u hook hook' :
  adaptMutating pki u hook = Ok hook' → adaptedMutating pki u hook hook'.
Proof.
  unfold adaptMutating. destruct (forEach _ _) as [ws| |] eqn:Hws; [|done..].
  intros [= <-]. split_and!; [done..|]. cbn.
  apply ProviderFacts.forEach_Forall2 in Hws.
  eapply Forall2_impl; [done|]. intros w w'. unfold adaptMutatingWebhook.
  destruct (adaptClientConfig pki u (mw_ClientConfig w)) as [cc| |] eqn:Hcc; [|done..].
  intros [= <-]. split_and!; [done..|]. by eapply adaptClientConfig_rewired.
Qed.

Lemma adaptValidating_adapted pki u hook hook' :
  adaptValidating pki u hook = Ok hook' → adaptedValidating pki u hook hook'.
Proof.
  unfold adaptValidating. destruct (forEach _ _) as [ws| |] eqn:Hws; [|done..].
  intros [= <-]. split_and!; [done..|]. cbn.
  apply ProviderFacts.forEach_Forall2 in Hws.
  eapply Forall2_impl; [done|]. intros w w'. unfold adaptValidatingWebhook.
  destruct (adaptClientConfig pki u (vw_ClientConfig w)) as [cc| |] eqn:Hcc; [|done..].
  intros [= <-]. split_and!; [done..|]. by eapply adaptClientConfig_rewired.
Qed.

(** X15. An adaptation that succeeds keeps the number, the order, the
    names and the resource versions of the objects, and the names of the
    webhooks in them; every client config in the result has no service, the
    CA bundle of the provider, and a URL under the local webhook endpoint. *)
Theorem adapt_keeps_objects_and_rewires (pki : providerPKI) (u : providerURL)
    (ret ret' : manifestObjects) :
  adapt pki u ret = Ok ret' →
  Forall2 (adaptedCRD pki u) (crds ret) (crds ret') ∧
  Forall2 (adaptedMutating pki u) (mutHooks ret) (mutHooks ret') ∧
  Forall2 (adaptedValidating pki u) (valHooks ret) (valHooks ret').
Proof.
  unfold adapt.
  destruct (forEach _ (crds ret)) as [cs| |] eqn:Hcs; [|done..].
  destruct (forEach _ (mutHooks ret)) as [ms| |] eqn:Hms; [|done..].
  destruct (forEach _ (valHooks ret)) as [vs| |] eqn:Hvs; [|done..].
  intros [= <-]. cbn.
  apply ProviderFacts.forEach_Forall2 in Hcs, Hms, Hvs.
  split_and!; (eapply Forall2_impl; [done|]); intros x y.
  - apply adaptCRD_adapted.
  - apply adaptMutating_adapted.
  - apply adaptValidating_adapted.
Qed.

Lemma adapt_witness :
  ∃ ret', adapt pki0 url0 (mkObjects [crdPlain] [mutating0] [validating0]) = Ok ret' ∧
          Forall2 (adaptedCRD pki0 url0) [crdPlain] (crds ret') ∧
          Forall2 (adaptedMutating pki0 url0) [mutating0] (mutHooks ret').
Proof.
  destruct (adapt pki0 url0 (mkObjects [crdPlain] [mutating0] [validating0]))
    as [ret'| |] eqn:H; [|by vm_compute in H..].
  exists ret'. split; [reflexivity|].
  destruct (adapt_keeps_objects_and_rewires pki0 url0 _ ret' H) as (H1 & H2 & _).
  split; assumption.
Defined.

Lemma poll_only_gets (c : Client) (k : ObjectKind) (n : string)
    (f : GetResult → M (list Call) bool) (fuel : nat) (sent : list Call) :
  (∀ r s, (f r s).2 = s) →
  ∃ m, 1 ≤ m ≤ S fuel ∧
       (poll fuel (let! actual := Get c k n in f actual)%go sent).2
         = sent ++ replicate m (CallGet k n).
Proof.
  intros Hf. revert sent. induction fuel as [|fuel IH]; intros sent.
  - exists 1. split; [lia|]. cbn [poll]. unfold bind, Get.
    pose proof (Hf (onGet c (sent ++ [CallGet k n])) (sent ++ [CallGet k n])) as H.
    destruct (f _ _) as [[[]| |] s']; cbn in *; by subst.
  - cbn [poll]. unfold bind at 1. unfold bind at 1, Get at 1.
    pose proof (Hf (onGet c (sent ++ [CallGet k n])) (sent ++ [CallGet k n])) as H.
    destruct (f _ _) as [[[]| |] s']; cbn [snd] in H; subst s';
      try (exists 1; split; [lia|done]).
    destruct (IH (sent ++ [CallGet k n])) as (m & Hm & Hrun).
    exists (S m). split; [lia|]. rewrite Hrun. by rewrite <- app_assoc.
Qed.

Lemma wrap_state {St A} (prefix : string) (m : M St A) (s : St) :
  (wrap prefix m s).2 = (m s).2.
Proof. unfold wrap. by destruct (m s) as [[]]. Qed.

Lemma wrap_ok {St A} (prefix : string) (m : M St A) (s : St) (a : A) :
  (wrap prefix m s).1 = Ok a ↔ (m s).1 = Ok a.
Proof. unfold wrap. by destruct (m s) as [[]]. Qed.

Lemma applyObject_requests (c : Client) (ctx : Context) (o : Object)
    (sent : list Call) :
  ∃ polls, polls ≤ S (intervals ctx) ∧
    (applyObject c ctx o sent).2 =
      sent ++ CallGet (kindOf o) (nameOf o) ::
        match onGet c (sent ++ [CallGet (kindOf o) (nameOf o)]) with
        | NotFound => CallCreate o :: replicate polls (CallGet (kindOf o) (nameOf o))
        | Found resourceVersion _ =>
            CallUpdate (setResourceVersion resourceVersion o)
              :: replicate polls (CallGet (kindOf o) (nameOf o))
        | GetFailed _ => []
        end ∧
    ((applyObject c ctx o sent).1 = Ok tt →
       1 ≤ polls ∧ ∀ e, onGet c (sent ++ [CallGet (kindOf o) (nameOf o)]) ≠ GetFailed e).
Proof.
  destruct (applyObject c ctx o sent) as [r sent'] eqn:Hrun. cbn [fst snd]. revert Hrun.
  unfold applyObject. unfold bind at 1. unfold Get at 1. cbn beta iota zeta.
  set (sent1 := sent ++ [CallGet (kindOf o) (nameOf o)]).
  assert (∀ w s, ∃ m, 1 ≤ m ≤ S (intervals ctx) ∧
            (wrap w
               (PollImmediateInfiniteWithContext ctx
                  (let! actual := Get c (kindOf o) (nameOf o) in
                   match actual with
                   | Found _ established => ret (ready (kindOf o) established)
                   | NotFound =>
                       throw (kindName (kindOf o) +:+ " " +:+ nameOf o +:+
                              " was deleted before being established")
                   | GetFailed e =>
                       throw ("error fetching " +:+ kindName (kindOf o) +:+ " " +:+
                              nameOf o +:+ ": " +:+ e)
                   end)%go) s).2
            = s ++ replicate m (CallGet (kindOf o) (nameOf o))) as Hpoll.
  { intros w s. rewrite wrap_state. unfold PollImmediateInfiniteWithContext.
    apply poll_only_gets. by intros []. }
  destruct (onGet c sent1) as [rv est| |e] eqn:Hget.
  - unfold bind at 1. unfold wrap at 1, Update.
    destruct (onWrite c _) as [err|].
    + intros [= <- <-]. exists 0. split; [lia|]. split; [|done].
      unfold sent1. by rewrite <- app_assoc.
    + cbn beta iota.
      match goal with
      | |- wrap ?w ?m ?s = _ → _ =>
          destruct (Hpoll w s) as (m' & Hm & Hst); destruct (wrap w m s) as [r0 s0]
      end.
      cbn [snd] in Hst. intros [= <- <-]. exists m'. split; [lia|].
      split; [|intros _; split; [lia|done]].
      rewrite Hst. unfold sent1. by rewrite <- !app_assoc.
  - unfold bind at 1. unfold wrap at 1, Create.
    destruct (onWrite c _) as [err|].
    + intros [= <- <-]. exists 0. split; [lia|]. split; [|done].
      unfold sent1. by rewrite <- app_assoc.
    + cbn beta iota.
      match goal with
      | |- wrap ?w ?m ?s = _ → _ =>
          destruct (Hpoll w s) as (m' & Hm & Hst); destruct (wrap w m s) as [r0 s0]
      end.
      cbn [snd] in Hst. intros [= <- <-]. exists m'. split; [lia|].
      split; [|intros _; split; [lia|done]].
      rewrite Hst. unfold sent1. by rewrite <- !app_assoc.
  - unfold bind, throw. intros [= <- <-]. exists 0. split; [lia|]. done.
Qed.
(** X16. The requests of one apply: a Get; then a Create of the object when the
    server does not have it, or an Update of the object with the resource
    version of the server when it has; then only Gets of the poll, at most
    one more than the context allows intervals. An object is never created
    when it exists, nor updated when it does not. *)
Theorem applyObject_creates_or_updates (c : Client) (ctx : Context) (o : Object)
    (sent : list Call) :
  ∃ polls, polls ≤ S (intervals ctx) ∧
    (applyObject c ctx o sent).2 =
      sent ++ CallGet (kindOf o) (nameOf o) ::
        match onGet c (sent ++ [CallGet (kindOf o) (nameOf o)]) with
        | NotFound => CallCreate o :: replicate polls (CallGet (kindOf o) (nameOf o))
        | Found resourceVersion _ =>
            CallUpdate (setResourceVersion resourceVersion o)
              :: replicate polls (CallGet (kindOf o) (nameOf o))
        | GetFailed _ => []
        end ∧
    ((applyObject c ctx o sent).1 = Ok tt →
       1 ≤ polls ∧ ∀ e, onGet c (sent ++ [CallGet (kindOf o) (nameOf o)]) ≠ GetFailed e).
Proof. apply applyObject_requests. Qed.

Lemma written_gets (m : nat) (k : ObjectKind) (n : string) :
  omap written (replicate m (CallGet k n)) = [].
Proof. induction m as [|m IH]; [done|]. done. Qed.

Lemma identity_setResourceVersion (rv : string) (o : Object) :
  identity (setResourceVersion rv o) = identity o.
Proof. by destruct o. Qed.

Lemma applyObject_writes (c : Client) (ctx : Context) (o : Object) (sent : list Call) :
  ∃ new, (applyObject c ctx o sent).2 = sent ++ new ∧
         identity <$> omap written new `prefix_of` [identity o] ∧
         ((applyObject c ctx o sent).1 = Ok tt →
          identity <$> omap written new = [identity o]).
Proof.
  destruct (applyObject_requests c ctx o sent) as (polls & _ & Hsent & Hok).
  eexists. split; [exact Hsent|].
  destruct (onGet c _) as [rv est| |e]; cbn [omap list_omap written fmap list_fmap].
  - change (omap written (CallGet (kindOf o) (nameOf o) ::
              CallUpdate (setResourceVersion rv o) ::
              replicate polls (CallGet (kindOf o) (nameOf o))))
      with (setResourceVersion rv o ::
              omap written (replicate polls (CallGet (kindOf o) (nameOf o)))).
    rewrite written_gets. cbn. by rewrite identity_setResourceVersion.
  - change (omap written (CallGet (kindOf o) (nameOf o) :: CallCreate o ::
              replicate polls (CallGet (kindOf o) (nameOf o))))
      with (o :: omap written (replicate polls (CallGet (kindOf o) (nameOf o)))).
    rewrite written_gets. done.
  - split; [apply prefix_nil|]. intros H. destruct (Hok H) as [_ Hget]. by destruct (Hget e).
Qed.

Lemma runAll_writes (c : Client) (ctx : Context) (objs : list Object) (sent : list Call) :
  ∃ new, (runAll (applyObject c ctx <$> objs) sent).2 = sent ++ new ∧
         identity <$> omap written new `prefix_of` identity <$> objs ∧
         ((runAll (applyObject c ctx <$> objs) sent).1 = Ok tt →
          identity <$> omap written new = identity <$> objs).
Proof.
  revert sent. induction objs as [|o objs IH]; intros sent.
  - exists []. cbn. by rewrite app_nil_r.
  - cbn [fmap list_fmap runAll].
    destruct (applyObject_writes c ctx o sent) as (new & Hsent & Hpre & Hok).
    destruct (applyObject c ctx o sent) as [r sent1]. cbn [fst snd] in *. subst sent1.
    destruct r as [[]|e|p].
    + destruct (IH (sent ++ new)) as (new' & Hsent' & Hpre' & Hok').
      exists (new ++ new'). rewrite Hsent', <- app_assoc. split; [done|].
      rewrite omap_app, fmap_app, (Hok eq_refl). split.
      * by apply prefix_cons.
      * intros H. by rewrite (Hok' H).
    + exists new. split; [done|]. split; [|done].
      etrans; [exact Hpre|]. by exists (identity <$> objs).
    + exists new. split; [done|]. split; [|done].
      etrans; [exact Hpre|]. by exists (identity <$> objs).
Qed.

(** X17. The objects of a manifest are written in the order CRDs, mutating
    webhook configurations, validating webhook configurations, each group in
    the order of the manifest: whatever the server answers, the objects
    created or updated are a prefix of that order, and all of it when the
    call returns no error. *)
Theorem createManifestObjects_writes_in_order
    (connect : Connect) (fsys : Files) (ctx : Context)
    (manifestPath kubeConfig : string) (pki : providerPKI) (u : providerURL)
    (sent : list Call) (c : Client) (objs : manifestObjects) :
  connect kubeConfig = Ok c →
  readAndAdaptManifestObjects fsys manifestPath pki u = Ok objs →
  ∃ new,
    (createManifestObjects connect fsys ctx manifestPath kubeConfig pki u sent).2
      = sent ++ new ∧
    identity <$> omap written new `prefix_of` identity <$> objectsOf objs ∧
    ((createManifestObjects connect fsys ctx manifestPath kubeConfig pki u sent).1 = Ok tt →
     identity <$> omap written new = identity <$> objectsOf objs).
Proof.
  intros Hc Hobjs. unfold createManifestObjects. rewrite Hc, Hobjs.
  replace (((λ crd, applyObject c ctx (OCRD crd)) <$> crds objs) ++
           ((λ hook, applyObject c ctx (OMutating hook)) <$> mutHooks objs) ++
           ((λ hook, applyObject c ctx (OValidating hook)) <$> valHooks objs))
    with (applyObject c ctx <$> objectsOf objs).
  - apply runAll_writes.
  - unfold objectsOf. by rewrite !fmap_app, <- !list_fmap_compose.
Qed.


Lemma createManifestObjects_writes_witness :
  identity <$> omap written
    (createManifestObjects connect0 (manifest supported) ctx0 manifestPath0 home pki0 url0 []).2
  = [(KCRD, "machines.cluster.x-k8s.io");
     (KMutating, "capi-mutating-webhook-configuration")].
Proof.
  destruct (readAndAdaptManifestObjects (manifest supported) manifestPath0 pki0 url0)
    as [objs| |] eqn:Hobjs; [|by vm_compute in Hobjs..].
  destruct (createManifestObjects_writes_in_order connect0 (manifest supported) ctx0
              manifestPath0 home pki0 url0 [] client0 objs eq_refl Hobjs)
    as (new & Hnew & _ & Hall).
  rewrite Hnew. cbn [app]. rewrite Hall by (vm_compute; reflexivity).
  vm_compute in Hobjs. injection Hobjs as <-. reflexivity.
Defined.

Lemma list_ascii_app (a b : string) :
  String.list_ascii_of_string (a +:+ b)
    = String.list_ascii_of_string a ++ String.list_ascii_of_string b.
Proof.
  induction a as [|c a IH]; [done|].
  change (String c a +:+ b) with (String c (a +:+ b)). cbn. by rewrite IH.
Qed.

Lemma lastElement_app (l rest : list ascii) :
  "/"%char ∉ l → Go.lastElement (l ++ "/"%char :: rest) = l.
Proof.
  induction l as [|c l IH]; intros Hl; cbn.
  - done.
  - rewrite decide_False by (intros ->; apply Hl; by left).
    rewrite IH; [done|]. intros H. apply Hl. by right.
Qed.

Lemma dropTrailingSlashes_id (l : list ascii) (c : ascii) :
  c ≠ "/"%char → Go.dropTrailingSlashes (c :: l) = c :: l.
Proof.
  intros Hc. destruct c as [[] [] [] [] [] [] [] []]; try done.
Qed.

Lemma Base_of_joined (dir e : string) :
  e ≠ "" → noSlash e → Go.Base (dir +:+ "/" +:+ e) = e.
Proof.
  intros He Hs. unfold Go.Base.
  rewrite decide_False; cycle 1.
  { destruct dir; [|done]. done. }
  rewrite !list_ascii_app. cbn [String.list_ascii_of_string].
  rewrite reverse_app. cbn [app]. rewrite reverse_cons.
  set (le := String.list_ascii_of_string e) in *.
  assert (le ≠ []) as Hle.
  { unfold le. destruct e; [done|]. done. }
  destruct (reverse le) as [|c rl] eqn:Hrev.
  { apply (f_equal reverse) in Hrev. by rewrite reverse_involutive in Hrev. }
  assert ("/"%char ∉ c :: rl) as Hno.
  { rewrite <- Hrev. unfold noSlash in Hs. by rewrite elem_of_reverse. }
  rewrite <- app_assoc. cbn [app].
  rewrite dropTrailingSlashes_id by (intros ->; apply Hno; by left).
  change (c :: rl ++ "/"%char :: reverse (String.list_ascii_of_string dir))
    with ((c :: rl) ++ "/"%char :: reverse (String.list_ascii_of_string dir)).
  rewrite lastElement_app by done.
  rewrite <- Hrev, reverse_involutive. unfold le.
  rewrite String.string_of_list_ascii_of_string.
  by rewrite decide_False.
Qed.

Lemma CutPrefix_app (prefix s : string) : Go.CutPrefix (prefix +:+ s) prefix = Some s.
Proof.
  induction prefix as [|c prefix IH]; [by destruct s|].
  change (String c prefix +:+ s) with (String c (prefix +:+ s)). cbn.
  by rewrite decide_True.
Qed.

Lemma Name_of_joined {uc : Go.Unicode} (dir x : string) (args : list string)
    (ps : option Sys.ProcessState) (logFile logFileWriter : option string) :
  noSlash x →
  Name (mkProvider (dir +:+ "/" +:+ "bootstrap-" +:+ x) args ps logFile logFileWriter)
    = Go.ToUpper x.
Proof.
  intros Hx. unfold Name. cbn [PackagePath].
  rewrite Base_of_joined.
  - unfold Go.TrimPrefix. by rewrite CutPrefix_app.
  - done.
  - unfold noSlash in *. rewrite list_ascii_app.
    rewrite elem_of_app. intros [H|H]; [|done].
    vm_compute in H. repeat (apply elem_of_cons in H as [H|H]; [discriminate H|]).
    by apply elem_of_nil in H.
Qed.

(** X18. The name of a provider whose package directory is [bootstrap-x]
    is [strings.ToUpper] of [x], wherever the directory lies: when [x] is
    ASCII, its bytes with the letters a-z in upper case, whatever the case
    tables of unicode hold; when it is not, what [strings.Map] makes of [x]
    with [unicode.ToUpper]. *)
Theorem Name_of_bootstrap_package {uc : Go.Unicode} (dir x : string) (args : list string)
    (ps : option Sys.ProcessState) (logFile logFileWriter : option string) :
  noSlash x →
  Name (mkProvider (dir +:+ "/" +:+ "bootstrap-" +:+ x) args ps logFile logFileWriter)
    = Go.ToUpper x ∧
  (Go.isASCII x = true →
   Name (mkProvider (dir +:+ "/" +:+ "bootstrap-" +:+ x) args ps logFile logFileWriter)
     = Go.mapBytes Go.upper x) ∧
  (Go.isASCII x = false →
   Name (mkProvider (dir +:+ "/" +:+ "bootstrap-" +:+ x) args ps logFile logFileWriter)
     = Go.MapToUpper x).
Proof.
  intros Hx. rewrite Name_of_joined by done. unfold Go.ToUpper.
  split_and!; [done|by intros ->..].
Qed.

Lemma Name_witness :
  Name (uc:=unicode0) (Main.provider "./test/packages/bootstrap-capi"
          ["--feature-gates=MachinePool=true,ClusterResourceSet=true,ClusterTopology=true"])
    = "CAPI".
Proof.
  assert (noSlash "capi") as Hx.
  { unfold noSlash. cbn. intros H.
    repeat (apply elem_of_cons in H as [H|H]; [discriminate H|]).
    by apply elem_of_nil in H. }
  destruct (Name_of_bootstrap_package (uc:=unicode0) "./test/packages" "capi"
              ["--feature-gates=MachinePool=true,ClusterResourceSet=true,ClusterTopology=true"]
              None None None Hx) as (_ & H & _).
  exact (H eq_refl).
Defined.

End ApplyFacts.

(** * Properties of the start of a provider *)

Module ProviderStartFacts.
Import Sys Provider ProviderSpec ProviderStart Scenario Scenarios.

(** X27. [setupPKI] of the provider: when it returns a PKI, the directory
    is [ca] under the local path and was made, the serving certificate was
    issued for localhost and the webhook host and written with its key to
    tls.crt and tls.key of that directory, and [caData] is that serving
    certificate (not the certificate of the CA that issued it); every error
    it returns starts with "unable to ". *)
Theorem setupPKI_serving_pair (os : OS) (certs : Certs) (localPath : string)
    (u : providerURL) (w : World) :
  (∀ pki w',
     setupPKI os certs localPath u w = (Ok pki, w') →
     dir pki = Go.Join [localPath; "ca"] ∧
     events w' = events w ++ [EvMkdirAll (dir pki)] ∧
     MkdirAll os (dir pki) = None ∧
     ∃ hookCA keyData,
       NewTinyCA certs = Ok hookCA ∧
       NewServingCert hookCA ["localhost"; host u]
         = Kubeconfig.IssuedPair (caData pki) keyData ∧
       WriteFile certs (Go.Join [dir pki; "tls.crt"]) (caData pki) = None ∧
       WriteFile certs (Go.Join [dir pki; "tls.key"]) keyData = None) ∧
  (∀ e w',
     setupPKI os certs localPath u w = (Err e, w') →
     String.prefix "unable to " e = true).
Proof.
  unfold setupPKI, bind, wrap, mkdirAll, emit, answer, check, bind, ret, throw.
  cbn -[Go.Join]. split.
  - intros pki w'.
    repeat (oracle; cbn -[Go.Join]); intros H; try discriminate H; injection H as <- <-;
      cbn -[Go.Join]. split_and!; try done. by eexists _, _.
  - intros e w'.
    repeat (oracle; cbn -[Go.Join]); intros H; try discriminate H; injection H as <- <-;
      reflexivity.
Qed.

Lemma setupPKI_witness :
  ∃ pki w' hookCA,
    setupPKI os_ok certs0 "/work/.tmp/provider/capi" url0 world0 = (Ok pki, w') ∧
    NewTinyCA certs0 = Ok hookCA ∧ CACertBytes hookCA = [x05] ∧ caData pki = [x06].
Proof.
  destruct (setupPKI os_ok certs0 "/work/.tmp/provider/capi" url0 world0)
    as [[pki| |] w'] eqn:H; [|by vm_compute in H..].
  destruct (setupPKI_serving_pair os_ok certs0 "/work/.tmp/provider/capi" url0 world0)
    as [Hok _].
  destruct (Hok pki w' H) as (_ & _ & _ & hookCA & keyData & Hca & Hcert & _).
  exists pki, w', hookCA. split; [reflexivity|]. split; [exact Hca|].
  vm_compute in H. injection H as <- _.
  vm_compute in Hca. injection Hca as <-. split; reflexivity.
Defined.

Lemma createManifestObjects_unsupported
    (connect : Connect) (fsys : Files) (ctx : Context)
    (manifestPath kubeConfig : string) (pki : providerPKI) (u : providerURL)
    (docs : list Doc) (sent : list Call) :
  readDocuments fsys manifestPath = Ok docs →
  (∃ doc, doc ∈ docs ∧ unsupportedFragment doc) →
  ∃ r, createManifestObjects connect fsys ctx manifestPath kubeConfig pki u sent = (r, sent) ∧
       r ≠ Ok tt.
Proof.
  intros Hread Hbad. unfold createManifestObjects, readAndAdaptManifestObjects.
  rewrite Hread.
  destruct (ProviderFacts.classify_unsupported docs (mkObjects [] [] []) Hbad) as [e ->].
  destruct (connect kubeConfig); by eexists.
Qed.

(** X19. A manifest with a fragment of an unsupported API version stops
    [Provider.Start] before the process state exists: the call fails, the
    process state of the provider is what it was, no request has reached
    the API server, and the manager was neither initialised nor started. *)
Theorem Start_never_spawns_on_unsupported_manifest {uc : Go.Unicode}
    (os : OS) (env : Env) (ctx : Context) (kubeConfig : string)
    (p : Provider) (w : World) (sent : list Call) (docs : list Doc) :
  readDocuments (fsys env) (Go.Join [PackagePath p; manifestName]) = Ok docs →
  (∃ doc, doc ∈ docs ∧ unsupportedFragment doc) →
  ∃ r p' w' tr,
    Start os env ctx kubeConfig (p, (w, sent)) = (r, (p', (w', sent))) ∧
    r ≠ Ok tt ∧
    processState p' = processState p ∧
    events w' = events w ++ tr ∧
    (EvInit CProvider ∉ tr) ∧ (EvStart CProvider ∉ tr).
Proof.
  intros Hread Hbad.
  pose proof (λ pki u, createManifestObjects_unsupported (connect env) (fsys env) ctx
                         _ kubeConfig pki u docs sent Hread Hbad) as Hm.
  unfold Start, setProcessState, setupPKI, bind, wrap, onSys, onAPI, update, receiver,
    getwd, mkdirAll, suggest, init, start, emit, answer, check, ret, throw, panic, bind.
  cbn -[createManifestObjects Go.Join Name].
  repeat (first
    [ match goal with
      | |- context [createManifestObjects _ _ _ _ _ ?pki ?u _] =>
          destruct (Hm pki u) as (r0 & -> & Hne); destruct r0 as [[]| |]; [done| |]
      end
    | oracle ]; cbn -[createManifestObjects Go.Join Name]).
  all: eexists _, _, _, _; (split; [reflexivity|]); cbn -[Go.Join Name].
  all: (split; [done|]); (split; [done|]).
  all: rewrite <- ?app_assoc.
  all: (split; [first [reflexivity | symmetry; apply app_nil_r]|]).
  all: cbn -[Go.Join Name].
  all: split; intros Hin; repeat (apply elem_of_cons in Hin as [Hin|Hin]; [discriminate Hin|]);
    by apply elem_of_nil in Hin.
Qed.

Lemma Start_unsupported_witness :
  ∃ r p' w',
    Start (uc:=unicode0) os_ok envUnsupported ctx0 home (capi0, (world0, []))
      = (r, (p', (w', []))) ∧
    r ≠ Ok tt ∧ processState p' = None.
Proof.
  destruct (Start_never_spawns_on_unsupported_manifest (uc:=unicode0) os_ok envUnsupported ctx0 home
              capi0 world0 [] unsupportedDocs)
    as (r & p' & w' & tr & H & Hne & Hps & _).
  - vm_compute. reflexivity.
  - exists (mutatingDoc "admissionregistration.k8s.io/v1beta1" mutating0). split.
    + apply elem_of_cons. right. apply elem_of_cons. by left.
    + eexists. split; [reflexivity|]. right; left. split; [reflexivity|]. cbn. discriminate.
  - exists r, p', w'. split; [exact H|]. split; [exact Hne|exact Hps].
Defined.

Lemma poll_isReady (env : Env) (ps : ProcessState) (fuel k : nat) :
  ((∃ n, n ≤ fuel ∧ Ready env ps (k + n) = true) ∧
   (poll fuel (isReady env ps) k).1 = Ok tt) ∨
  ((∀ n, n ≤ fuel → Ready env ps (k + n) = false) ∧
   (poll fuel (isReady env ps) k).1 = Err "timed out waiting for the condition").
Proof.
  revert k. induction fuel as [|fuel IH]; intros k; cbn; unfold bind, isReady; cbn.
  - destruct (Ready env ps k) eqn:Hk; cbn.
    + left. split; [|done]. exists 0. by rewrite Nat.add_0_r.
    + right. split; [|done]. intros n Hn. by replace n with 0 by lia; rewrite Nat.add_0_r.
  - destruct (Ready env ps k) eqn:Hk; cbn.
    + left. split; [|done]. exists 0. split; [lia|]. by rewrite Nat.add_0_r.
    + destruct (IH (S k)) as [[(n & Hn & Hr) Hp]|[Hall Hp]].
      * left. split; [|done]. exists (S n). split; [lia|].
        by replace (k + S n) with (S k + n) by lia.
      * right. split; [|done]. intros [|n] Hn; [by rewrite Nat.add_0_r|].
        replace (k + S n) with (S k + n) by lia. apply Hall. lia.
Qed.

(** X20. After a [Provider.Start] that returns no error, the provider has
    a process state for the manager binary of its package, whose arguments
    are the arguments of the provider followed by the kubeconfig, the
    certificate directory, the two ports and the metrics address; its
    health check is /healthz; it was initialised and started, in this order
    and after everything else, and it answered ready at one of the polls
    that the context allows; the log file is open and the writer is on it. *)
Theorem Provider_Start_ok_state {uc : Go.Unicode}
    (os : OS) (env : Env) (ctx : Context) (kubeConfig : string)
    (p p' : Provider) (w w' : World) (sent sent' : list Call) :
  Start os env ctx kubeConfig (p, (w, sent)) = (Ok tt, (p', (w', sent'))) →
  PackagePath p' = PackagePath p ∧ Args p' = Args p ∧
  is_Some (logFile p') ∧ logFileWriter p' = logFile p' ∧
  ∃ ps certDir webhookPort healthPort,
    processState p' = Some ps ∧
    ps_Path ps = Go.Join [PackagePath p; binaryName] ∧
    ps_Args ps = Args p ++
      [ "--kubeconfig=" +:+ kubeConfig;
        "--webhook-cert-dir=" +:+ certDir;
        "--webhook-port=" +:+ Go.Itoa webhookPort;
        "--health-addr=:" +:+ Go.Itoa healthPort;
        "--metrics-bind-addr=0" ] ∧
    ps_HealthCheckPath ps = "/healthz" ∧
    process_Init os ps = None ∧ process_Start os ps = None ∧
    (∃ n, n ≤ intervals ctx ∧ Ready env ps n = true) ∧
    ∃ tr, events w' = events w ++ tr ++ [EvInit CProvider; EvStart CProvider].
Proof.
  unfold Start, setProcessState, setupPKI, bind, wrap, onSys, onAPI, update, receiver,
    getwd, mkdirAll, suggest, init, start, emit, answer, check, ret, throw, panic, bind,
    PollImmediateInfiniteWithContext.
  cbn -[createManifestObjects Go.Join Name poll].
  repeat (first
    [ match goal with
      | |- context [poll ?f (isReady ?e ?ps) ?k] =>
          destruct (poll_isReady e ps f k) as [[Hex ->]|[_ ->]]
      end
    | oracle ]; cbn -[createManifestObjects Go.Join Name poll]);
    intros H; try discriminate H; inversion H; subst; clear H;
    cbn -[Go.Join Name].
  split_and!; try done.
  eexists _, _, _, _; split_and!; try done.
  rewrite <- !app_assoc. by eexists [_; _; _; _; _].
Qed.

Lemma Provider_Start_ok_state_witness :
  Start (uc:=unicode0) os_ok env0 ctx0 home (capi0, (world0, []))
    = (Ok tt, providerStarted0) ∧
  ∃ ps, processState providerStarted0.1 = Some ps ∧
        ps_Path ps = "test/packages/bootstrap-capi/manager" ∧
        ps_Args ps = ["--v=2"; "--kubeconfig=/home/user/.kube/config";
                      "--webhook-cert-dir=/work/.tmp/provider/capi/ca";
                      "--webhook-port=6000"; "--health-addr=:6001";
                      "--metrics-bind-addr=0"].
Proof.
  assert (Start (uc:=unicode0) os_ok env0 ctx0 home (capi0, (world0, []))
          = (Ok tt, (providerStarted0.1, (providerStarted0.2.1, providerStarted0.2.2)))) as H
    by (vm_compute; reflexivity).
  split; [exact H|].
  destruct (Provider_Start_ok_state _ _ _ _ _ _ _ _ _ _ H)
    as (_ & _ & _ & _ & ps & certDir & webhookPort & healthPort & Hps & _).
  exists ps. split; [exact Hps|].
  vm_compute in Hps. injection Hps as <-. split; reflexivity.
Defined.

(** The log file of a started provider. *)
Lemma Start_ok_log {uc : Go.Unicode}
    (os : OS) (env : Env) (ctx : Context) (kubeConfig : string)
    (p p' : Provider) (w w' : World) (sent sent' : list Call) :
  Start os env ctx kubeConfig (p, (w, sent)) = (Ok tt, (p', (w', sent'))) →
  ∃ currentDir,
    Getwd os = Ok currentDir ∧
    logFile p' =
      Some (Go.Join [Go.Join [currentDir; ".tmp"; "provider"; Go.ToLower (Name p)];
                     "manager.log"]) ∧
    logFileWriter p' = logFile p'.
Proof.
  unfold Start, setProcessState, setupPKI, bind, wrap, onSys, onAPI, update, receiver,
    getwd, mkdirAll, suggest, init, start, emit, answer, check, ret, throw, panic, bind,
    PollImmediateInfiniteWithContext.
  cbn -[createManifestObjects Go.Join Name poll].
  repeat (oracle; cbn -[createManifestObjects Go.Join Name poll]);
    intros H; try discriminate H; inversion H; subst; clear H;
    cbn -[Go.Join Name].
  by eexists.
Qed.

(** X21. A manager that was started and does not become ready while the
    context lasts: [Provider.Start] returns the error of the poll, wrapped
    with the package path, and leaves the process running, for it was
    started and nothing of [Start] stops it. *)
Theorem Start_times_out {uc : Go.Unicode}
    (os : OS) (env : Env) (ctx : Context) (kubeConfig : string)
    (p p' : Provider) (w w' : World) (sent sent' : list Call) (r : Outcome unit)
    (ps : ProcessState) :
  Start os env ctx kubeConfig (p, (w, sent)) = (r, (p', (w', sent'))) →
  processState p = None →
  processState p' = Some ps →
  process_Init os ps = None → process_Start os ps = None →
  (∀ n, n ≤ intervals ctx → Ready env ps n = false) →
  r = Err ("error starting " +:+ PackagePath p +:+ ": timed out waiting for the condition") ∧
  EvStart CProvider ∈ events w' ∧
  (EvStop CProvider ∉ drop (length (events w)) (events w')).
Proof.
  unfold Start, setProcessState, setupPKI, bind, wrap, onSys, onAPI, update, receiver,
    getwd, mkdirAll, suggest, init, start, emit, answer, check, ret, throw, panic, bind,
    PollImmediateInfiniteWithContext.
  cbn -[createManifestObjects Go.Join Name poll].
  repeat (first
    [ match goal with
      | |- context [poll ?f (isReady ?e ?ps) ?k] =>
          destruct (poll_isReady e ps f k) as [[(n & Hn & Hex) ->]|[_ ->]]
      end
    | oracle ]; cbn -[createManifestObjects Go.Join Name poll]);
    intros H; inversion H; subst; clear H; cbn -[Go.Join Name];
    intros HNone HSome; rewrite ?HNone in HSome; try discriminate HSome;
    injection HSome as <-; intros HInit HStart Hready; try congruence.
  all: try (rewrite Hready in Hex; [discriminate Hex|lia]).
  all: split; [done|].
  all: rewrite <- !app_assoc, drop_app_length.
  all: split; [set_solver|].
  all: intros Hin; repeat (apply elem_of_cons in Hin as [Hin|Hin]; [discriminate Hin|]);
    by apply elem_of_nil in Hin.
Qed.

Lemma Start_times_out_witness :
  (Start (uc:=unicode0) os_ok envNever ctx0 home (capi0, (world0, []))).1
    = Err "error starting ./test/packages/bootstrap-capi: timed out waiting for the condition" ∧
  EvStart CProvider ∈ events providerTimedOut0.2.1.
Proof.
  assert (∃ r, Start (uc:=unicode0) os_ok envNever ctx0 home (capi0, (world0, []))
               = (r, (providerTimedOut0.1,
                      (providerTimedOut0.2.1, providerTimedOut0.2.2)))) as [r H]
    by (eexists; vm_compute; reflexivity).
  destruct (processState providerTimedOut0.1) as [ps|] eqn:Hps; [|by vm_compute in Hps].
  destruct (Start_times_out _ _ _ _ _ _ _ _ _ _ _ ps H eq_refl Hps) as (Hr & Hstart & _).
  - reflexivity.
  - reflexivity.
  - intros n _. reflexivity.
  - rewrite H. split; [exact Hr|exact Hstart].
Defined.

(** [Provider.Stop] on a provider whose log file is open. *)
Lemma Stop_with_log (os : OS) (p : Provider) (w : World) (f : string) :
  logFile p = Some f → logFileWriter p = Some f →
  ∃ tr,
    events (Stop os p w).2 = events w ++ tr ∧
    tr `prefix_of` [EvStop CProvider; EvFlush CProvider; EvClose CProvider] ∧
    EvStop CProvider ∈ tr ∧
    (EvFlush CProvider ∈ tr ↔ process_Stop os (processState p) = Ok tt) ∧
    (EvClose CProvider ∈ tr ↔
       process_Stop os (processState p) = Ok tt ∧ Flush os f = None) ∧
    ((Stop os p w).1 = Ok tt ↔
       process_Stop os (processState p) = Ok tt ∧ Flush os f = None ∧ Close os f = None) ∧
    (process_Stop os (processState p) ≠ Ok tt →
       (Stop os p w).1 = process_Stop os (processState p)) ∧
    (∀ e, process_Stop os (processState p) = Ok tt → Flush os f = Some e →
          (Stop os p w).1 = Err e) ∧
    (∀ e, process_Stop os (processState p) = Ok tt → Flush os f = None →
          Close os f = Some e → (Stop os p w).1 = Err e).
Proof.
  intros Hlog Hwriter.
  unfold Stop, bind, stop, flush, close, emit, answer, check, ret, throw.
  rewrite Hwriter, Hlog. cbn.
  destruct (process_Stop os (processState p)) as [[]|e|msg]; cbn;
    [destruct (Flush os f); cbn; [|destruct (Close os f); cbn]|..];
    rewrite <- ?app_assoc; eexists; (split; [reflexivity|]); cbn;
    (split; [repeat first [apply prefix_cons | apply prefix_nil | reflexivity]|]);
    (split; [stage_in|]);
    (split; [split; [first [done | intros H; stage_out H]
                    |first [intros _; stage_in | done]]|]);
    (split; [split; [first [intros _; done | intros H; stage_out H]
                    |first [intros _; stage_in | by intros [? ?]]]|]);
    (split; [split; [first [done | by intros _]
                    |first [done | by intros (? & ? & ?)]]|]);
    split_and!; first [done | by intros ? ? [= <-] | by intros ? ? ? [= <-] | by intros].
Qed.

(** X22. After a [Provider.Start] that returned no error, [Provider.Stop]
    stops the process, then flushes and closes the log file that [Start]
    opened under the working directory, in this order and up to the first
    step that fails: the flush is reached exactly when the process stopped
    without error, the close exactly when the flush too returned no error,
    and [Stop] returns the result of the first step that failed; it returns
    no error exactly when the three of them did. *)
Theorem Stop_after_Start {uc : Go.Unicode}
    (os : OS) (env : Env) (ctx : Context) (kubeConfig : string)
    (p p' : Provider) (w w' : World) (sent sent' : list Call) :
  Start os env ctx kubeConfig (p, (w, sent)) = (Ok tt, (p', (w', sent'))) →
  ∃ currentDir f tr,
    Getwd os = Ok currentDir ∧
    f = Go.Join [Go.Join [currentDir; ".tmp"; "provider"; Go.ToLower (Name p)];
                 "manager.log"] ∧
    logFile p' = Some f ∧
    events (Stop os p' w').2 = events w' ++ tr ∧
    tr `prefix_of` [EvStop CProvider; EvFlush CProvider; EvClose CProvider] ∧
    EvStop CProvider ∈ tr ∧
    (EvFlush CProvider ∈ tr ↔ process_Stop os (processState p') = Ok tt) ∧
    (EvClose CProvider ∈ tr ↔
       process_Stop os (processState p') = Ok tt ∧ Flush os f = None) ∧
    ((Stop os p' w').1 = Ok tt ↔
       process_Stop os (processState p') = Ok tt ∧ Flush os f = None ∧ Close os f = None) ∧
    (process_Stop os (processState p') ≠ Ok tt →
       (Stop os p' w').1 = process_Stop os (processState p')) ∧
    (∀ e, process_Stop os (processState p') = Ok tt → Flush os f = Some e →
          (Stop os p' w').1 = Err e) ∧
    (∀ e, process_Stop os (processState p') = Ok tt → Flush os f = None →
          Close os f = Some e → (Stop os p' w').1 = Err e).
Proof.
  intros (currentDir & Hwd & Hlog & Hwriter)%Start_ok_log.
  rewrite Hlog in Hwriter.
  destruct (Stop_with_log os p' w' _ Hlog Hwriter) as (tr & Htr & Hrest).
  exists currentDir. eexists _, tr. split; [exact Hwd|]. split; [reflexivity|].
  split; [exact Hlog|]. split; [exact Htr|]. exact Hrest.
Qed.

Lemma Stop_after_Start_witness :
  Start (uc:=unicode0) os_ok env0 ctx0 home (capi0, (world0, []))
    = (Ok tt, providerStarted0) ∧
  logFile providerStarted0.1 = Some "/work/.tmp/provider/capi/manager.log" ∧
  events (Stop os_ok providerStarted0.1 providerStarted0.2.1).2
    = events providerStarted0.2.1 ++ [EvStop CProvider; EvFlush CProvider; EvClose CProvider].
Proof.
  assert (Start (uc:=unicode0) os_ok env0 ctx0 home (capi0, (world0, []))
          = (Ok tt, (providerStarted0.1, (providerStarted0.2.1, providerStarted0.2.2)))) as H
    by (vm_compute; reflexivity).
  split; [exact H|]. split; [reflexivity|].
  destruct (Stop_after_Start _ _ _ _ _ _ _ _ _ _ H)
    as (currentDir & f & tr & _ & _ & _ & Htr & _).
  pose proof Htr as Htr'. vm_compute in Htr'. injection Htr' as <-. exact Htr.
Defined.

End ProviderStartFacts.

(** * More properties of the goroutines of main *)

Module WaitGroupFacts.
Import Main WaitGroupSpec Scenario Scenarios.

Lemma pendingCount_cons (g : Goroutine) (gs : list Goroutine) :
  pendingCount (g :: gs) = pending g + pendingCount gs.
Proof. done. Qed.

Lemma pendingCount_insert (gs : list Goroutine) (i : nat) (g g' : Goroutine) :
  gs !! i = Some g →
  pendingCount (<[i := g']> gs) + pending g = pendingCount gs + pending g'.
Proof.
  revert i. induction gs as [|x gs IH]; intros [|i] H; try done.
  - injection H as ->. change (<[0:=g']> (g :: gs)) with (g' :: gs).
    rewrite !pendingCount_cons. lia.
  - change (<[S i:=g']> (x :: gs)) with (x :: <[i:=g']> gs).
    rewrite !pendingCount_cons. specialize (IH i H). lia.
Qed.

Lemma stepGoroutine_pending {uc : Go.Unicode} startErr (g g' : Goroutine) (m m' : Memory) :
  stepGoroutine startErr g m = Some (g', m') →
  p g' = p g ∧ (wg m' + Z.of_nat (pending g) = wg m + Z.of_nat (pending g'))%Z.
Proof.
  unfold stepGoroutine, pending.
  destruct (pc g) as [| |s|s| | |e] eqn:Hpc.
  - destruct (startErr (p g)); intros [= <- <-]; cbn; split; [done|lia| done|lia].
  - intros [= <- <-]. cbn. split; [done|lia].
  - destruct (appendTo m s _) as [m1 s1] eqn:Ha. intros [= <- <-]. cbn.
    split; [done|]. unfold appendTo in Ha. case_decide; injection Ha as <- <-; cbn; lia.
  - intros [= <- <-]. cbn. split; [done|lia].
  - intros [= <- <-]. cbn. split; [done|lia].
  - done.
  - done.
Qed.

Lemma step_invariant {uc : Go.Unicode} startErr (i : nat) (st st' : State) :
  step startErr i st = Some st' →
  wg (mem st) = Z.of_nat (pendingCount (goroutines st)) →
  wg (mem st') = Z.of_nat (pendingCount (goroutines st')) ∧
  p <$> goroutines st' = p <$> goroutines st.
Proof.
  unfold step. intros H Hinv.
  destruct (goroutines st !! i) as [g|] eqn:Hg; [|done]. cbn in H.
  destruct (stepGoroutine startErr g (mem st)) as [[g' m']|] eqn:Hs; [|done].
  cbn in H. injection H as <-. cbn [mem goroutines].
  apply stepGoroutine_pending in Hs as [Hp Hwg].
  pose proof (pendingCount_insert _ _ _ g' Hg) as Hc. split; [lia|].
  rewrite list_fmap_insert, Hp. apply list_insert_id. by rewrite list_lookup_fmap, Hg.
Qed.

Lemma run_invariant {uc : Go.Unicode} startErr (schedule : list nat) (st st' : State) :
  run startErr schedule st = Some st' →
  wg (mem st) = Z.of_nat (pendingCount (goroutines st)) →
  wg (mem st') = Z.of_nat (pendingCount (goroutines st')) ∧
  p <$> goroutines st' = p <$> goroutines st.
Proof.
  revert st. induction schedule as [|i schedule IH]; intros st; cbn [run].
  - by intros [= <-].
  - destruct (step startErr i st) as [st1|] eqn:Hs; [|done]. cbn. intros Hrun Hinv.
    destruct (step_invariant _ _ _ _ Hs Hinv) as [Hinv1 Hp1].
    destruct (IH _ Hrun Hinv1) as [Hinv' Hp']. split; [done|]. by rewrite Hp'.
Qed.

Lemma spawn_invariant (ps : list Provider.Provider) :
  wg (mem (spawn ps)) = Z.of_nat (pendingCount (goroutines (spawn ps))).
Proof.
  unfold spawn. cbn [mem wg goroutines]. f_equal.
  induction ps as [|x ps IH]; [done|].
  rewrite fmap_cons, pendingCount_cons, <- IH. done.
Qed.

Lemma pendingCount_zero (gs : list Goroutine) :
  pendingCount gs = 0 ↔ Forall (λ g, pc g = Finished) gs.
Proof.
  induction gs as [|g gs IH]; [done|].
  rewrite pendingCount_cons, Forall_cons, <- IH. unfold pending.
  destruct (pc g); split; try lia; try (by intros [? ?]); try (intros [_ H]; lia); tauto.
Qed.

(** X23. Under every schedule, [wg.Wait()] returns exactly when every goroutine
    has run to its end. *)
Theorem Wait_returns_when_all_finished {uc : Go.Unicode} startErr (ps : list Provider.Provider)
    (schedule : list nat) (st : State) :
  run startErr schedule (spawn ps) = Some st →
  (waited st = true ↔ Forall (λ g, pc g = Finished) (goroutines st)).
Proof.
  intros Hrun. destruct (run_invariant _ _ _ _ Hrun (spawn_invariant ps)) as [Hinv _].
  unfold waited. rewrite bool_decide_eq_true, Hinv, <- pendingCount_zero. lia.
Qed.

Lemma Wait_returns_witness :
  ∃ st, run (uc:=unicode0) (λ _, None) (allReadFirst 4) (spawn providers) = Some st ∧
        waited st = true ∧
        Forall (λ g, pc g = Finished) (goroutines st).
Proof.
  destruct (run (uc:=unicode0) (λ _, None) (allReadFirst 4) (spawn providers))
    as [st|] eqn:H;
    [|by vm_compute in H].
  exists st. split; [reflexivity|].
  pose proof (Wait_returns_when_all_finished _ _ _ _ H) as Hw.
  assert (waited st = true) as Ht.
  { vm_compute in H. injection H as <-. vm_compute. reflexivity. }
  split; [exact Ht|]. apply Hw. exact Ht.
Defined.

Lemma step_failing {uc : Go.Unicode} startErr (i : nat) (st st' : State) :
  step startErr i st = Some st' →
  Forall (λ g, is_Some (startErr (p g)) → stuck g) (goroutines st) →
  Forall (λ g, is_Some (startErr (p g)) → stuck g) (goroutines st').
Proof.
  unfold step. intros H Hinv.
  destruct (goroutines st !! i) as [g|] eqn:Hg; [|done]. cbn in H.
  destruct (stepGoroutine startErr g (mem st)) as [[g' m']|] eqn:Hs; [|done].
  cbn in H. injection H as <-. cbn [goroutines].
  apply Forall_insert; [done|]. intros Hfail.
  pose proof (stepGoroutine_pending _ _ _ _ _ Hs) as [Hp _]. rewrite Hp in Hfail.
  rewrite Forall_lookup in Hinv. specialize (Hinv i g Hg Hfail).
  revert Hs. unfold stepGoroutine, stuck in *.
  destruct Hinv as [->|[err ->]]; [|done].
  destruct Hfail as [err Herr]. rewrite Herr. intros [= <- <-]. right. by eexists.
Qed.

Lemma run_failing {uc : Go.Unicode} startErr (schedule : list nat) (st st' : State) :
  run startErr schedule st = Some st' →
  Forall (λ g, is_Some (startErr (p g)) → stuck g) (goroutines st) →
  Forall (λ g, is_Some (startErr (p g)) → stuck g) (goroutines st').
Proof.
  revert st. induction schedule as [|i schedule IH]; intros st; cbn [run].
  - by intros [= <-].
  - destruct (step startErr i st) as [st1|] eqn:Hs; [|done]. cbn. intros Hrun Hinv.
    apply (IH _ Hrun). by eapply step_failing.
Qed.

(** X24. When [Start] fails for one of the providers, no schedule lets
    [wg.Wait()] return: the goroutine of that provider panics before its
    [wg.Done()], and main never gets to report the providers ready. *)
Theorem Wait_never_returns_after_a_failed_Start {uc : Go.Unicode} startErr (ps : list Provider.Provider)
    (failing : Provider.Provider) (schedule : list nat) (st : State) :
  failing ∈ ps → is_Some (startErr failing) →
  run startErr schedule (spawn ps) = Some st →
  waited st = false.
Proof.
  intros Hin Hfail Hrun.
  destruct (run_invariant _ _ _ _ Hrun (spawn_invariant ps)) as [Hinv Hps].
  assert (Forall (λ g, is_Some (startErr (p g)) → stuck g) (goroutines st)) as Hstuck.
  { apply (run_failing _ _ _ _ Hrun). unfold spawn. cbn [goroutines].
    apply Forall_fmap, Forall_forall. intros x _ _. by left. }
  assert (p <$> goroutines (spawn ps) = ps) as Hspawn.
  { unfold spawn. cbn [goroutines]. rewrite <- list_fmap_compose. apply list_fmap_id. }
  rewrite Hspawn in Hps.
  assert (∃ g, g ∈ goroutines st ∧ p g = failing) as (g & Hg & Hpg).
  { rewrite <- Hps in Hin. apply list_elem_of_fmap in Hin as (g & -> & Hg). by exists g. }
  apply bool_decide_eq_false. rewrite Hinv. intros Hzero.
  assert (pendingCount (goroutines st) = 0) as Hz by lia.
  apply pendingCount_zero in Hz. rewrite Forall_forall in Hz, Hstuck.
  specialize (Hz g Hg). rewrite <- Hpg in Hfail.
  destruct (Hstuck g Hg Hfail) as [H|[err H]]; congruence.
Qed.

Lemma Wait_never_returns_witness :
  ∃ st, run (uc:=unicode0) startErrKcp scheduleKcp (spawn providers) = Some st ∧
        waited st = false.
Proof.
  destruct (run (uc:=unicode0) startErrKcp scheduleKcp (spawn providers)) as [st|] eqn:H;
    [|by vm_compute in H].
  exists st. split; [reflexivity|].
  apply (Wait_never_returns_after_a_failed_Start (uc:=unicode0) startErrKcp providers
           (provider "./test/packages/bootstrap-kcp" ["--feature-gates=ClusterTopology=true"])
           scheduleKcp st).
  - apply elem_of_cons. right. apply elem_of_cons. right. apply elem_of_cons. by left.
  - by eexists.
  - exact H.
Defined.

Lemma run_app {uc : Go.Unicode} startErr (s1 s2 : list nat) (st : State) :
  run startErr (s1 ++ s2) st = run startErr s1 st ≫= run startErr s2.
Proof.
  revert st. induction s1 as [|i s1 IH]; intros st; [done|].
  cbn [app run]. destruct (step startErr i st) as [st1|]; [|done]. cbn. apply IH.
Qed.

Lemma insert_middle {A} (l1 l2 : list A) (x y : A) :
  <[length l1 := y]> (l1 ++ x :: l2) = l1 ++ y :: l2.
Proof.
  rewrite insert_app_r_alt by lia. by rewrite Nat.sub_diag.
Qed.

Lemma step_middle {uc : Go.Unicode} startErr (l1 l2 : list Goroutine) (g g' : Goroutine) (m m' : Memory) :
  stepGoroutine startErr g m = Some (g', m') →
  step startErr (length l1) (mkState m (l1 ++ g :: l2)) = Some (mkState m' (l1 ++ g' :: l2)).
Proof.
  intros H. unfold step. cbn [goroutines mem].
  rewrite list_lookup_middle by done. cbn. rewrite H. cbn.
  by rewrite insert_middle.
Qed.

Lemma one_goroutine {uc : Go.Unicode} (startErr : Provider.Provider → option string)
    (l1 l2 : list Goroutine) (pk : Provider.Provider)
    (array : list string) (k n : nat) (counter : Z) :
  startErr pk = None → k < n →
  run startErr (replicate 5 (length l1))
    (mkState (mkMemory {[ 0 := array ]} (mkSlice 0 k n) counter)
             (l1 ++ mkGoroutine pk Spawned :: l2))
  = Some (mkState (mkMemory {[ 0 := <[k := Provider.Name pk]> array ]}
                            (mkSlice 0 (S k) n) (counter - 1))
                  (l1 ++ mkGoroutine pk Finished :: l2)).
Proof.
  intros Hstart Hk. cbn [replicate run].
  erewrite step_middle; cycle 1.
  { unfold stepGoroutine. cbn [pc p]. rewrite Hstart. reflexivity. }
  cbn [mbind option_bind].
  erewrite step_middle; cycle 1.
  { unfold stepGoroutine. cbn [pc p names]. reflexivity. }
  cbn [mbind option_bind].
  erewrite step_middle; cycle 1.
  { unfold stepGoroutine, appendTo. cbn [pc p ptr len cap arrays names wg].
    rewrite decide_True by lia. rewrite lookup_singleton_eq. cbn [default].
    rewrite insert_singleton_eq. reflexivity. }
  cbn [mbind option_bind].
  erewrite step_middle; cycle 1.
  { unfold stepGoroutine. cbn [pc p arrays names wg]. reflexivity. }
  cbn [mbind option_bind].
  erewrite step_middle; cycle 1.
  { unfold stepGoroutine. cbn [pc p arrays names wg]. reflexivity. }
  reflexivity.
Qed.

Lemma afterFirst_next {uc : Go.Unicode} startErr (ps : list Provider.Provider) (k : nat)
    (pk : Provider.Provider) :
  ps !! k = Some pk → startErr pk = None →
  run startErr (replicate 5 k) (afterFirst k ps) = Some (afterFirst (S k) ps).
Proof.
  intros Hk Hstart. pose proof (lookup_lt_Some _ _ _ Hk) as Hlt.
  unfold afterFirst. rewrite (drop_S _ _ _ Hk), (take_S_r _ _ _ Hk). cbn [fmap list_fmap].
  assert (length ((λ p, mkGoroutine p Finished) <$> take k ps) = k) as Hlen.
  { rewrite length_fmap, length_take. lia. }
  rewrite <- Hlen at 1.
  rewrite one_goroutine by done. f_equal. rewrite !fmap_app. cbn [fmap list_fmap].
  rewrite <- !app_assoc. cbn [app]. f_equal. f_equal.
  - f_equal. rewrite insert_app_r_alt by (rewrite length_fmap, length_take; lia).
    rewrite length_fmap, length_take.
    replace (k `min` length ps) with k by lia. rewrite Nat.sub_diag.
    replace (length ps - k) with (S (length ps - S k)) by lia. done.
  - lia.
Qed.

Lemma afterFirst_run {uc : Go.Unicode} startErr (ps : list Provider.Provider) (k : nat) :
  (∀ p, p ∈ ps → startErr p = None) → k ≤ length ps →
  run startErr (i ← seq 0 k; replicate 5 i) (afterFirst 0 ps) = Some (afterFirst k ps).
Proof.
  intros Hstart. induction k as [|k IH]; intros Hk; [done|].
  rewrite seq_S, bind_app, run_app, IH by lia. cbn [mbind option_bind].
  cbn [app mbind list_bind]. rewrite app_nil_r.
  destruct (lookup_lt_is_Some_2 ps k) as [pk Hpk]; [lia|].
  apply (afterFirst_next _ _ _ pk); [done|]. apply Hstart.
  by apply list_elem_of_lookup_2 in Hpk.
Qed.

Lemma spawn_afterFirst {uc : Go.Unicode} (ps : list Provider.Provider) :
  spawn ps = afterFirst 0 ps.
Proof.
  unfold spawn, afterFirst. rewrite take_0, drop_0, Nat.sub_0_r. cbn [fmap list_fmap app].
  f_equal. f_equal. lia.
Qed.

(** X25. When the goroutines happen to run one after another and every provider
    starts, the names of all the providers are collected, in the order of
    the providers, and [wg.Wait()] returns. *)
Theorem one_after_another_collects_all {uc : Go.Unicode} startErr (ps : list Provider.Provider) :
  (∀ p, p ∈ ps → startErr p = None) →
  ∃ st, run startErr (oneAfterAnother (length ps)) (spawn ps) = Some st ∧
        waited st = true ∧
        collected st = Provider.Name <$> ps.
Proof.
  intros Hstart. exists (afterFirst (length ps) ps). split_and!.
  - unfold oneAfterAnother. rewrite spawn_afterFirst. by apply afterFirst_run.
  - unfold waited, afterFirst. cbn [mem wg]. apply bool_decide_eq_true. lia.
  - unfold collected, afterFirst. cbn [mem names arrays len ptr].
    rewrite lookup_singleton_eq. cbn [default].
    rewrite (take_ge ps (length ps)) by lia. rewrite Nat.sub_diag. cbn [replicate].
    rewrite app_nil_r. apply take_ge. by rewrite length_fmap.
Qed.

Lemma one_after_another_witness :
  ∃ st, run (uc:=unicode0) (λ _, None) (oneAfterAnother 4) (spawn providers) = Some st ∧
        waited st = true ∧
        collected st = ["CAPI"; "CABPK"; "KCP"; "CAPD"].
Proof.
  destruct (one_after_another_collects_all (uc:=unicode0) (λ _, None) providers
              (λ _ _, eq_refl))
    as (st & Hrun & Hw & Hc).
  exists st. split; [exact Hrun|]. split; [exact Hw|]. rewrite Hc. vm_compute. reflexivity.
Defined.

End WaitGroupFacts.
